(** * Embedding generation and caching of context-rag

    A shallow embedding of [python/fast_embedder.py] (the hash strategy,
    class [FastEmbedder]) and [python/embedder.py] (the model strategy and
    its on-disk cache, class [ContextRagEmbedder]).

    Conventions of the embedding.
    - A Python [str] is a [string] whose characters are the code points
      U+0000..U+00FF; [Str] gives [str.lower], [str.encode] (UTF-8), slicing,
      [int(s, 16)] and the regular expression of the tokenizer on them.
    - [hashlib.md5] and [hashlib.sha256] are written out from RFC 1321 and
      FIPS 180-4 over 32-bit words held in [Z].
    - NumPy arrays and Python floats are lists of real numbers: binary64
      rounding is idealised away, [np.linalg.norm] is the square root of
      the sum of squares.
    - A chunk (a Python [dict] decoded from JSON) is a [gmap string value].
    - Methods that read or write [self.word_cache], the cache directory or
      [sys.stderr] are functions in a state-and-exception monad.
    - [Rounded] has [get_word_embedding] and [embed_text] once more on
      binary64 floats, for the facts where the rounding shows.
    - [main] of either file is a function of the parsed arguments and of
      standard input as [json.loads] decodes it, to what is printed and
      the exit status. *)

From Stdlib Require Import ZArith Reals Lra Lia List String Ascii Permutation.
From Stdlib Require Floats.
From Stdlib Require DecimalString.
From stdpp Require Import gmap strings list fin_maps.

(** ** Exceptions and the state-and-exception monad *)

Inductive exn : Type :=
  | KeyError
  | IndexError
  | ValueError
  | AttributeError.

Inductive result (A : Type) : Type :=
  | Ok (a : A)
  | Raise (e : exn).
Arguments Ok {A} a.
Arguments Raise {A} e.

(** A computation over a store [S]: the store survives an exception, as
    the mutations a Python method made before raising do. *)
Definition M (S A : Type) : Type := S -> result A * S.

Definition ret {S A} (a : A) : M S A := fun s => (Ok a, s).
Definition raise {S A} (e : exn) : M S A := fun s => (Raise e, s).
Definition bind {S A B} (m : M S A) (k : A -> M S B) : M S B :=
  fun s =>
    match m s with
    | (Ok a, s') => k a s'
    | (Raise e, s') => (Raise e, s')
    end.
Definition lift {S A} (r : result A) : M S A := fun s => (r, s).

Declare Scope py_scope.
Delimit Scope py_scope with py.
Notation "'let*' x := m 'in' k" := (bind m (fun x => k))
  (at level 10, x name, m at level 200, k at level 200) : py_scope.

(** [for x in xs: acc = body(acc, x)] *)
Fixpoint for_each {S A B} (body : B -> A -> M S B) (xs : list A) (acc : B)
  : M S B :=
  match xs with
  | [] => ret acc
  | x :: xs' => bind (body acc x) (for_each body xs')
  end.

(** A list comprehension whose element expression may raise. *)
Fixpoint comprehension {A B} (f : A -> result B) (xs : list A)
  : result (list B) :=
  match xs with
  | [] => Ok []
  | x :: xs' =>
      match f x with
      | Raise e => Raise e
      | Ok y =>
          match comprehension f xs' with
          | Raise e => Raise e
          | Ok ys => Ok (y :: ys)
          end
      end
  end.

(** Case analysis on the result a goal or a hypothesis scrutinises. *)
Ltac case_result :=
  match goal with
  | |- context [match ?r with Ok _ => _ | Raise _ => _ end] =>
      destruct r eqn:?
  end.

Ltac case_hyp_result H :=
  match type of H with
  | context [match ?r with Ok _ => _ | Raise _ => _ end] =>
      destruct r eqn:?; try discriminate H
  end.

(** ** Python strings *)

Module Str.
Local Open Scope Z_scope.

Definition ord (c : ascii) : Z := Z.of_N (N_of_ascii c).
Definition chr (n : Z) : ascii := ascii_of_N (Z.to_N n).

Definition between (lo hi n : Z) : bool := (lo <=? n) && (n <=? hi).

(** [\w] of a [str] pattern: [c.isalnum() or c == '_']. *)
Definition is_word (c : ascii) : bool :=
  let n := ord c in
  between 48 57 n || between 65 90 n || (n =? 95) || between 97 122 n
  || (n =? 170) || between 178 179 n || (n =? 181) || between 185 186 n
  || between 188 190 n || between 192 214 n || between 216 246 n
  || between 248 255 n.

(** [str.lower] on one code point. *)
Definition lower_char (c : ascii) : ascii :=
  let n := ord c in
  if between 65 90 n || (between 192 222 n && negb (n =? 215))
  then chr (n + 32) else c.

Fixpoint lower (s : string) : string :=
  match s with
  | EmptyString => EmptyString
  | String c s' => String (lower_char c) (lower s')
  end.

(** [str.encode()]: UTF-8. *)
Definition encode_char (c : ascii) : list Z :=
  let n := ord c in
  if n <? 128 then [n]
  else [Z.lor 192 (Z.shiftr n 6); Z.lor 128 (Z.land n 63)].

Fixpoint encode (s : string) : list Z :=
  match s with
  | EmptyString => []
  | String c s' => encode_char c ++ encode s'
  end.

(** [s[i:j]] for [0 <= i <= j]. *)
Definition slice (s : string) (i j : nat) : string :=
  String.substring i (j - i) s.

Definition hex_value (c : ascii) : option Z :=
  let n := ord c in
  if between 48 57 n then Some (n - 48)
  else if between 97 102 n then Some (n - 87)
  else if between 65 70 n then Some (n - 55)
  else None.

Fixpoint int16_digits (acc : Z) (s : string) : result Z :=
  match s with
  | EmptyString => Ok acc
  | String c s' =>
      match hex_value c with
      | Some d => int16_digits (16 * acc + d) s'
      | None => Raise ValueError
      end
  end.

(** [int(s, 16)] on a string of hexadecimal digits ([ValueError]
    otherwise; signs, prefixes, underscores and blanks are not modelled
    and count as invalid). *)
Definition int16 (s : string) : result Z :=
  match s with
  | EmptyString => Raise ValueError
  | _ => int16_digits 0 s
  end.

(** [range(0, stop, 2)] *)
Definition range2 (stop : nat) : list nat :=
  map (fun k => (2 * k)%nat) (seq 0 (Nat.div2 (stop + 1))).

(** *** The regular expression [\b\w+\b] *)

Definition is_word_at (s : string) (i : nat) : bool :=
  match String.get i s with
  | Some c => is_word c
  | None => false
  end.

(** [\b] at position [i]: exactly one of the characters before and
    after the position is a word character. *)
Definition at_boundary (s : string) (i : nat) : bool :=
  xorb (match i with O => false | S j => is_word_at s j end)
       (is_word_at s i).

(** Greedy [\w+]: the number of consecutive word characters from [i]. *)
Fixpoint word_run (fuel : nat) (s : string) (i : nat) : nat :=
  match fuel with
  | O => O
  | S fuel' =>
      if is_word_at s i then S (word_run fuel' s (S i)) else O
  end.

(** Backtracking of [\w+] before the closing [\b]: the longest of the
    [k], [k - 1], ..., 1 characters after which the position is a
    boundary. *)
Fixpoint backtrack (s : string) (i k : nat) : option nat :=
  match k with
  | O => None
  | S k' =>
      if at_boundary s (i + k) then Some k else backtrack s i k'
  end.

(** One attempt of the pattern at position [i]: the length matched. *)
Definition match_at (s : string) (i : nat) : option nat :=
  if at_boundary s i
  then backtrack s i (word_run (String.length s) s i)
  else None.

(** The scan of [re.findall]: try the pattern at [i]; after a match
    resume at its end, otherwise one position further. *)
Fixpoint findall_from (fuel : nat) (s : string) (i : nat) : list string :=
  match fuel with
  | O => []
  | S fuel' =>
      if (String.length s <? i)%nat then []
      else
        match match_at s i with
        | Some k => slice s i (i + k) :: findall_from fuel' s (i + k)
        | None => findall_from fuel' s (S i)
        end
  end.

(** [re.findall(r'\b\w+\b', s)] *)
Definition findall_words (s : string) : list string :=
  findall_from (S (S (String.length s))) s 0.
End Str.

(** ** hashlib *)

Module Hashlib.
Local Open Scope Z_scope.

Definition mask32 : Z := 4294967295.
Definition add32 (a b : Z) : Z := (a + b) mod 4294967296.
Definition not32 (a : Z) : Z := Z.lxor a mask32.
Definition rotl32 (x c : Z) : Z :=
  Z.lor (Z.land (Z.shiftl x c) mask32) (Z.shiftr x (32 - c)).
Definition rotr32 (x c : Z) : Z :=
  Z.lor (Z.shiftr x c) (Z.land (Z.shiftl x (32 - c)) mask32).

Definition le_bytes (n : nat) (w : Z) : list Z :=
  map (fun k => Z.shiftr w (8 * Z.of_nat k) mod 256) (seq 0 n).
Definition be_bytes (n : nat) (w : Z) : list Z := rev (le_bytes n w).
Definition le_word (bs : list Z) : Z :=
  fold_right (fun b acc => b + 256 * acc) 0 bs.
Definition be_word (bs : list Z) : Z := le_word (rev bs).

Fixpoint chunks_of (k n : nat) {A} (l : list A) : list (list A) :=
  match n with
  | O => []
  | S n' => take k l :: chunks_of k n' (drop k l)
  end.

Definition pad_zeros (len : nat) : nat :=
  Z.to_nat ((55 - Z.of_nat len) mod 64).

Definition md5_K : list Z :=
  [3614090360; 3905402710; 606105819; 3250441966; 4118548399; 1200080426;
   2821735955; 4249261313; 1770035416; 2336552879; 4294925233; 2304563134;
   1804603682; 4254626195; 2792965006; 1236535329; 4129170786; 3225465664;
   643717713; 3921069994; 3593408605; 38016083; 3634488961; 3889429448;
   568446438; 3275163606; 4107603335; 1163531501; 2850285829; 4243563512;
   1735328473; 2368359562; 4294588738; 2272392833; 1839030562; 4259657740;
   2763975236; 1272893353; 4139469664; 3200236656; 681279174; 3936430074;
   3572445317; 76029189; 3654602809; 3873151461; 530742520; 3299628645;
   4096336452; 1126891415; 2878612391; 4237533241; 1700485571; 2399980690;
   4293915773; 2240044497; 1873313359; 4264355552; 2734768916; 1309151649;
   4149444226; 3174756917; 718787259; 3951481745].

Definition md5_S : list Z :=
  [7; 12; 17; 22; 7; 12; 17; 22; 7; 12; 17; 22; 7; 12; 17; 22;
   5; 9; 14; 20; 5; 9; 14; 20; 5; 9; 14; 20; 5; 9; 14; 20;
   4; 11; 16; 23; 4; 11; 16; 23; 4; 11; 16; 23; 4; 11; 16; 23;
   6; 10; 15; 21; 6; 10; 15; 21; 6; 10; 15; 21; 6; 10; 15; 21].

Definition md5_state : Type := Z * Z * Z * Z.

Definition md5_init : md5_state :=
  (1732584193, 4023233417, 2562383102, 271733878).

Definition md5_step (M : list Z) (st : md5_state) (i : nat) : md5_state :=
  let '(a, b, c, d) := st in
  let iz := Z.of_nat i in
  let '(f, g) :=
    if iz <? 16 then (Z.lor (Z.land b c) (Z.land (not32 b) d), iz)
    else if iz <? 32 then
      (Z.lor (Z.land d b) (Z.land (not32 d) c), (5 * iz + 1) mod 16)
    else if iz <? 48 then (Z.lxor (Z.lxor b c) d, (3 * iz + 5) mod 16)
    else (Z.lxor c (Z.lor b (not32 d)), (7 * iz) mod 16) in
  let f' := add32 (add32 (add32 f a) (nth i md5_K 0)) (nth (Z.to_nat g) M 0) in
  (d, add32 b (rotl32 f' (nth i md5_S 0)), b, c).

Definition md5_block (st : md5_state) (block : list Z) : md5_state :=
  let M := map le_word (chunks_of 4 16 block) in
  let '(a, b, c, d) := st in
  let '(a', b', c', d') := fold_left (md5_step M) (seq 0 64) st in
  (add32 a a', add32 b b', add32 c c', add32 d d').

Definition md5_pad (msg : list Z) : list Z :=
  msg ++ [128] ++ repeat 0 (pad_zeros (length msg))
      ++ le_bytes 8 (8 * Z.of_nat (length msg)).

(** [hashlib.md5(data).digest()]: the 16 bytes of RFC 1321. *)
Definition md5 (msg : list Z) : list Z :=
  let padded := md5_pad msg in
  let '(a, b, c, d) :=
    fold_left md5_block (chunks_of 64 (length padded / 64) padded) md5_init in
  le_bytes 4 a ++ le_bytes 4 b ++ le_bytes 4 c ++ le_bytes 4 d.

Definition sha256_K : list Z :=
  [1116352408; 1899447441; 3049323471; 3921009573; 961987163; 1508970993;
   2453635748; 2870763221; 3624381080; 310598401; 607225278; 1426881987;
   1925078388; 2162078206; 2614888103; 3248222580; 3835390401; 4022224774;
   264347078; 604807628; 770255983; 1249150122; 1555081692; 1996064986;
   2554220882; 2821834349; 2952996808; 3210313671; 3336571891; 3584528711;
   113926993; 338241895; 666307205; 773529912; 1294757372; 1396182291;
   1695183700; 1986661051; 2177026350; 2456956037; 2730485921; 2820302411;
   3259730800; 3345764771; 3516065817; 3600352804; 4094571909; 275423344;
   430227734; 506948616; 659060556; 883997877; 958139571; 1322822218;
   1537002063; 1747873779; 1955562222; 2024104815; 2227730452; 2361852424;
   2428436474; 2756734187; 3204031479; 3329325298].

Definition sha256_init : list Z :=
  [1779033703; 3144134277; 1013904242; 2773480762; 1359893119; 2600822924;
   528734635; 1541459225].

Definition xor3 (a b c : Z) : Z := Z.lxor (Z.lxor a b) c.

Fixpoint sha256_schedule (n : nat) (W : list Z) : list Z :=
  match n with
  | O => W
  | S n' =>
      let t := length W in
      let w15 := nth (t - 15) W 0 in
      let w2 := nth (t - 2) W 0 in
      let s0 := xor3 (rotr32 w15 7) (rotr32 w15 18) (Z.shiftr w15 3) in
      let s1 := xor3 (rotr32 w2 17) (rotr32 w2 19) (Z.shiftr w2 10) in
      sha256_schedule n'
        (W ++ [add32 (add32 (add32 (nth (t - 16) W 0) s0) (nth (t - 7) W 0)) s1])
  end.

Definition sha256_round (W : list Z) (st : list Z) (t : nat) : list Z :=
  match st with
  | [a; b; c; d; e; f; g; h] =>
      let S1 := xor3 (rotr32 e 6) (rotr32 e 11) (rotr32 e 25) in
      let ch := Z.lxor (Z.land e f) (Z.land (not32 e) g) in
      let T1 := add32 (add32 (add32 (add32 h S1) ch) (nth t sha256_K 0)) (nth t W 0) in
      let S0 := xor3 (rotr32 a 2) (rotr32 a 13) (rotr32 a 22) in
      let maj := xor3 (Z.land a b) (Z.land a c) (Z.land b c) in
      let T2 := add32 S0 maj in
      [add32 T1 T2; a; b; c; add32 d T1; e; f; g]
  | _ => st
  end.

Definition sha256_block (st : list Z) (block : list Z) : list Z :=
  let W := sha256_schedule 48 (map be_word (chunks_of 4 16 block)) in
  zip_with add32 st (fold_left (sha256_round W) (seq 0 64) st).

Definition sha256_pad (msg : list Z) : list Z :=
  msg ++ [128] ++ repeat 0 (pad_zeros (length msg))
      ++ be_bytes 8 (8 * Z.of_nat (length msg)).

(** [hashlib.sha256(data).digest()]: the 32 bytes of FIPS 180-4. *)
Definition sha256 (msg : list Z) : list Z :=
  let padded := sha256_pad msg in
  concat (map (be_bytes 4)
    (fold_left sha256_block (chunks_of 64 (length padded / 64) padded) sha256_init)).

Definition hex_digit (n : Z) : ascii :=
  ascii_of_N (Z.to_N (if n <? 10 then 48 + n else 87 + n)).

(** [.hexdigest()]: two lower-case hexadecimal digits per digest byte. *)
Fixpoint hexdigest (bs : list Z) : string :=
  match bs with
  | [] => EmptyString
  | b :: bs' =>
      String (hex_digit (b / 16)) (String (hex_digit (b mod 16)) (hexdigest bs'))
  end.
End Hashlib.

(** ** NumPy arrays of floats, over the reals *)

Module Np.
Local Open Scope R_scope.

Definition zeros (n : nat) : list R := repeat 0 n.

(** [np.pad(v, (0, n))] *)
Definition pad (v : list R) (n : nat) : list R := v ++ repeat 0 n.

Definition sum_squares (v : list R) : R :=
  fold_right (fun x acc => x * x + acc) 0 v.

(** [np.linalg.norm(v)] *)
Definition norm (v : list R) : R := sqrt (sum_squares v).

(** [v / c], [v * c] and [u + v]. NumPy raises on arrays of different
    shapes, where [zip_with] stops at the shorter one; the arrays added in
    [embed_text] all have [vocab_size] components. *)
Definition div (v : list R) (c : R) : list R := map (fun x => x / c) v.
Definition mul (v : list R) (c : R) : list R := map (fun x => x * c) v.
Definition add (u v : list R) : list R := zip_with Rplus u v.

(** [if norm > 0: v = v / norm] *)
Definition normalize (v : list R) : list R :=
  let norm := norm v in
  if Rlt_dec 0 norm then div v norm else v.
End Np.

(** ** JSON values and chunks *)

#[local] Set Warnings "-register-all".

Inductive value : Type :=
  | VNone
  | VBool (b : bool)
  | VInt (n : Z)
  | VFloat (x : R)
  | VStr (s : string)
  | VList (l : list value)
  | VDict (d : list (string * value)).

(** A Python list of floats. *)
Definition vec_value (v : list R) : value := VList (map VFloat v).

Abbreviation chunk := (gmap string value).

(** ** fast_embedder.py *)

Module FastEmbedder.
Local Open Scope py_scope.

(** [self.vocab_size] *)
Definition vocab_size : nat := 384.

(** [self.word_cache], empty after [__init__]. *)
Abbreviation word_cache := (gmap string (list R)).

Definition init : word_cache := ∅.

Definition tokenize (text : string) : list string :=
  Str.findall_words (Str.lower text).

(** The list comprehension of [get_word_embedding]. *)
Definition hash_components (word_hash : string) : result (list R) :=
  comprehension
    (fun i =>
       match Str.int16 (Str.slice word_hash i (i + 2)) with
       | Ok b => Ok (IZR b / 255 - 0.5)%R
       | Raise e => Raise e
       end)
    (Str.range2 (Nat.min (String.length word_hash) (vocab_size * 2))).

(** Pad or truncate to [vocab_size]. *)
Definition resize (embedding : list R) : list R :=
  if (length embedding <? vocab_size)%nat
  then Np.pad embedding (vocab_size - length embedding)
  else take vocab_size embedding.

Definition word_hash (word : string) : string :=
  Hashlib.hexdigest (Hashlib.md5 (Str.encode word)).

(** The array of [get_word_embedding] before it is normalised. *)
Definition raw_word_embedding (word : string) : result (list R) :=
  match hash_components (word_hash word) with
  | Ok embedding => Ok (resize embedding)
  | Raise e => Raise e
  end.

Definition get_word_embedding (word : string) : M word_cache (list R) :=
  fun cache =>
    match cache !! word with
    | Some embedding => (Ok embedding, cache)
    | None =>
        match raw_word_embedding word with
        | Raise e => (Raise e, cache)
        | Ok embedding =>
            let embedding := Np.normalize embedding in
            (Ok embedding, <[word := embedding]> cache)
        end
    end.

(** [Counter(tokens).items()]: the distinct tokens in order of first
    occurrence, each with its number of occurrences. *)
Fixpoint counter_add (word : string) (counts : list (string * nat))
  : list (string * nat) :=
  match counts with
  | [] => [(word, 1%nat)]
  | (w, n) :: counts' =>
      if String.eqb w word then (w, S n) :: counts'
      else (w, n) :: counter_add word counts'
  end.

Definition Counter (tokens : list string) : list (string * nat) :=
  fold_left (fun counts word => counter_add word counts) tokens [].

Definition embed_text (text : string) : M word_cache (list R) :=
  let tokens := tokenize text in
  match tokens with
  | [] => ret (repeat 0%R vocab_size)
  | _ =>
      let word_counts := Counter tokens in
      let total_words := length tokens in
      let* text_embedding :=
        for_each
          (fun text_embedding '(word, count) =>
             let* word_emb := get_word_embedding word in
             let tf_weight := (INR count / INR total_words)%R in
             ret (Np.add text_embedding (Np.mul word_emb tf_weight)))
          word_counts (Np.zeros vocab_size) in
      ret (Np.normalize text_embedding)
  end.

(** [embed_text] on whatever [chunk.get('content', '')] gave: a value
    that is not a [str] has no [lower]. *)
Definition embed_content (content : value) : M word_cache (list R) :=
  match content with
  | VStr text => embed_text text
  | _ => raise AttributeError
  end.

Definition embed_chunks (chunks : list chunk) : M word_cache (list chunk) :=
  for_each
    (fun result (chunk : chunk) =>
       let content := default (VStr "") (chunk !! "content") in
       let* embedding := embed_content content in
       let chunk_with_embedding :=
         <["embedding" := vec_value embedding]> chunk in
       ret (result ++ [chunk_with_embedding]))
    chunks [].
End FastEmbedder.

(** ** embedder.py *)

Module ContextRagEmbedder.
Local Open Scope py_scope.

(** What a path of the cache directory holds: a JSON object, some other
    JSON document, or a file that cannot be opened or parsed. *)
Inductive file : Type :=
  | JsonObject (d : gmap string value)
  | JsonOther (v : value)
  | Unparsable.

(** The world outside the embedder: the files, whether they can be
    written, what went to [sys.stderr], and the batches handed to the
    model so far. *)
Record world : Type := World {
  files : gmap string file;
  read_only : bool;
  stderr : list string;
  encoded : list (list value)
}.

(** The embedder after [__init__]. [model] is [self.model.encode]
    followed by [tolist]: [None] when either raises an [Exception]. *)
Record t : Type := Embedder {
  model_name : string;
  cache_dir : string;
  model : list value -> option (list (list R))
}.

(** [print(line, file=sys.stderr)]; the text of the exception that the
    source appends to the line is left out. *)
Definition print_stderr (line : string) : M world unit :=
  fun w =>
    (Ok tt, World (files w) (read_only w) (stderr w ++ [line]) (encoded w)).

Definition generate_embeddings (self : t) (texts : list value)
  : M world (list (list R)) :=
  match texts with
  | [] => ret []
  | _ =>
      fun w =>
        let w := World (files w) (read_only w) (stderr w) (encoded w ++ [texts]) in
        match model self texts with
        | Some embeddings => (Ok embeddings, w)
        | None =>
            (let* _ := print_stderr "Error generating embeddings" in ret []) w
        end
  end.

(** [self.cache_dir / f"{cache_key}.json"], for a key that is a file
    name. *)
Definition cache_file (self : t) (cache_key : string) : string :=
  cache_dir self +:+ "/" +:+ cache_key +:+ ".json".

(** [cached_data.get('model') == self.model_name] *)
Definition model_is (stored : option value) (name : string) : bool :=
  match stored with
  | Some (VStr s) => String.eqb s name
  | _ => false
  end.

(** The block under "Check cache first": [Some] when it returns. Every
    exception of the [try] (open, parse, [get] on a non-object, a
    missing ['embedding']) falls through. *)
Definition check_cache (self : t) (path : string) : M world (option value) :=
  fun w =>
    match files w !! path with
    | Some (JsonObject cached_data) =>
        if model_is (cached_data !! "model") (model_name self)
        then (Ok (cached_data !! "embedding"), w)
        else (Ok None, w)
    | _ => (Ok None, w)
    end.

(** The block under "Save to cache". *)
Definition save_to_cache (self : t) (path cache_key : string)
    (embedding : list R) : M world unit :=
  fun w =>
    if read_only w
    then print_stderr "Warning: Failed to cache embedding" w
    else
      let cache_data : gmap string value :=
        <["embedding" := vec_value embedding]>
          (<["text_hash" := VStr cache_key]>
             (<["model" := VStr (model_name self)]> ∅)) in
      (Ok tt, World (<[path := JsonObject cache_data]> (files w))
                    (read_only w) (stderr w) (encoded w)).

(** [l[0]] *)
Definition first {A} (l : list A) : result A :=
  match l with
  | [] => Raise IndexError
  | x :: _ => Ok x
  end.

Definition embed_with_cache (self : t) (text : string)
    (cache_key : option string) : M world value :=
  let cache_key :=
    match cache_key with
    | None => Hashlib.hexdigest (Hashlib.sha256 (Str.encode text))
    | Some key => key
    end in
  let path := cache_file self cache_key in
  let* cached := check_cache self path in
  match cached with
  | Some embedding => ret embedding
  | None =>
      let* embeddings := generate_embeddings self [VStr text] in
      let* embedding := lift (first embeddings) in
      let* _ := save_to_cache self path cache_key embedding in
      ret (vec_value embedding)
  end.

Definition content_of (chunk : chunk) : result value :=
  match chunk !! "content" with
  | Some content => Ok content
  | None => Raise KeyError
  end.

Definition embed_chunks (self : t) (chunks_data : list chunk)
  : M world (list chunk) :=
  let* texts := lift (comprehension content_of chunks_data) in
  let* embeddings := generate_embeddings self texts in
  ret (zip_with
         (fun (chunk : chunk) embedding =>
            <["embedding" := vec_value embedding]> chunk)
         chunks_data embeddings).
End ContextRagEmbedder.

(** ** Reference definitions

    The algorithms of the specification (WordHasher, TextAggregator),
    written from its wording and independently of the code above; the
    theorems further down compare the two. *)

Module Reference.
Local Open Scope R_scope.

(** The embedding dimension D. *)
Definition D : nat := 384.

(** A byte value in [0,255] rescaled to [-0.5,0.5]. *)
Definition rescale (b : Z) : R := IZR b / 255 - 0.5.

(** Truncate or zero-pad to exactly [D] values. *)
Definition fit (v : list R) : list R :=
  take D v ++ repeat 0 (D - length v).

(** Renormalise to unit L2 norm; a vector of norm zero is left as it is. *)
Definition unit (v : list R) : list R :=
  if Req_dec_T (Np.norm v) 0 then v
  else map (fun x => x / Np.norm v) v.

(** WordHasher: [vector_for(token)]. *)
Definition word_vector (token : string) : list R :=
  unit (fit (map rescale (Hashlib.md5 (Str.encode token)))).

(** Maximal runs of alphanumeric/underscore characters: a character of
    that kind extends the current run, any other character closes it. *)
Definition close_run (run : string) : list string :=
  match run with
  | EmptyString => []
  | _ => [run]
  end.

Fixpoint runs_from (run : string) (s : string) : list string :=
  match s with
  | EmptyString => close_run run
  | String c s' =>
      if Str.is_word c then runs_from (run +:+ String c EmptyString) s'
      else close_run run ++ runs_from EmptyString s'
  end.

Definition tokens (text : string) : list string :=
  runs_from EmptyString (Str.lower text).

Definition occurrences (token : string) (toks : list string) : nat :=
  length (filter (fun t => t = token) toks).

(** Term frequency: occurrences / total tokens. *)
Definition tf (token : string) (toks : list string) : R :=
  INR (occurrences token toks) / INR (length toks).

Definition scale (c : R) (v : list R) : list R := map (Rmult c) v.

(** Componentwise sum of vectors of dimension [D]. *)
Definition vsum (vs : list (list R)) : list R :=
  foldr (zip_with Rplus) (repeat 0 D) vs.

(** TextAggregator: [vector_for(text)]. *)
Definition text_vector (text : string) : list R :=
  let toks := tokens text in
  match toks with
  | [] => repeat 0 D
  | _ =>
      unit (vsum (map (fun t => scale (tf t toks) (word_vector t))
                      (remove_dups toks)))
  end.
End Reference.

(** ** Definitions used by the statements and proofs below *)

(** Splitting a string at the end of its first run of word characters. *)
Module Runs.
Import Str.

Fixpoint take_word (s : string) : string :=
  match s with
  | String c s' => if is_word c then String c (take_word s') else EmptyString
  | EmptyString => EmptyString
  end.

Fixpoint drop_word (s : string) : string :=
  match s with
  | String c s' => if is_word c then drop_word s' else s
  | EmptyString => EmptyString
  end.

Definition starts_word (s : string) : bool := is_word_at s 0.

Fixpoint ends_word (s : string) : bool :=
  match s with
  | EmptyString => false
  | String c EmptyString => is_word c
  | String _ s' => ends_word s'
  end.
End Runs.

Module Digest.
Local Open Scope Z_scope.

Definition is_byte (b : Z) : Prop := 0 <= b < 256.

(** One element of the comprehension of [get_word_embedding]. *)
Definition component (s : string) (i : nat) : result R :=
  match Str.int16 (Str.slice s i (i + 2)) with
  | Ok b => Ok (IZR b / 255 - 0.5)%R
  | Raise e => Raise e
  end.
End Digest.

Module Memo.
Import FastEmbedder.

(** Every memoised array is the vector of its word. *)
Definition cache_ok (cache : word_cache) : Prop :=
  forall word embedding,
    cache !! word = Some embedding -> embedding = Reference.word_vector word.

(** The memo tables a [FastEmbedder] can hold: the one of [__init__], and
    those its methods leave behind, whether they return or raise. *)
Inductive reachable : word_cache -> Prop :=
  | reach_init : reachable init
  | reach_get_word_embedding (word : string) (cache : word_cache) :
      reachable cache -> reachable (get_word_embedding word cache).2
  | reach_embed_text (text : string) (cache : word_cache) :
      reachable cache -> reachable (embed_text text cache).2
  | reach_embed_chunks (chunks : list chunk) (cache : word_cache) :
      reachable cache -> reachable (embed_chunks chunks cache).2.
End Memo.

Module Tally.
Import FastEmbedder.

Definition tally (f : string -> nat) (keys : list string)
  : list (string * nat) :=
  map (fun k => (k, f k)) keys.

(** What [Counter] holds after the tokens [toks]. *)
Definition counts (keys toks : list string) (cs : list (string * nat)) : Prop :=
  cs = tally (fun k => Reference.occurrences k toks) keys
  /\ NoDup keys
  /\ (forall k, k ∈ keys <-> k ∈ toks).

(** The weighted vector a token contributes to a text. *)
Definition term (toks : list string) (t : string) : list R :=
  Reference.scale (Reference.tf t toks) (Reference.word_vector t).
End Tally.

Module Effects.
Import ContextRagEmbedder.

(** The world after a batch went to the model. *)
Definition submitted (texts : list value) (w : world) : world :=
  World (files w) (read_only w) (stderr w) (encoded w ++ [texts]).

Definition logged (line : string) (w : world) : world :=
  World (files w) (read_only w) (stderr w ++ [line]) (encoded w).

(** The key [embed_with_cache] files an entry under. *)
Definition key_of (text : string) (cache_key : option string) : string :=
  match cache_key with
  | None => Hashlib.hexdigest (Hashlib.sha256 (Str.encode text))
  | Some key => key
  end.

(** What [json.dump(cache_data, f)] leaves in the file. *)
Definition entry (name key : string) (embedding : list R) : file :=
  JsonObject
    (<["embedding" := vec_value embedding]>
       (<["text_hash" := VStr key]> (<["model" := VStr name]> ∅))).

Definition stored (path : string) (f : file) (w : world) : world :=
  World (<[path := f]> (files w)) (read_only w) (stderr w) (encoded w).
End Effects.

Module Chunks.

(** The text [embed_chunks] embeds for a chunk. *)
Definition content_text (c : chunk) : string :=
  match c !! "content" with
  | Some (VStr s) => s
  | _ => EmptyString
  end.

(** The chunk has no ['content'], or a [str]. *)
Definition content_ok (c : chunk) : Prop :=
  match c !! "content" with
  | None | Some (VStr _) => True
  | Some _ => False
  end.

Definition with_text_vector (c : chunk) : chunk :=
  <["embedding" := vec_value (Reference.text_vector (content_text c))]> c.

(** The chunk [embed_chunks] of the model strategy pairs with a vector. *)
Definition with_embedding (c : chunk) (embedding : list R) : chunk :=
  <["embedding" := vec_value embedding]> c.

(** [out] holds one record per chunk, in order: the chunk with a list
    of floats under ['embedding'] and every other field as it was. *)
Definition embedded (chunks out : list chunk) : Prop :=
  length out = length chunks
  /\ forall i c, chunks !! i = Some c ->
       exists (r : chunk) (e : list R),
         out !! i = Some r
         /\ r !! "embedding" = Some (vec_value e)
         /\ forall field, field <> "embedding" -> r !! field = c !! field.
End Chunks.

(** The component [int(h, 16) / 255.0 - 0.5] in binary64, as Python
    computes it. *)
Module Binary64.
Import Floats.

Definition component (b : Z) : float :=
  (PrimFloat.of_uint63 (Uint63.of_Z b) / 255 - 0.5)%float.
End Binary64.

(** Embedders, worlds and chunks to run the definitions on. *)
Module Examples.
Import ContextRagEmbedder.

Definition cache_directory : string := ".context-rag/embeddings".

(** An embedder whose model embeds every text as (1, 0). *)
Definition minilm : t :=
  Embedder "all-MiniLM-L6-v2" cache_directory
    (fun texts => Some (map (fun _ => [1; 0]%R) texts)).

(** Another model over the same cache directory. *)
Definition mpnet : t :=
  Embedder "all-mpnet-base-v2" cache_directory
    (fun texts => Some (map (fun _ => [0; 1]%R) texts)).

(** An embedder whose batch inference raises. *)
Definition failing : t :=
  Embedder "all-MiniLM-L6-v2" cache_directory (fun _ => None).

(** An embedder whose model returns one vector whatever the batch. *)
Definition short : t :=
  Embedder "all-MiniLM-L6-v2" cache_directory (fun _ => Some [[1; 0]%R]).

Definition empty_world : world := World ∅ false [] [].

Definition chunk_x : chunk := <["id" := VInt 1]> (<["content" := VStr "x"]> ∅).
Definition chunk_y : chunk := <["id" := VInt 2]> (<["content" := VStr "y"]> ∅).
Definition chunk_bare : chunk := <["id" := VInt 3]> ∅.
End Examples.

(** ** Definitions for the further properties *)

(** What a token looks like. *)
Module Tokens.
Import Str.

Fixpoint all_word (s : string) : bool :=
  match s with
  | EmptyString => true
  | String c s' => is_word c && all_word s'
  end.

(** The word characters of a string, in order. *)
Fixpoint word_chars (s : string) : string :=
  match s with
  | EmptyString => EmptyString
  | String c s' => if is_word c then String c (word_chars s') else word_chars s'
  end.

(** [''.join(tokens)] *)
Definition join (tokens : list string) : string :=
  fold_right String.append EmptyString tokens.

(** A token is a non-empty string of word characters that [str.lower]
    leaves as it is. *)
Definition token_ok (t : string) : Prop :=
  t <> EmptyString /\ all_word t = true /\ lower t = t.
End Tokens.

(** What keeps a file of the cache from being used by an embedder: it
    cannot be read as a JSON object, it has no ['embedding'], or its
    ['model'] is not the embedder's model name. *)
Module Entries.
Import ContextRagEmbedder.

Definition unusable (self : t) (f : file) : Prop :=
  match f with
  | JsonObject d =>
      d !! "embedding" = None \/ d !! "model" <> Some (VStr (model_name self))
  | JsonOther _ | Unparsable => True
  end.
(** What a call leaves of the world it started in. *)
Definition framed (path : string) (batch : list value) (w w' : world) : Prop :=
  read_only w' = read_only w
  /\ (forall p, p <> path -> files w' !! p = files w !! p)
  /\ (encoded w' = encoded w \/ encoded w' = encoded w ++ [batch])
  /\ exists lines, stderr w' = stderr w ++ lines.

End Entries.

(** ** The command lines: [main] of both files *)

(** Python's handling of the decoded input before it reaches an
    embedder. A [VDict] lists the items of a [dict], whose keys are
    distinct. *)
Module Py.

(** The exceptions raised inside the [try] blocks of [main]; the handlers
    catch them all. *)
Inductive error : Type :=
  | TypeError
  | JSONDecodeError
  | OSError
  | Builtin (e : exn).

Inductive attempt (A : Type) : Type :=
  | Done (a : A)
  | Failed (e : error).
Arguments Done {A} a.
Arguments Failed {A} e.

Definition dict_of (items : list (string * value)) : chunk :=
  list_to_map items.

(** [json.dumps] of a chunk, read back by [json.loads]. *)
Definition chunk_value (c : chunk) : value := VDict (map_to_list c).

(** [if s:] on an optional argument: [None] and [''] are false. *)
Definition given (s : option string) : option string :=
  match s with
  | Some (String c s') => Some (String c s')
  | _ => None
  end.

(** [for item in v] *)
Definition iterate (v : value) : attempt (list value) :=
  match v with
  | VList l => Done l
  | VDict d => Done (map (fun kv => VStr kv.1) d)
  | VStr s =>
      Done (map (fun c => VStr (String c EmptyString)) (list_ascii_of_string s))
  | _ => Failed TypeError
  end.

(** [len(v)] *)
Definition len (v : value) : attempt nat :=
  match v with
  | VList l => Done (length l)
  | VDict d => Done (length d)
  | VStr s => Done (String.length s)
  | _ => Failed TypeError
  end.

(** [needle in s] on strings. *)
Fixpoint contains (needle s : string) : bool :=
  String.prefix needle s
  || match s with
     | EmptyString => false
     | String _ s' => contains needle s'
     end.

Definition is_str (s : string) (v : value) : bool :=
  match v with
  | VStr s' => String.eqb s' s
  | _ => false
  end.

(** ['chunks' in v] *)
Definition has_chunks (v : value) : attempt bool :=
  match v with
  | VDict d => Done (bool_decide (is_Some (dict_of d !! "chunks")))
  | VList l => Done (existsb (is_str "chunks") l)
  | VStr s => Done (contains "chunks" s)
  | _ => Failed TypeError
  end.

(** [v['chunks']] *)
Definition get_chunks (v : value) : attempt value :=
  match v with
  | VDict d =>
      match dict_of d !! "chunks" with
      | Some chunks => Done chunks
      | None => Failed (Builtin KeyError)
      end
  | _ => Failed TypeError
  end.

(** [if 'chunks' in input_data: chunks_data = input_data['chunks']
     else: chunks_data = input_data] *)
Definition select_chunks (input_data : value) : attempt value :=
  match has_chunks input_data with
  | Failed e => Failed e
  | Done true => get_chunks input_data
  | Done false => Done input_data
  end.

(** [if isinstance(chunks_data, dict) and 'chunks' in chunks_data:
     chunks_data = chunks_data['chunks']] *)
Definition select_chunks_of_dict (chunks_data : value) : value :=
  match chunks_data with
  | VDict d =>
      match dict_of d !! "chunks" with
      | Some chunks => chunks
      | None => chunks_data
      end
  | _ => chunks_data
  end.

(** The leading items that are dicts. *)
Fixpoint dict_prefix (items : list value) : list chunk :=
  match items with
  | VDict d :: items' => dict_of d :: dict_prefix items'
  | _ => []
  end.

(** An item the hash strategy embeds: a dict whose ['content'], if there
    is one, is a [str]. *)
Definition hashable (v : value) : Prop :=
  match v with
  | VDict d => Chunks.content_ok (dict_of d)
  | _ => False
  end.

(** An item the model strategy sends to the model: a dict with a
    ['content']. *)
Definition has_content (v : value) : Prop :=
  match v with
  | VDict d => is_Some (dict_of d !! "content")
  | _ => False
  end.

(** [str(n)] *)
Definition str (n : nat) : string :=
  DecimalString.NilZero.string_of_uint (Nat.to_uint n).

(** What [main] prints on standard output. *)
Inductive document : Type :=
  | TextResult (text : string) (embedding : value) (model : string)
  | BatchResult (model : string) (chunks : list chunk) (total_chunks : nat).

(** The first line of the traceback of an exception no handler caught. *)
Definition traceback : string := "Traceback (most recent call last):".
End Py.

(** [main] of fast_embedder.py. [--model] and [--cache-dir] are parsed
    and ignored. *)
Module FastMain.
Import Py.

Record run : Type := Run {
  stdout : list document;
  stderr : list string;
  status : Z
}.

(** [embedder.embed_chunks(chunks_data)] on whatever the input held: the
    loop raises at the first item that is not a dict, after the items
    before it. *)
Definition embed_chunks (chunks : value) (cache : FastEmbedder.word_cache)
  : attempt (list chunk) * FastEmbedder.word_cache :=
  match iterate chunks with
  | Failed e => (Failed e, cache)
  | Done items =>
      let dicts := dict_prefix items in
      match FastEmbedder.embed_chunks dicts cache with
      | (Raise e, cache') => (Failed (Builtin e), cache')
      | (Ok result, cache') =>
          if (length dicts =? length items)%nat then (Done result, cache')
          else (Failed (Builtin AttributeError), cache')
      end
  end.

(** The [except Exception] of [main]: a line on stderr, without the text
    of the exception, and [sys.exit(1)]. *)
Definition failure : run := Run [] ["Error"] 1.

(** [stdin] is standard input decoded by [json.loads], [None] when that
    raises. *)
Definition main (text : option string) (stdin : option value) : run :=
  let embedder := FastEmbedder.init in
  match given text with
  | Some text =>
      match FastEmbedder.embed_text text embedder with
      | (Ok embedding, _) =>
          Run [TextResult text (vec_value embedding) "fast-embedder"] [] 0
      | (Raise _, _) => Run [] [traceback] 1
      end
  | None =>
      match stdin with
      | None => failure
      | Some input_data =>
          match select_chunks input_data with
          | Failed _ => failure
          | Done chunks_data =>
              match embed_chunks chunks_data embedder with
              | (Done embedded_chunks, _) =>
                  Run [BatchResult "fast-embedder" embedded_chunks
                         (length embedded_chunks)] [] 0
              | (Failed _, _) => failure
              end
          end
      end
  end.
End FastMain.

(** [__init__] and [main] of embedder.py. *)
Module ContextRagMain.
Import Py ContextRagEmbedder.

Record args : Type := Args {
  arg_model : string;
  arg_cache_dir : string;
  arg_input : option string;
  arg_output : option string;
  arg_text : option string
}.

(** [SentenceTransformer(model_name)]: the model's [encode], or [None]
    when loading raises. *)
Definition loader : Type :=
  string -> option (list value -> option (list (list R))).

Record run : Type := Run {
  stdout : list document;
  status : Z
}.

(** [ContextRagEmbedder(model_name, cache_dir)] from the [try] on, once
    the [mkdir] of the cache directory has returned ([main_from_mkdir]
    has the run in which it raises): [None] is the [sys.exit(1)] of a
    model that does not load. The directories [mkdir] makes are no files
    and leave the world as it is. *)
Definition init (load : loader) (model_name cache_dir : string)
  : world -> option t * world :=
  fun w =>
    let (_, w) := print_stderr ("Loading model: " +:+ model_name) w in
    match load model_name with
    | Some model =>
        let (_, w) := print_stderr "Model loaded successfully" w in
        (Some (Embedder model_name cache_dir model), w)
    | None =>
        let (_, w) := print_stderr ("Error loading model " +:+ model_name) w in
        (None, w)
    end.

(** The world after a model loaded. *)
Definition loaded (model_name : string) (w : world) : world :=
  Effects.logged "Model loaded successfully"
    (Effects.logged ("Loading model: " +:+ model_name) w).

(** [embedder.embed_chunks(chunks_data)] on whatever the input held: the
    comprehension raises at the first item without a ['content']. *)
Definition embed_chunks (self : t) (chunks_data : value)
  : world -> attempt (list chunk) * world :=
  fun w =>
    match iterate chunks_data with
    | Failed e => (Failed e, w)
    | Done items =>
        let dicts := dict_prefix items in
        if (length dicts =? length items)%nat then
          match ContextRagEmbedder.embed_chunks self dicts w with
          | (Ok result, w') => (Done result, w')
          | (Raise e, w') => (Failed (Builtin e), w')
          end
        else
          match comprehension content_of dicts with
          | Raise e => (Failed (Builtin e), w)
          | Ok _ => (Failed TypeError, w)
          end
    end.

(** [with open(path, 'r') as f: json.load(f)] *)
Definition load_json (path : string) (w : world) : attempt value :=
  match files w !! path with
  | None => Failed OSError
  | Some Unparsable => Failed JSONDecodeError
  | Some (JsonObject d) => Done (VDict (map_to_list d))
  | Some (JsonOther v) => Done v
  end.

(** The [result] of the batch branches, as [json.dump] writes it. *)
Definition result_file (model : string) (chunks : list chunk) : file :=
  JsonObject
    (<["total_chunks" := VInt (Z.of_nat (length chunks))]>
       (<["chunks" := VList (map chunk_value chunks)]>
          (<["model" := VStr model]> ∅))).

(** An [except Exception] of [main]: a line on stderr, [sys.exit(1)]. *)
Definition failure (line : string) (w : world) : run * world :=
  let (_, w) := print_stderr line w in (Run [] 1, w).

Definition main (load : loader) (a : args) (stdin : option value)
  : world -> run * world :=
  fun w =>
    match init load (arg_model a) (arg_cache_dir a) w with
    | (None, w) => (Run [] 1, w)
    | (Some embedder, w) =>
        match given (arg_text a) with
        | Some text =>
            match embed_with_cache embedder text None w with
            | (Ok embedding, w) =>
                (Run [TextResult text embedding (arg_model a)] 0, w)
            | (Raise _, w) =>
                let (_, w) := print_stderr traceback w in (Run [] 1, w)
            end
        | None =>
            match given (arg_input a) with
            | Some path =>
                match load_json path w with
                | Failed _ => failure "Error processing input file" w
                | Done chunks_data =>
                    let chunks_data := select_chunks_of_dict chunks_data in
                    match len chunks_data with
                    | Failed _ => failure "Error processing input file" w
                    | Done n =>
                        let (_, w) :=
                          print_stderr
                            ("Processing " +:+ str n +:+ " chunks...") w in
                        match embed_chunks embedder chunks_data w with
                        | (Failed _, w) =>
                            failure "Error processing input file" w
                        | (Done embedded_chunks, w) =>
                            match given (arg_output a) with
                            | Some out =>
                                if read_only w
                                then failure "Error processing input file" w
                                else
                                  let w :=
                                    World
                                      (<[out := result_file (arg_model a)
                                                  embedded_chunks]> (files w))
                                      (read_only w) (stderr w) (encoded w) in
                                  let (_, w) :=
                                    print_stderr
                                      ("Embeddings saved to " +:+ out) w in
                                  (Run [] 0, w)
                            | None =>
                                (Run [BatchResult (arg_model a) embedded_chunks
                                        (length embedded_chunks)] 0, w)
                            end
                        end
                    end
                end
            | None =>
                match stdin with
                | None => failure "Error reading from stdin" w
                | Some input_data =>
                    match select_chunks input_data with
                    | Failed _ => failure "Error reading from stdin" w
                    | Done chunks_data =>
                        match embed_chunks embedder chunks_data w with
                        | (Done embedded_chunks, w) =>
                            (Run [BatchResult (arg_model a) embedded_chunks
                                    (length embedded_chunks)] 0, w)
                        | (Failed _, w) =>
                            failure "Error reading from stdin" w
                        end
                    end
                end
            end
        end
    end.
(** The run from the first statement of [__init__]: [made] tells whether
    [self.cache_dir.mkdir(parents=True, exist_ok=True)] returns. It
    raises when the path names a file or a directory cannot be made; no
    handler is around it, so nothing has been printed yet and the run
    ends with a traceback. Where it returns, the run is [main]. *)
Definition main_from_mkdir (made : bool) (load : loader) (a : args)
    (stdin : option value) : world -> run * world :=
  fun w =>
    if made then main load a stdin w
    else let (_, w) := print_stderr traceback w in (Run [] 1, w).

(** The branch of [main] that reads standard input, once the model is
    loaded. *)
Definition stdin_batch (a : args) (self : t) (chunks_data : value)
    (w : world) : run * world :=
  match embed_chunks self chunks_data w with
  | (Done embedded_chunks, w) =>
      (Run [BatchResult (arg_model a) embedded_chunks
              (length embedded_chunks)] 0, w)
  | (Failed _, w) => failure "Error reading from stdin" w
  end.
End ContextRagMain.

(** The shape NumPy asks of the arrays it adds: every array of the table
    has [vocab_size] components. On such tables [zip_with] and NumPy's
    [+=] agree. *)
Module Arrays.
Import FastEmbedder.

Definition shape_ok (cache : word_cache) : Prop :=
  forall (word : string) (embedding : list R),
    cache !! word = Some embedding -> length embedding = vocab_size.
End Arrays.

(** ** The hash strategy in binary64

    [get_word_embedding] and [embed_text] once more, on binary64 floats
    with the rounding of each operation, for the facts that the real
    numbers hide. [int / int] and [int / 255.0] are correctly rounded
    quotients. [np.linalg.norm(v)] is the square root of [v.dot(v)]; the
    order in which the products are added is the BLAS library's, and they
    are added here from left to right. *)
Module Rounded.
Import Floats.
Local Open Scope py_scope.

Abbreviation word_cache := (gmap string (list float)).

Definition zeros (n : nat) : list float := repeat 0%float n.

Definition dot (u v : list float) : float :=
  fold_left (fun acc xy => (acc + xy.1 * xy.2)%float) (zip u v) 0%float.

Definition norm (v : list float) : float := PrimFloat.sqrt (dot v v).

Definition div (v : list float) (c : float) : list float :=
  map (fun x => (x / c)%float) v.
Definition mul (v : list float) (c : float) : list float :=
  map (fun x => (x * c)%float) v.
Definition add (u v : list float) : list float := zip_with PrimFloat.add u v.

(** [if norm > 0: v = v / norm] *)
Definition normalize (v : list float) : list float :=
  let norm := norm v in
  if (0 <? norm)%float then div v norm else v.

(** [float(n)] *)
Definition of_nat (n : nat) : float :=
  PrimFloat.of_uint63 (Uint63.of_Z (Z.of_nat n)).

Definition hash_components (word_hash : string) : result (list float) :=
  comprehension
    (fun i =>
       match Str.int16 (Str.slice word_hash i (i + 2)) with
       | Ok b => Ok (Binary64.component b)
       | Raise e => Raise e
       end)
    (Str.range2 (Nat.min (String.length word_hash)
                   (FastEmbedder.vocab_size * 2))).

Definition resize (embedding : list float) : list float :=
  if (length embedding <? FastEmbedder.vocab_size)%nat
  then embedding ++ zeros (FastEmbedder.vocab_size - length embedding)
  else take FastEmbedder.vocab_size embedding.

Definition get_word_embedding (word : string) : M word_cache (list float) :=
  fun cache =>
    match cache !! word with
    | Some embedding => (Ok embedding, cache)
    | None =>
        match hash_components (FastEmbedder.word_hash word) with
        | Raise e => (Raise e, cache)
        | Ok embedding =>
            let embedding := normalize (resize embedding) in
            (Ok embedding, <[word := embedding]> cache)
        end
    end.

Definition embed_text (text : string) : M word_cache (list float) :=
  let tokens := FastEmbedder.tokenize text in
  match tokens with
  | [] => ret (zeros FastEmbedder.vocab_size)
  | _ =>
      let word_counts := FastEmbedder.Counter tokens in
      let total_words := length tokens in
      let* text_embedding :=
        for_each
          (fun text_embedding '(word, count) =>
             let* word_emb := get_word_embedding word in
             let tf_weight := (of_nat count / of_nat total_words)%float in
             ret (add text_embedding (mul word_emb tf_weight)))
          word_counts (zeros FastEmbedder.vocab_size) in
      ret (normalize text_embedding)
  end.

(** What [FastEmbedder().embed_text(text)] returns. *)
Definition output (text : string) : list float :=
  match embed_text text ∅ with
  | (Ok embedding, _) => embedding
  | (Raise _, _) => []
  end.

(** [u == v] on lists of floats. *)
Fixpoint same (u v : list float) : bool :=
  match u, v with
  | [], [] => true
  | x :: u', y :: v' => PrimFloat.eqb x y && same u' v'
  | _, _ => false
  end.
End Rounded.

(** * Proofs *)

(** ** The library models on known values *)

Module Checks.
Example md5_hello :
  Hashlib.hexdigest (Hashlib.md5 (Str.encode "hello"))
  = "5d41402abc4b2a76b9719d911017c592".
Proof. vm_compute. reflexivity. Qed.

Example md5_empty :
  Hashlib.hexdigest (Hashlib.md5 (Str.encode ""))
  = "d41d8cd98f00b204e9800998ecf8427e".
Proof. vm_compute. reflexivity. Qed.

Example sha256_hello :
  Hashlib.hexdigest (Hashlib.sha256 (Str.encode "hello"))
  = "2cf24dba5fb0a30e26e83b2ac5b9e29e1b161e5c1fa7425e73043362938b9824".
Proof. vm_compute. reflexivity. Qed.

(** U+00C9 and "t" encode to the UTF-8 bytes c3 89 74. *)
Example encode_latin1 :
  Str.encode (String (Str.chr 201) "t") = [195; 137; 116]%Z.
Proof. reflexivity. Qed.

Example lower_latin1 :
  Str.lower (String (Str.chr 201) "T") = String (Str.chr 233) "t".
Proof. reflexivity. Qed.

Example tokenize_words :
  FastEmbedder.tokenize "Hello, World_1 foo-bar"
  = ["hello"; "world_1"; "foo"; "bar"].
Proof. vm_compute. reflexivity. Qed.

Example tokenize_blank : FastEmbedder.tokenize " -- " = [].
Proof. vm_compute. reflexivity. Qed.

Example counter_items :
  FastEmbedder.Counter ["a"; "b"; "a"] = [("a", 2%nat); ("b", 1%nat)].
Proof. reflexivity. Qed.

Example range2_odd : Str.range2 5 = [0; 2; 4]%nat.
Proof. reflexivity. Qed.

Example int16_pair : Str.int16 "5d" = Ok 93%Z.
Proof. reflexivity. Qed.

Example int16_invalid : Str.int16 "5g" = Raise ValueError.
Proof. reflexivity. Qed.

(** In binary64 too no component is zero: 127/255 and 128/255 round to
    floats on either side of 0.5. *)
Lemma component_binary64_nonzero (b : Z) :
  (0 <= b <= 255)%Z ->
  PrimFloat.eqb (Binary64.component b) PrimFloat.zero = false.
Proof.
  intros H.
  assert (forallb
            (fun k => negb (PrimFloat.eqb (Binary64.component (Z.of_nat k))
                                   PrimFloat.zero))
            (seq 0 256) = true) as Hall by (vm_compute; reflexivity).
  rewrite forallb_forall in Hall.
  specialize (Hall (Z.to_nat b)). rewrite Z2Nat.id in Hall by lia.
  apply negb_true_iff, Hall, in_seq. lia.
Qed.
End Checks.

(** ** The monad and comprehensions *)

Section MonadLaws.
Context {S A B C : Type}.

Lemma bind_ret_l (a : A) (k : A -> M S B) (s : S) : bind (ret a) k s = k a s.
Proof. reflexivity. Qed.

Lemma bind_ret_r (m : M S A) (s : S) : bind m ret s = m s.
Proof. unfold bind, ret. destruct (m s) as [[a|e] s']; reflexivity. Qed.

Lemma bind_assoc (m : M S A) (k : A -> M S B) (h : B -> M S C) (s : S) :
  bind (bind m k) h s = bind m (fun a => bind (k a) h) s.
Proof. unfold bind. destruct (m s) as [[a|e] s']; reflexivity. Qed.

Lemma bind_ok (m : M S A) (k : A -> M S B) (s s' : S) (a : A) :
  m s = (Ok a, s') -> bind m k s = k a s'.
Proof. intros H. unfold bind. now rewrite H. Qed.

Lemma bind_raise (m : M S A) (k : A -> M S B) (s s' : S) (e : exn) :
  m s = (Raise e, s') -> bind m k s = (Raise e, s').
Proof. intros H. unfold bind. now rewrite H. Qed.
End MonadLaws.

(** A loop keeps what each of its iterations keeps, also when it raises. *)
Lemma for_each_invariant {S A B} (P : S -> Prop) (body : B -> A -> M S B)
    (xs : list A) (acc : B) (s : S) :
  (forall acc x s, P s -> P (body acc x s).2) ->
  P s -> P (for_each body xs acc s).2.
Proof.
  intros Hbody. revert acc s.
  induction xs as [|x xs IH]; intros acc s Hs; [exact Hs |].
  cbn [for_each]. unfold bind.
  pose proof (Hbody acc x s Hs) as Hstep.
  destruct (body acc x s) as [[acc'|e] s']; [now apply IH | exact Hstep].
Qed.

Lemma comprehension_map {A B C} (f : B -> result C) (g : A -> B) (xs : list A) :
  comprehension f (map g xs) = comprehension (fun x => f (g x)) xs.
Proof.
  induction xs as [|x xs IH]; simpl; [reflexivity |].
  case_result; [now rewrite IH | reflexivity].
Qed.

Lemma comprehension_ext {A B} (f g : A -> result B) (xs : list A) :
  (forall x, f x = g x) -> comprehension f xs = comprehension g xs.
Proof.
  intros H. induction xs as [|x xs IH]; simpl; [reflexivity |].
  now rewrite H, IH.
Qed.

Lemma comprehension_length {A B} (f : A -> result B) (xs : list A) (ys : list B) :
  comprehension f xs = Ok ys -> length ys = length xs.
Proof.
  revert ys. induction xs as [|x xs IH]; simpl; intros ys H.
  - now inversion H.
  - repeat case_hyp_result H.
    inversion H; subst. simpl. f_equal. now apply IH.
Qed.

Lemma comprehension_lookup {A B} (f : A -> result B) (xs : list A) (ys : list B)
    (i : nat) (x : A) :
  comprehension f xs = Ok ys -> xs !! i = Some x ->
  exists y, f x = Ok y /\ ys !! i = Some y.
Proof.
  revert ys i. induction xs as [|a xs IH]; simpl; intros ys i H Hi.
  - discriminate.
  - repeat case_hyp_result H.
    inversion H; subst. destruct i as [|i]; simpl in *.
    + inversion Hi; subst. eauto.
    + now apply IH.
Qed.

(** ** The tokenizer: the scan of the regular expression finds the maximal runs *)

Module StrFacts.
Import Str Runs.
#[local] Arguments String.append !_ _ / : simpl nomatch.

Lemma length_app (p q : string) :
  String.length (p +:+ q) = String.length p + String.length q.
Proof. induction p as [|c p IH]; simpl; [reflexivity | now rewrite IH]. Qed.

Lemma app_assoc_char (p q : string) (c : ascii) :
  p +:+ String c q = (p +:+ String c EmptyString) +:+ q.
Proof. induction p as [|a p IH]; simpl; [reflexivity | now rewrite IH]. Qed.

Lemma app_empty_r (p : string) : p +:+ EmptyString = p.
Proof. induction p as [|a p IH]; simpl; [reflexivity | now rewrite IH]. Qed.

Lemma get_app_r (p q : string) (j : nat) :
  String.get (String.length p + j) (p +:+ q) = String.get j q.
Proof. induction p as [|a p IH]; simpl; [reflexivity | exact IH]. Qed.

Lemma substring_app_r (p q : string) (k : nat) :
  String.substring (String.length p) k (p +:+ q) = String.substring 0 k q.
Proof. induction p as [|a p IH]; simpl; [reflexivity | exact IH]. Qed.

Lemma is_word_at_app_r (p q : string) (j : nat) :
  is_word_at (p +:+ q) (String.length p + j) = is_word_at q j.
Proof. unfold is_word_at. now rewrite get_app_r. Qed.

Lemma take_drop_word (s : string) : take_word s +:+ drop_word s = s.
Proof.
  induction s as [|c s IH]; simpl; [reflexivity |].
  destruct (is_word c); simpl; [now rewrite IH | reflexivity].
Qed.

Lemma starts_word_drop (s : string) : starts_word (drop_word s) = false.
Proof.
  induction s as [|c s IH]; simpl; [reflexivity |].
  destruct (is_word c) eqn:E; [exact IH |].
  unfold starts_word, is_word_at. simpl. exact E.
Qed.

Lemma take_word_not_starts (s : string) :
  starts_word s = false -> take_word s = EmptyString.
Proof.
  destruct s as [|c s]; [reflexivity |].
  unfold starts_word, is_word_at. simpl. now intros ->.
Qed.

Lemma take_word_starts (s : string) :
  starts_word s = true -> take_word s <> EmptyString.
Proof.
  destruct s as [|c s]; unfold starts_word, is_word_at; simpl;
    [discriminate |].
  now intros ->.
Qed.

Lemma ends_word_snoc (p : string) (c : ascii) :
  ends_word (p +:+ String c EmptyString) = is_word c.
Proof.
  induction p as [|a p IH]; [reflexivity |].
  simpl. destruct (p +:+ String c EmptyString) eqn:E; [| exact IH].
  destruct p; discriminate.
Qed.

(** The character before position [length p] of [p ++ q]. *)
Lemma before_app (p q : string) :
  match String.length p with
  | O => false
  | S j => is_word_at (p +:+ q) j
  end = ends_word p.
Proof.
  induction p as [|a p IH]; [reflexivity |].
  simpl. destruct p as [|b p].
  - reflexivity.
  - simpl in IH |- *. unfold is_word_at in IH |- *. simpl. exact IH.
Qed.

Lemma at_boundary_app (p q : string) :
  at_boundary (p +:+ q) (String.length p) = xorb (ends_word p) (starts_word q).
Proof.
  unfold at_boundary. rewrite before_app. f_equal.
  unfold starts_word.
  rewrite <- (is_word_at_app_r p q 0). now rewrite Nat.add_0_r.
Qed.

Lemma ends_word_app_take (p q : string) :
  starts_word q = true -> ends_word (p +:+ take_word q) = true.
Proof.
  revert p. induction q as [|c q IH]; intros p.
  - discriminate.
  - unfold starts_word, is_word_at. simpl. intros Hc. rewrite Hc.
    rewrite app_assoc_char.
    destruct (starts_word q) eqn:Hq.
    + now apply IH.
    + rewrite (take_word_not_starts q Hq), app_empty_r.
      now rewrite ends_word_snoc.
Qed.

(** Greedy [\w+] consumes the whole run. *)
Lemma word_run_app (fuel : nat) (p q : string) :
  String.length (take_word q) <= fuel ->
  word_run fuel (p +:+ q) (String.length p) = String.length (take_word q).
Proof.
  revert fuel p. induction q as [|c q IH]; intros fuel p Hf.
  - destruct fuel; simpl; [reflexivity |].
    rewrite <- (Nat.add_0_r (String.length p)), is_word_at_app_r.
    reflexivity.
  - destruct fuel as [|fuel].
    + simpl in Hf |- *. destruct (is_word c); simpl in *; lia.
    + simpl. rewrite <- (Nat.add_0_r (String.length p)) at 1.
      rewrite is_word_at_app_r. unfold is_word_at at 1. simpl.
      simpl in Hf.
      destruct (is_word c) eqn:Hc; [| reflexivity].
      simpl in Hf. simpl. f_equal.
      rewrite app_assoc_char.
      replace (S (String.length p))
        with (String.length (p +:+ String c EmptyString))
        by (rewrite length_app; simpl; lia).
      apply IH. lia.
Qed.

Lemma length_take_word_le (q : string) :
  String.length (take_word q) <= String.length q.
Proof.
  induction q as [|c q IH]; simpl; [lia |].
  destruct (is_word c); simpl; lia.
Qed.

(** No backtracking happens: after the whole run the position is a
    boundary. *)
Lemma match_at_app (p q : string) :
  ends_word p && starts_word q = false ->
  match_at (p +:+ q) (String.length p) =
    if starts_word q then Some (String.length (take_word q)) else None.
Proof.
  intros Hinv. unfold match_at.
  rewrite at_boundary_app, word_run_app.
  2:{ rewrite length_app. pose proof (length_take_word_le q). lia. }
  destruct (starts_word q) eqn:Hq.
  - destruct (ends_word p); [discriminate |]. simpl.
    pose proof (take_word_starts q Hq) as Hne.
    destruct (String.length (take_word q)) as [|k] eqn:Hk.
    { destruct (take_word q); [congruence | discriminate]. }
    simpl. rewrite <- Hk, <- length_app.
    rewrite <- (take_drop_word q) at 1.
    replace (p +:+ (take_word q +:+ drop_word q))
      with ((p +:+ take_word q) +:+ drop_word q).
    2:{ clear. induction p as [|a p IH]; simpl; [reflexivity | now rewrite IH]. }
    rewrite at_boundary_app, starts_word_drop, ends_word_app_take by exact Hq.
    reflexivity.
  - rewrite (take_word_not_starts q Hq). simpl.
    now destruct (xorb (ends_word p) false).
Qed.

Lemma app_assoc (p q r : string) : p +:+ (q +:+ r) = (p +:+ q) +:+ r.
Proof. induction p as [|a p IH]; simpl; [reflexivity | now rewrite IH]. Qed.

Lemma substring_prefix (a b : string) :
  String.substring 0 (String.length a) (a +:+ b) = a.
Proof. induction a as [|c a IH]; simpl; [now destruct b | now rewrite IH]. Qed.

Lemma substring_take_word (q : string) :
  String.substring 0 (String.length (take_word q)) q = take_word q.
Proof. rewrite <- (take_drop_word q) at 2. apply substring_prefix. Qed.

Lemma length_take_drop (q : string) :
  String.length q = String.length (take_word q) + String.length (drop_word q).
Proof. now rewrite <- length_app, take_drop_word. Qed.

(** The reference scan, one run at a time. *)
Lemma runs_from_split (run q : string) :
  Reference.runs_from run q =
    match drop_word q with
    | EmptyString => Reference.close_run (run +:+ take_word q)
    | String _ q' =>
        Reference.close_run (run +:+ take_word q)
          ++ Reference.runs_from EmptyString q'
    end.
Proof.
  revert run. induction q as [|c q IH]; intros run; simpl.
  - now rewrite app_empty_r.
  - destruct (is_word c) eqn:Hc.
    + rewrite IH, <- app_assoc_char. reflexivity.
    + now rewrite app_empty_r.
Qed.

Lemma runs_from_drop_word (q : string) :
  Reference.runs_from EmptyString (drop_word q) =
    match drop_word q with
    | EmptyString => []
    | String _ q' => Reference.runs_from EmptyString q'
    end.
Proof.
  pose proof (starts_word_drop q) as H.
  destruct (drop_word q) as [|c q']; [reflexivity |].
  unfold starts_word, is_word_at in H. simpl in H |- *. now rewrite H.
Qed.

Lemma findall_from_app (n : nat) :
  forall (fuel : nat) (p q : string),
    String.length q <= n ->
    String.length q < fuel ->
    ends_word p && starts_word q = false ->
    findall_from fuel (p +:+ q) (String.length p) =
      Reference.runs_from EmptyString q.
Proof.
  induction n as [|n IH]; intros fuel p q Hn Hfuel Hinv;
    (destruct fuel as [|fuel]; [lia |]); simpl.
  - destruct q; [| simpl in Hn; lia].
    rewrite app_empty_r, (proj2 (Nat.ltb_ge _ _)) by lia.
    pose proof (match_at_app p EmptyString) as Hm.
    rewrite app_empty_r in Hm. rewrite Hm by (now rewrite andb_false_r).
    simpl. destruct fuel; simpl; [reflexivity |].
    now rewrite (proj2 (Nat.ltb_lt _ _)) by lia.
  - rewrite (proj2 (Nat.ltb_ge _ _)) by (rewrite length_app; lia).
    rewrite match_at_app by exact Hinv.
    destruct (starts_word q) eqn:Hq.
    + unfold slice.
      replace (String.length p + String.length (take_word q) - String.length p)
        with (String.length (take_word q)) by lia.
      rewrite substring_app_r, substring_take_word.
      pose proof (take_word_starts q Hq) as Hne.
      pose proof (length_take_drop q) as Hlen.
      assert (0 < String.length (take_word q)) as Hpos.
      { destruct (take_word q); [congruence | simpl; lia]. }
      replace (p +:+ q) with ((p +:+ take_word q) +:+ drop_word q)
        by (now rewrite <- app_assoc, take_drop_word).
      rewrite <- length_app.
      rewrite IH; [| lia | lia | now rewrite starts_word_drop, andb_false_r].
      rewrite (runs_from_split EmptyString q), runs_from_drop_word.
      simpl. destruct (take_word q) eqn:Htw; [congruence |].
      now destruct (drop_word q).
    + destruct q as [|c q].
      * rewrite app_empty_r. simpl.
        destruct fuel; simpl; [reflexivity |].
        now rewrite (proj2 (Nat.ltb_lt _ _)) by lia.
      * unfold starts_word, is_word_at in Hq. simpl in Hq.
        simpl. rewrite Hq. simpl.
        rewrite app_assoc_char.
        replace (S (String.length p))
          with (String.length (p +:+ String c EmptyString))
          by (rewrite length_app; simpl; lia).
        simpl in Hn, Hfuel.
        apply IH; [lia | lia |].
        now rewrite ends_word_snoc, Hq.
Qed.

(** [re.findall(r'\b\w+\b', s)] is the list of maximal word runs. *)
Lemma findall_words_runs (s : string) :
  findall_words s = Reference.runs_from EmptyString s.
Proof.
  unfold findall_words.
  apply (findall_from_app (String.length s) _ EmptyString s); auto.
Qed.
End StrFacts.

(** ** Digests and their hexadecimal form *)

Module HashlibFacts.
Import Hashlib Digest.
Local Open Scope Z_scope.

Lemma le_bytes_length (n : nat) (w : Z) : length (le_bytes n w) = n.
Proof. unfold le_bytes. now rewrite length_map, length_seq. Qed.

Lemma le_bytes_range (n : nat) (w : Z) : Forall is_byte (le_bytes n w).
Proof.
  unfold le_bytes. apply Forall_forall. intros b Hb.
  apply list_elem_of_fmap in Hb as (k & -> & _).
  apply Z.mod_pos_bound. lia.
Qed.

Lemma md5_length (msg : list Z) : length (md5 msg) = 16%nat.
Proof.
  unfold md5.
  destruct (fold_left md5_block _ md5_init) as [[[a b] c] d].
  rewrite !length_app, !le_bytes_length. reflexivity.
Qed.

Lemma md5_range (msg : list Z) : Forall is_byte (md5 msg).
Proof.
  unfold md5.
  destruct (fold_left md5_block _ md5_init) as [[[a b] c] d].
  rewrite !Forall_app. repeat split; apply le_bytes_range.
Qed.

Lemma hexdigest_length (bs : list Z) :
  String.length (hexdigest bs) = (2 * length bs)%nat.
Proof. induction bs as [|b bs IH]; simpl; [reflexivity | rewrite IH; lia]. Qed.

Lemma hex_value_digit (n : Z) :
  0 <= n < 16 -> Str.hex_value (hex_digit n) = Some n.
Proof.
  intros H.
  assert (forallb
            (fun k => match Str.hex_value (hex_digit (Z.of_nat k)) with
                      | Some d => d =? Z.of_nat k
                      | None => false
                      end) (seq 0 16) = true) as Hall by reflexivity.
  rewrite forallb_forall in Hall.
  specialize (Hall (Z.to_nat n)).
  rewrite Z2Nat.id in Hall by lia.
  destruct (Str.hex_value (hex_digit n)) as [d|].
  - f_equal. apply Z.eqb_eq, Hall, in_seq. lia.
  - discriminate Hall. apply in_seq. lia.
Qed.

(** Reading a pair of digits of [hexdigest] gives the byte back. *)
Lemma int16_byte (b : Z) :
  is_byte b ->
  Str.int16 (String (hex_digit (b / 16))
               (String (hex_digit (b mod 16)) EmptyString)) = Ok b.
Proof.
  intros Hb. unfold is_byte in Hb. unfold Str.int16. simpl.
  rewrite hex_value_digit
    by (split; [apply Z.div_pos; lia | apply Z.div_lt_upper_bound; lia]).
  rewrite hex_value_digit by (apply Z.mod_pos_bound; lia).
  f_equal. pose proof (Z.div_mod b 16). lia.
Qed.
End HashlibFacts.

Module HashComponents.
Import FastEmbedder Digest HashlibFacts.

Lemma component_shift (a b : ascii) (s : string) (i : nat) :
  component (String a (String b s)) (2 * S i) = component s (2 * i).
Proof.
  unfold component, Str.slice.
  replace (2 * S i)%nat with (S (S (2 * i))) by lia.
  replace (S (S (2 * i)) + 2 - S (S (2 * i)))%nat with 2%nat by lia.
  replace (2 * i + 2 - 2 * i)%nat with 2%nat by lia.
  reflexivity.
Qed.

Lemma component_head (b : Z) (bs : list Z) :
  is_byte b ->
  component (Hashlib.hexdigest (b :: bs)) 0 = Ok (Reference.rescale b).
Proof.
  intros Hb. unfold component, Str.slice. cbn [Hashlib.hexdigest].
  change (String.substring 0 (0 + 2 - 0)
            (String (Hashlib.hex_digit (b / 16))
               (String (Hashlib.hex_digit (b mod 16)) (Hashlib.hexdigest bs))))
    with (String (Hashlib.hex_digit (b / 16))
            (String (Hashlib.hex_digit (b mod 16))
               (String.substring 0 0 (Hashlib.hexdigest bs)))).
  replace (String.substring 0 0 (Hashlib.hexdigest bs)) with EmptyString
    by (now destruct (Hashlib.hexdigest bs)).
  now rewrite int16_byte.
Qed.

Lemma components_hexdigest (bs : list Z) (m : nat) :
  Forall is_byte bs ->
  (m <= length bs)%nat ->
  comprehension (fun k => component (Hashlib.hexdigest bs) (2 * k)) (seq 0 m)
  = Ok (map Reference.rescale (take m bs)).
Proof.
  intros Hbs. revert m.
  induction Hbs as [|b bs Hb Hbs IH]; intros m Hm.
  - simpl in Hm. assert (m = 0%nat) as -> by lia. reflexivity.
  - destruct m as [|m]; [reflexivity |].
    simpl in Hm.
    cbn [seq comprehension take map].
    change (2 * 0)%nat with 0%nat.
    rewrite component_head by exact Hb.
    rewrite <- seq_shift, comprehension_map.
    rewrite (comprehension_ext _
               (fun k => component (Hashlib.hexdigest bs) (2 * k))).
    2:{ intros i. cbn [Hashlib.hexdigest]. apply component_shift. }
    rewrite IH by lia. reflexivity.
Qed.

Lemma range2_min (n : nat) :
  Nat.div2 (Nat.min (2 * n) (vocab_size * 2) + 1) = Nat.min n vocab_size.
Proof.
  destruct (Nat.le_gt_cases n vocab_size) as [H | H].
  - rewrite !Nat.min_l by lia.
    replace (2 * n + 1)%nat with (S (2 * n)) by lia.
    apply Nat.div2_succ_double.
  - rewrite !Nat.min_r by lia.
    replace (vocab_size * 2 + 1)%nat with (S (2 * vocab_size)) by lia.
    apply Nat.div2_succ_double.
Qed.

(** The comprehension of [get_word_embedding] never raises on a
    [hexdigest], and reads the digest's bytes back. *)
Lemma hash_components_hexdigest (bs : list Z) :
  Forall is_byte bs ->
  hash_components (Hashlib.hexdigest bs)
  = Ok (map Reference.rescale (take vocab_size bs)).
Proof.
  intros Hbs. unfold hash_components, Str.range2.
  rewrite hexdigest_length, range2_min, comprehension_map.
  change (fun x : nat => match Str.int16 (Str.slice (Hashlib.hexdigest bs) (2 * x) (2 * x + 2)) with
                         | Ok b => Ok (IZR b / 255 - 0.5)%R
                         | Raise e => Raise e
                         end)
    with (fun k => component (Hashlib.hexdigest bs) (2 * k)).
  rewrite components_hexdigest by (exact Hbs || lia).
  destruct (Nat.le_gt_cases (length bs) vocab_size) as [H | H].
  - rewrite Nat.min_l by lia. now rewrite !firstn_all2 by lia.
  - now rewrite Nat.min_r by lia.
Qed.

Lemma resize_fit (bs : list Z) :
  resize (map Reference.rescale (take vocab_size bs))
  = Reference.fit (map Reference.rescale bs).
Proof.
  unfold resize, Reference.fit, Np.pad.
  change Reference.D with vocab_size.
  rewrite !length_map, length_take.
  destruct (Nat.le_gt_cases vocab_size (length bs)) as [H | H].
  - rewrite Nat.min_l by lia.
    rewrite (proj2 (Nat.ltb_ge _ _)) by lia.
    replace (vocab_size - length bs)%nat with 0%nat by lia.
    rewrite app_nil_r. rewrite <- !fmap_take.
    now rewrite take_take, Nat.min_id.
  - rewrite Nat.min_r by lia.
    rewrite (proj2 (Nat.ltb_lt _ _)) by lia.
    rewrite !firstn_all2 by (rewrite ?length_map; lia). reflexivity.
Qed.

(** The array before normalisation, in closed form. *)
Lemma raw_word_embedding_fit (word : string) :
  raw_word_embedding word
  = Ok (Reference.fit (map Reference.rescale (Hashlib.md5 (Str.encode word)))).
Proof.
  unfold raw_word_embedding, word_hash.
  rewrite hash_components_hexdigest by apply md5_range.
  now rewrite resize_fit.
Qed.
End HashComponents.

(** ** Norms and sums of arrays *)

Module NpFacts.
Import Np.
Local Open Scope R_scope.

Lemma sum_squares_nonneg (v : list R) : 0 <= sum_squares v.
Proof.
  induction v as [|x v IH]; simpl; [lra |].
  pose proof (Rle_0_sqr x) as Hx. unfold Rsqr in Hx. lra.
Qed.

Lemma sum_squares_app (u v : list R) :
  sum_squares (u ++ v) = sum_squares u + sum_squares v.
Proof. induction u as [|x u IH]; simpl; [lra | rewrite IH; lra]. Qed.

Lemma sum_squares_zeros (n : nat) : sum_squares (repeat 0 n) = 0.
Proof. induction n as [|n IH]; simpl; [reflexivity | rewrite IH; lra]. Qed.

Lemma sum_squares_div (v : list R) (c : R) :
  c <> 0 -> sum_squares (div v c) = sum_squares v / (c * c).
Proof.
  intros Hc. induction v as [|x v IH]; simpl.
  - field. exact Hc.
  - rewrite IH. field. exact Hc.
Qed.

Lemma sum_squares_pos (v : list R) :
  Exists (fun x => x <> 0) v -> 0 < sum_squares v.
Proof.
  induction 1 as [x v Hx | x v _ IH]; simpl.
  - pose proof (sum_squares_nonneg v).
    assert (0 < x * x) by (apply Rsqr_pos_lt; exact Hx). lra.
  - pose proof (Rle_0_sqr x) as Hx. unfold Rsqr in Hx. lra.
Qed.

Lemma sum_squares_zero_inv (v : list R) :
  sum_squares v = 0 -> v = repeat 0 (length v).
Proof.
  induction v as [|x v IH]; simpl; intros H; [reflexivity |].
  pose proof (sum_squares_nonneg v) as Hv.
  pose proof (Rle_0_sqr x) as Hx. unfold Rsqr in Hx.
  assert (x * x = 0) as Hxx by lra.
  apply Rmult_integral in Hxx.
  assert (x = 0) as -> by tauto.
  f_equal. apply IH. lra.
Qed.

Lemma norm_nonneg (v : list R) : 0 <= norm v.
Proof. apply sqrt_pos. Qed.

Lemma norm_pos (v : list R) : 0 < sum_squares v -> 0 < norm v.
Proof. apply sqrt_lt_R0. Qed.

Lemma norm_zeros (n : nat) : norm (repeat 0 n) = 0.
Proof. unfold norm. rewrite sum_squares_zeros. apply sqrt_0. Qed.

Lemma norm_zero_inv (v : list R) : norm v = 0 -> v = repeat 0 (length v).
Proof.
  intros H. apply sum_squares_zero_inv.
  apply sqrt_eq_0; [apply sum_squares_nonneg | exact H].
Qed.

Lemma norm_div_norm (v : list R) : 0 < norm v -> norm (div v (norm v)) = 1.
Proof.
  intros Hn. unfold norm at 1.
  rewrite sum_squares_div by lra.
  unfold norm. rewrite sqrt_sqrt by apply sum_squares_nonneg.
  assert (sum_squares v <> 0) as Hs.
  { intros H0. unfold norm in Hn. rewrite H0, sqrt_0 in Hn. lra. }
  replace (sum_squares v / sum_squares v) with 1 by (field; exact Hs).
  apply sqrt_1.
Qed.

Lemma normalize_pos (v : list R) :
  0 < norm v -> normalize v = div v (norm v).
Proof. intros H. unfold normalize. now destruct (Rlt_dec 0 (norm v)). Qed.

Lemma normalize_zero (v : list R) : norm v = 0 -> normalize v = v.
Proof.
  intros H. unfold normalize. rewrite H.
  destruct (Rlt_dec 0 0); [lra | reflexivity].
Qed.

(** The normalised array has norm 1, unless the array had norm 0 and
    was left alone. *)
Lemma norm_normalize (v : list R) :
  norm (normalize v) = 1 \/ (norm v = 0 /\ normalize v = v).
Proof.
  destruct (Rlt_dec 0 (norm v)) as [H | H].
  - left. rewrite normalize_pos by exact H. now apply norm_div_norm.
  - right. pose proof (norm_nonneg v) as Hge.
    assert (norm v = 0) as H0 by lra. split; [exact H0 |].
    now apply normalize_zero.
Qed.

Lemma normalize_length (v : list R) : length (normalize v) = length v.
Proof.
  unfold normalize. destruct (Rlt_dec 0 (norm v)); [| reflexivity].
  unfold div. now rewrite length_map.
Qed.

Lemma unit_normalize (v : list R) : Reference.unit v = normalize v.
Proof.
  unfold Reference.unit, normalize, div.
  pose proof (norm_nonneg v).
  destruct (Req_dec_T (norm v) 0), (Rlt_dec 0 (norm v)); try reflexivity; lra.
Qed.

Lemma add_comm (u v : list R) : add u v = add v u.
Proof.
  unfold add. revert v. induction u as [|x u IH]; intros [|y v]; simpl;
    try reflexivity.
  now rewrite IH, Rplus_comm.
Qed.

Lemma add_assoc (u v w : list R) : add u (add v w) = add (add u v) w.
Proof.
  unfold add. revert v w.
  induction u as [|x u IH]; intros [|y v] [|z w]; simpl; try reflexivity.
  now rewrite IH, Rplus_assoc.
Qed.

Lemma add_length (u v : list R) :
  length (add u v) = Nat.min (length u) (length v).
Proof.
  unfold add. revert v. induction u as [|x u IH]; intros [|y v]; simpl;
    try reflexivity.
  now rewrite IH.
Qed.

Lemma add_zeros_r (v : list R) (n : nat) :
  (length v <= n)%nat -> add v (zeros n) = v.
Proof.
  unfold add, zeros. revert n.
  induction v as [|x v IH]; intros n Hn; simpl; [reflexivity |].
  destruct n as [|n]; simpl in *; [lia |].
  rewrite IH by lia. now rewrite Rplus_0_r.
Qed.

Lemma mul_length (v : list R) (c : R) : length (mul v c) = length v.
Proof. unfold mul. now rewrite length_map. Qed.

Lemma mul_scale (v : list R) (c : R) : mul v c = Reference.scale c v.
Proof.
  unfold mul, Reference.scale. apply map_ext. intros x. apply Rmult_comm.
Qed.
End NpFacts.

(** ** Word vectors and the memo table *)

Module WordVector.
Import FastEmbedder Digest Memo HashlibFacts HashComponents NpFacts.
Local Open Scope R_scope.

Lemma rescale_nonzero (b : Z) : Reference.rescale b <> 0.
Proof.
  unfold Reference.rescale. intros H.
  assert (IZR (2 * b) = IZR 255) as Hz by (rewrite mult_IZR; lra).
  apply eq_IZR in Hz. lia.
Qed.

Lemma fit_length (v : list R) : length (Reference.fit v) = Reference.D.
Proof.
  unfold Reference.fit. rewrite length_app, length_take, repeat_length. lia.
Qed.

Lemma sum_squares_fit_pos (bs : list Z) :
  bs <> [] ->
  0 < Np.sum_squares (Reference.fit (map Reference.rescale bs)).
Proof.
  intros Hbs. destruct bs as [|b bs]; [congruence |].
  apply sum_squares_pos. unfold Reference.fit.
  apply Exists_app. left. cbn [map]. change Reference.D with (S 383).
  cbn [take]. apply Exists_cons_hd. apply rescale_nonzero.
Qed.

Lemma md5_nonempty (msg : list Z) : Hashlib.md5 msg <> [].
Proof.
  intros H. pose proof (md5_length msg) as Hl. rewrite H in Hl. discriminate.
Qed.

(** The array of [get_word_embedding] has positive norm before it is
    normalised. *)
Lemma raw_norm_pos (word : string) :
  0 < Np.norm (Reference.fit
                 (map Reference.rescale (Hashlib.md5 (Str.encode word)))).
Proof. apply norm_pos, sum_squares_fit_pos, md5_nonempty. Qed.

Lemma word_vector_norm (token : string) :
  Np.norm (Reference.word_vector token) = 1.
Proof.
  unfold Reference.word_vector. rewrite unit_normalize.
  rewrite normalize_pos by apply raw_norm_pos.
  apply norm_div_norm, raw_norm_pos.
Qed.

Lemma word_vector_length (token : string) :
  length (Reference.word_vector token) = vocab_size.
Proof.
  unfold Reference.word_vector.
  now rewrite unit_normalize, normalize_length, fit_length.
Qed.

Lemma cache_ok_init : cache_ok init.
Proof. intros word embedding H. unfold init in H. now rewrite lookup_empty in H. Qed.

Lemma cache_ok_insert (cache : word_cache) (word : string) :
  cache_ok cache -> cache_ok (<[word := Reference.word_vector word]> cache).
Proof.
  intros Hc w e. rewrite lookup_insert.
  case_decide as Hw; [| apply Hc].
  intros [= <-]. now subst.
Qed.

Lemma get_word_embedding_spec (word : string) (cache : word_cache) :
  cache_ok cache ->
  exists cache',
    get_word_embedding word cache = (Ok (Reference.word_vector word), cache')
    /\ cache_ok cache'.
Proof.
  intros Hc. unfold get_word_embedding.
  destruct (cache !! word) as [e|] eqn:He.
  - exists cache. now rewrite (Hc _ _ He).
  - rewrite raw_word_embedding_fit.
    unfold Reference.word_vector at 1. rewrite unit_normalize.
    eexists. split; [reflexivity |].
    rewrite <- unit_normalize. now apply cache_ok_insert.
Qed.
End WordVector.

(** ** Term frequencies and the accumulation loop *)

Module CounterFacts.
Import FastEmbedder Tally.

Lemma counter_add_new (f : string -> nat) (keys : list string) (word : string) :
  word ∉ keys ->
  counter_add word (tally f keys) = tally f keys ++ [(word, 1%nat)].
Proof.
  induction keys as [|k keys IH]; intros Hw; simpl; [reflexivity |].
  apply not_elem_of_cons in Hw as [Hne Hw].
  destruct (String.eqb_spec k word) as [-> | _]; [congruence |].
  f_equal. now apply IH.
Qed.

Lemma counter_add_old (f : string -> nat) (keys : list string) (word : string) :
  NoDup keys -> word ∈ keys ->
  counter_add word (tally f keys)
  = tally (fun k => if decide (k = word) then S (f k) else f k) keys.
Proof.
  induction keys as [|k keys IH]; intros Hnd Hw; simpl.
  - now apply elem_of_nil in Hw.
  - apply NoDup_cons in Hnd as [Hk Hnd].
    destruct (String.eqb_spec k word) as [-> | Hne].
    + rewrite decide_True by reflexivity. f_equal.
      unfold tally. apply map_ext_in. intros k Hin.
      apply list_elem_of_In in Hin.
      rewrite decide_False; [reflexivity |]. now intros ->.
    + rewrite decide_False by exact Hne. f_equal.
      apply IH; [exact Hnd |].
      apply elem_of_cons in Hw as [-> | Hw]; [congruence | exact Hw].
Qed.

Lemma occurrences_snoc (k word : string) (toks : list string) :
  Reference.occurrences k (toks ++ [word])
  = if decide (k = word) then S (Reference.occurrences k toks)
    else Reference.occurrences k toks.
Proof.
  unfold Reference.occurrences. rewrite filter_app, length_app.
  rewrite filter_cons, filter_nil.
  destruct (decide (word = k)) as [-> | Hne].
  - rewrite decide_True by reflexivity. simpl. lia.
  - rewrite decide_False by congruence. simpl. lia.
Qed.

Lemma occurrences_absent (k : string) (toks : list string) :
  k ∉ toks -> Reference.occurrences k toks = 0%nat.
Proof.
  intros Hk. unfold Reference.occurrences.
  induction toks as [|t toks IH]; [reflexivity |].
  apply not_elem_of_cons in Hk as [Hne Hk].
  rewrite filter_cons, decide_False by congruence. now apply IH.
Qed.

Lemma counts_step (keys toks : list string) (cs : list (string * nat))
    (word : string) :
  counts keys toks cs ->
  exists keys', counts keys' (toks ++ [word]) (counter_add word cs).
Proof.
  intros (-> & Hnd & Hmem).
  destruct (decide (word ∈ keys)) as [Hin | Hout].
  - exists keys. split; [| split; [exact Hnd |]].
    + rewrite counter_add_old by assumption.
      unfold tally. apply map_ext. intros k.
      now rewrite occurrences_snoc.
    + intros k. rewrite elem_of_app, list_elem_of_singleton, Hmem.
      split; [tauto |]. intros [H | ->]; [exact H | now apply Hmem].
  - exists (keys ++ [word]). split; [| split].
    + rewrite counter_add_new by assumption.
      unfold tally. rewrite map_app. cbn [map]. f_equal.
      * apply map_ext_in. intros k Hk. apply list_elem_of_In in Hk.
        rewrite occurrences_snoc, decide_False; [reflexivity |].
        now intros ->.
      * rewrite occurrences_snoc, decide_True by reflexivity.
        rewrite occurrences_absent; [reflexivity |]. now rewrite <- Hmem.
    + apply NoDup_app. repeat split; [exact Hnd | | apply NoDup_singleton].
      intros k Hk Hk'. apply list_elem_of_singleton in Hk'. now subst.
    + intros k. rewrite !elem_of_app, Hmem. reflexivity.
Qed.

Lemma counts_fold (toks pre keys : list string) (cs : list (string * nat)) :
  counts keys pre cs ->
  exists keys',
    counts keys' (pre ++ toks)
      (fold_left (fun counts word => counter_add word counts) toks cs).
Proof.
  revert pre keys cs. induction toks as [|t toks IH]; intros pre keys cs H.
  - exists keys. now rewrite app_nil_r.
  - simpl. destruct (counts_step _ _ _ t H) as (keys' & H').
    destruct (IH _ _ _ H') as (keys'' & H'').
    exists keys''. now rewrite <- app_assoc in H''.
Qed.

(** [Counter(tokens).items()] lists every distinct token once, with its
    number of occurrences. *)
Lemma Counter_counts (toks : list string) :
  exists keys,
    Counter toks = tally (fun k => Reference.occurrences k toks) keys
    /\ keys ≡ₚ remove_dups toks.
Proof.
  destruct (counts_fold toks [] [] []) as (keys & Hcs & Hnd & Hmem).
  { split; [reflexivity |]. split; [apply NoDup_nil_2 |].
    intros k. reflexivity. }
  exists keys. split; [exact Hcs |].
  apply NoDup_Permutation; [exact Hnd | apply NoDup_remove_dups |].
  intros k. rewrite Hmem. simpl. now rewrite elem_of_remove_dups.
Qed.
End CounterFacts.

Module Aggregate.
Import FastEmbedder Tally NpFacts WordVector CounterFacts.
Local Open Scope R_scope.

Lemma vsum_length (vs : list (list R)) :
  Forall (fun v => length v = vocab_size) vs ->
  length (Reference.vsum vs) = vocab_size.
Proof.
  unfold Reference.vsum. induction 1 as [|v vs Hv _ IH]; cbn [fold_right].
  - apply repeat_length.
  - change (zip_with Rplus) with Np.add in *.
    rewrite add_length, Hv, IH. apply Nat.min_id.
Qed.

Lemma vsum_perm (vs ws : list (list R)) :
  vs ≡ₚ ws -> Reference.vsum vs = Reference.vsum ws.
Proof.
  unfold Reference.vsum. change (zip_with Rplus) with Np.add.
  induction 1 as [| v vs ws _ IH | u v vs | us vs ws _ IH1 _ IH2];
    cbn [fold_right].
  - reflexivity.
  - now rewrite IH.
  - rewrite !add_assoc. f_equal. apply add_comm.
  - now rewrite IH1.
Qed.

Section Terms.
Variable toks : list string.

Lemma term_length (t : string) :
  length (term toks t) = vocab_size.
Proof.
  unfold term, Reference.scale. now rewrite length_map, word_vector_length.
Qed.

Lemma terms_length (keys : list string) :
  Forall (fun v => length v = vocab_size) (map (term toks) keys).
Proof.
  apply Forall_forall. intros v Hv.
  apply list_elem_of_fmap in Hv as (k & -> & _). apply term_length.
Qed.

(** The accumulation loop of [embed_text] as a sum. *)
Lemma accumulate_vsum (keys : list string) (acc : list R) :
  length acc = vocab_size ->
  fold_left (fun a k => Np.add a (term toks k)) keys acc
  = Np.add acc (Reference.vsum (map (term toks) keys)).
Proof.
  revert acc. induction keys as [|k keys IH]; intros acc Hacc;
    cbn [fold_left map].
  - unfold Reference.vsum. cbn [fold_right].
    change (repeat 0 Reference.D) with (Np.zeros vocab_size).
    rewrite add_zeros_r by lia. reflexivity.
  - rewrite IH by (rewrite add_length, term_length, Hacc; apply Nat.min_id).
    unfold Reference.vsum. cbn [fold_right]. change (zip_with Rplus) with Np.add.
    now rewrite add_assoc.
Qed.

Lemma accumulate_zeros (keys : list string) :
  fold_left (fun a k => Np.add a (term toks k)) keys (Np.zeros vocab_size)
  = Reference.vsum (map (term toks) keys).
Proof.
  rewrite accumulate_vsum by apply repeat_length.
  rewrite add_comm, add_zeros_r; [reflexivity |].
  rewrite vsum_length by apply terms_length. lia.
Qed.
End Terms.
End Aggregate.

(** ** Text vectors *)

Module TextVector.
Import FastEmbedder Tally Memo NpFacts WordVector CounterFacts Aggregate.
Local Open Scope py_scope.

Lemma tokenize_tokens (text : string) : tokenize text = Reference.tokens text.
Proof. apply StrFacts.findall_words_runs. Qed.

(** The [for word, count in word_counts.items()] loop. *)
Lemma accumulate_spec (toks keys : list string) (acc : list R)
    (cache : word_cache) :
  cache_ok cache ->
  exists cache',
    for_each
      (fun text_embedding '(word, count) =>
         let* word_emb := get_word_embedding word in
         ret (Np.add text_embedding
                (Np.mul word_emb (INR count / INR (length toks))%R)))
      (tally (fun k => Reference.occurrences k toks) keys) acc cache
    = (Ok (fold_left (fun a k => Np.add a (term toks k)) keys acc), cache')
    /\ cache_ok cache'.
Proof.
  revert acc cache. induction keys as [|k keys IH]; intros acc cache Hc.
  - exists cache. split; [reflexivity | exact Hc].
  - destruct (get_word_embedding_spec k cache Hc) as (c1 & Hk & Hc1).
    destruct (IH (Np.add acc (term toks k)) c1 Hc1) as (c2 & Hrest & Hc2).
    exists c2. split; [| exact Hc2].
    cbn [tally map for_each fold_left].
    erewrite bind_ok; [exact Hrest |].
    erewrite bind_ok; [| exact Hk].
    unfold ret. now rewrite mul_scale.
Qed.

Lemma embed_text_spec (text : string) (cache : word_cache) :
  cache_ok cache ->
  exists cache',
    embed_text text cache = (Ok (Reference.text_vector text), cache')
    /\ cache_ok cache'.
Proof.
  intros Hc. unfold embed_text, Reference.text_vector.
  rewrite tokenize_tokens.
  destruct (Reference.tokens text) as [|t toks] eqn:Htoks.
  - exists cache. split; [reflexivity | exact Hc].
  - destruct (Counter_counts (t :: toks)) as (keys & Hcs & Hperm).
    rewrite Hcs.
    destruct (accumulate_spec (t :: toks) keys (Np.zeros vocab_size) cache Hc)
      as (cache' & Hloop & Hc').
    exists cache'. split; [| exact Hc'].
    cbv zeta. erewrite bind_ok; [| exact Hloop]. unfold ret. do 2 f_equal.
    rewrite accumulate_zeros, unit_normalize. f_equal.
    apply vsum_perm. now apply Permutation_map.
Qed.

Lemma occurrences_perm (k : string) (toks toks' : list string) :
  toks ≡ₚ toks' ->
  Reference.occurrences k toks = Reference.occurrences k toks'.
Proof.
  intros H. unfold Reference.occurrences. apply Permutation_length.
  now apply filter_Permutation.
Qed.

Lemma remove_dups_perm (toks toks' : list string) :
  toks ≡ₚ toks' -> remove_dups toks ≡ₚ remove_dups toks'.
Proof.
  intros H. apply NoDup_Permutation; try apply NoDup_remove_dups.
  intros k. rewrite !elem_of_remove_dups. now rewrite H.
Qed.

(** The text vector depends on the tokens as a multiset only. *)
Lemma text_vector_perm (text text' : string) :
  Reference.tokens text ≡ₚ Reference.tokens text' ->
  Reference.text_vector text = Reference.text_vector text'.
Proof.
  unfold Reference.text_vector. intros H.
  destruct (Reference.tokens text) as [|t toks] eqn:E,
           (Reference.tokens text') as [|t' toks'] eqn:E'.
  - reflexivity.
  - apply Permutation_length in H. discriminate.
  - apply Permutation_length in H. discriminate.
  - f_equal. apply vsum_perm.
    rewrite (map_ext (fun k => Reference.scale (Reference.tf k (t :: toks))
                                 (Reference.word_vector k))
               (fun k => Reference.scale (Reference.tf k (t' :: toks'))
                           (Reference.word_vector k))).
    + apply Permutation_map. now apply remove_dups_perm.
    + intros k. unfold Reference.tf.
      now rewrite (occurrences_perm k _ _ H), (Permutation_length H).
Qed.

Lemma text_vector_no_tokens (text : string) :
  Reference.tokens text = [] ->
  Reference.text_vector text = repeat 0%R vocab_size.
Proof. unfold Reference.text_vector. now intros ->. Qed.

Lemma text_vector_length (text : string) :
  length (Reference.text_vector text) = vocab_size.
Proof.
  unfold Reference.text_vector.
  destruct (Reference.tokens text) as [|t toks]; [apply repeat_length |].
  rewrite unit_normalize, normalize_length.
  apply vsum_length, (terms_length (t :: toks)).
Qed.

(** A text vector has norm 1, unless the weighted sum of its tokens'
    vectors vanished (as it does when there is no token). Whether the sum
    can vanish for a text with tokens depends on the MD5 digests of the
    tokens: it would for two tokens, as frequent as each other, whose
    digests are bytewise complements. *)
Lemma text_vector_norm (text : string) :
  Np.norm (Reference.text_vector text) = 1%R
  \/ Reference.text_vector text = repeat 0%R vocab_size.
Proof.
  unfold Reference.text_vector.
  destruct (Reference.tokens text) as [|t toks]; [now right |].
  rewrite unit_normalize.
  set (v := Reference.vsum _).
  assert (length v = vocab_size) as Hlen
    by apply vsum_length, (terms_length (t :: toks)).
  destruct (norm_normalize v) as [H1 | [H0 Hv]]; [now left | right].
  rewrite Hv, <- Hlen. now apply norm_zero_inv.
Qed.

Lemma embed_text_no_tokens (text : string) (cache : word_cache) :
  tokenize text = [] ->
  embed_text text cache = (Ok (repeat 0%R vocab_size), cache).
Proof. intros H. unfold embed_text. now rewrite H. Qed.

Lemma embed_text_norm (text : string) (cache : word_cache) :
  cache_ok cache ->
  exists v cache',
    embed_text text cache = (Ok v, cache')
    /\ (Np.norm v = 1%R \/ v = repeat 0%R vocab_size).
Proof.
  intros Hc. destruct (embed_text_spec text cache Hc) as (cache' & H & _).
  exists (Reference.text_vector text), cache'.
  split; [exact H | apply text_vector_norm].
Qed.

Lemma occurrences_all (t : string) (toks : list string) :
  Forall (fun k => k = t) toks ->
  Reference.occurrences t toks = length toks.
Proof.
  unfold Reference.occurrences.
  induction 1 as [|k toks -> _ IH]; [reflexivity |].
  rewrite filter_cons, decide_True by reflexivity. simpl. now rewrite IH.
Qed.

(** A text that repeats one token gets that token's vector, of norm 1. *)
Lemma text_vector_one_token (text t : string) :
  remove_dups (Reference.tokens text) = [t] ->
  Reference.text_vector text = Reference.word_vector t.
Proof.
  intros Hdup. unfold Reference.text_vector.
  destruct (Reference.tokens text) as [|t0 toks] eqn:Htoks;
    [discriminate Hdup |].
  rewrite Hdup. cbn [map].
  assert (Forall (fun k => k = t) (t0 :: toks)) as Hall.
  { apply Forall_forall. intros k Hk.
    apply elem_of_remove_dups in Hk. rewrite Hdup in Hk.
    now apply list_elem_of_singleton in Hk. }
  assert (Reference.tf t (t0 :: toks) = 1%R) as ->.
  { unfold Reference.tf. rewrite (occurrences_all t _ Hall).
    apply Rdiv_diag. apply not_0_INR. discriminate. }
  assert (Reference.scale 1 (Reference.word_vector t) = Reference.word_vector t)
    as ->.
  { unfold Reference.scale. rewrite <- (map_id (Reference.word_vector t)) at 2.
    apply map_ext. intros x. apply Rmult_1_l. }
  unfold Reference.vsum. cbn [fold_right].
  change (zip_with Rplus) with Np.add.
  change (repeat 0%R Reference.D) with (Np.zeros vocab_size).
  rewrite add_zeros_r by (rewrite word_vector_length; lia).
  rewrite unit_normalize, normalize_pos;
    rewrite word_vector_norm; [| lra].
  unfold Np.div. rewrite <- (map_id (Reference.word_vector t)) at 2.
  apply map_ext. intros x. apply Rdiv_1_r.
Qed.
End TextVector.

Module FastChunks.
Import FastEmbedder Memo Chunks WordVector TextVector.
Local Open Scope py_scope.

Lemma embed_content_spec (c : chunk) (cache : word_cache) :
  cache_ok cache -> content_ok c ->
  exists cache',
    embed_content (default (VStr "") (c !! "content")) cache
    = (Ok (Reference.text_vector (content_text c)), cache')
    /\ cache_ok cache'.
Proof.
  intros Hc Hok. unfold content_ok in Hok. unfold content_text.
  destruct (c !! "content") as [[]|]; try contradiction; simpl;
    now apply embed_text_spec.
Qed.

Lemma embed_chunks_loop (chunks : list chunk) (acc : list chunk)
    (cache : word_cache) :
  cache_ok cache -> Forall content_ok chunks ->
  exists cache',
    for_each
      (fun result (chunk : chunk) =>
         let content := default (VStr "") (chunk !! "content") in
         let* embedding := embed_content content in
         let chunk_with_embedding :=
           <["embedding" := vec_value embedding]> chunk in
         ret (result ++ [chunk_with_embedding]))
      chunks acc cache
    = (Ok (acc ++ map with_text_vector chunks), cache')
    /\ cache_ok cache'.
Proof.
  intros Hc Hok. revert acc cache Hc.
  induction Hok as [|c chunks Hc0 _ IH]; intros acc cache Hc.
  - exists cache. cbn [for_each map]. rewrite app_nil_r. now split.
  - destruct (embed_content_spec c cache Hc Hc0) as (c1 & H1 & Hc1).
    destruct (IH (acc ++ [with_text_vector c]) c1 Hc1) as (c2 & H2 & Hc2).
    exists c2. split; [| exact Hc2].
    cbn [for_each map].
    erewrite bind_ok; [rewrite H2; now rewrite <- app_assoc |].
    erewrite bind_ok; [| exact H1]. reflexivity.
Qed.

Lemma embed_chunks_spec (chunks : list chunk) (cache : word_cache) :
  cache_ok cache -> Forall content_ok chunks ->
  exists cache',
    embed_chunks chunks cache = (Ok (map with_text_vector chunks), cache')
    /\ cache_ok cache'.
Proof. intros Hc Hok. now apply (embed_chunks_loop chunks [] cache). Qed.

Lemma embed_content_cache_ok (content : value) (cache : word_cache) :
  cache_ok cache -> cache_ok (embed_content content cache).2.
Proof.
  intros Hc. destruct content; try exact Hc.
  cbn [embed_content].
  now destruct (embed_text_spec s cache Hc) as (cache' & -> & Hc').
Qed.

Lemma embed_chunks_cache_ok (chunks : list chunk) (cache : word_cache) :
  cache_ok cache -> cache_ok (embed_chunks chunks cache).2.
Proof.
  unfold embed_chunks. apply for_each_invariant.
  intros acc c s Hs. unfold bind.
  pose proof (embed_content_cache_ok (default (VStr "") (c !! "content")) s Hs)
    as Hstep.
  now destruct (embed_content (default (VStr "") (c !! "content")) s)
    as [[e|e] s'].
Qed.

(** [cache_ok] is an invariant of the embedder. *)
Lemma reachable_cache_ok (cache : word_cache) :
  reachable cache -> cache_ok cache.
Proof.
  induction 1 as [| word cache _ IH | text cache _ IH | chunks cache _ IH].
  - apply cache_ok_init.
  - now destruct (get_word_embedding_spec word cache IH) as (cache' & -> & H).
  - now destruct (embed_text_spec text cache IH) as (cache' & -> & H).
  - now apply embed_chunks_cache_ok.
Qed.
End FastChunks.

(** ** The model strategy and its cache *)

Module Batch.
Import ContextRagEmbedder Effects Chunks.
Local Open Scope py_scope.

Lemma contents_missing (chunks : list chunk) :
  Exists (fun c : chunk => c !! "content" = None) chunks ->
  comprehension content_of chunks = Raise KeyError.
Proof.
  induction chunks as [|c chunks IH]; intros H.
  - now apply Exists_nil in H.
  - cbn [comprehension]. unfold content_of at 1.
    destruct (c !! "content") as [v|] eqn:Hc; [| reflexivity].
    apply Exists_cons in H as [H | H]; [congruence |].
    now rewrite IH.
Qed.

Lemma contents_present (chunks : list chunk) :
  Forall (fun c : chunk => is_Some (c !! "content")) chunks ->
  exists texts, comprehension content_of chunks = Ok texts.
Proof.
  induction 1 as [|c chunks [v Hv] _ (texts & IH)].
  - now exists [].
  - exists (v :: texts). cbn [comprehension]. unfold content_of at 1.
    now rewrite Hv, IH.
Qed.

Lemma with_embedding_lookup (c : chunk) (embedding : list R) :
  with_embedding c embedding !! "embedding" = Some (vec_value embedding).
Proof. apply lookup_insert_eq. Qed.

Lemma with_embedding_frame (c : chunk) (embedding : list R) (field : string) :
  field <> "embedding" -> with_embedding c embedding !! field = c !! field.
Proof. intros H. now apply lookup_insert_ne. Qed.

(** Facts about one embedder. *)
Section Embedder.
Variable self : t.

Lemma generate_embeddings_empty (w : world) :
  generate_embeddings self [] w = (Ok [], w).
Proof. reflexivity. Qed.

Lemma generate_embeddings_failure (texts : list value) (w : world) :
  texts <> [] -> model self texts = None ->
  generate_embeddings self texts w
  = (Ok [], logged "Error generating embeddings" (submitted texts w)).
Proof.
  intros Hne Hm. destruct texts as [|x texts]; [congruence |].
  unfold generate_embeddings. now rewrite Hm.
Qed.

Lemma generate_embeddings_success (texts : list value)
    (embeddings : list (list R)) (w : world) :
  texts <> [] -> model self texts = Some embeddings ->
  generate_embeddings self texts w = (Ok embeddings, submitted texts w).
Proof.
  intros Hne Hm. destruct texts as [|x texts]; [congruence |].
  unfold generate_embeddings. now rewrite Hm.
Qed.

(** The batch call returns; it never raises. *)
Lemma generate_embeddings_total (texts : list value) (w : world) :
  exists embeddings w',
    generate_embeddings self texts w = (Ok embeddings, w')
    /\ (embeddings = [] \/ model self texts = Some embeddings).
Proof.
  destruct texts as [|x texts].
  - exists [], w. now split; [| left].
  - destruct (model self (x :: texts)) as [vs|] eqn:Hm.
    + exists vs, (submitted (x :: texts) w). split; [| now right].
      now apply generate_embeddings_success.
    + eexists [], _. split; [| now left].
      now apply generate_embeddings_failure.
Qed.

Lemma embed_chunks_missing (chunks : list chunk) (w : world) :
  Exists (fun c : chunk => c !! "content" = None) chunks ->
  embed_chunks self chunks w = (Raise KeyError, w).
Proof.
  intros H. unfold embed_chunks, bind, lift.
  now rewrite (contents_missing chunks H).
Qed.

Lemma embed_chunks_zip (chunks : list chunk) (texts : list value)
    (embeddings : list (list R)) (w w' : world) :
  comprehension content_of chunks = Ok texts ->
  generate_embeddings self texts w = (Ok embeddings, w') ->
  embed_chunks self chunks w = (Ok (zip_with with_embedding chunks embeddings), w').
Proof.
  intros Ht Hg. unfold embed_chunks.
  rewrite (bind_ok _ _ w w texts) by (unfold lift; now rewrite Ht).
  rewrite (bind_ok _ _ _ _ _ Hg). reflexivity.
Qed.

Lemma check_cache_entry (path key : string) (embedding : list R)
    (name : string) (w : world) :
  files w !! path = Some (entry name key embedding) ->
  check_cache self path w
  = (Ok (if String.eqb name (model_name self)
         then Some (vec_value embedding) else None), w).
Proof.
  intros H. unfold check_cache, entry in *. rewrite H.
  rewrite (lookup_insert_ne _ "embedding" "model") by discriminate.
  rewrite (lookup_insert_ne _ "text_hash" "model") by discriminate.
  rewrite !lookup_insert_eq. unfold model_is.
  now destruct (String.eqb name (model_name self)).
Qed.

Lemma check_cache_absent (path : string) (w : world) :
  files w !! path = None -> check_cache self path w = (Ok None, w).
Proof. intros H. unfold check_cache. now rewrite H. Qed.

Lemma save_to_cache_writable (path key : string)
    (embedding : list R) (w : world) :
  read_only w = false ->
  save_to_cache self path key embedding w
  = (Ok tt, stored path (entry (model_name self) key embedding) w).
Proof. intros H. unfold save_to_cache, stored. rewrite H. reflexivity. Qed.

(** A miss followed by a failed batch: the [[0]] raises. *)
Lemma embed_with_cache_failure (text : string)
    (cache_key : option string) (w : world) :
  check_cache self (cache_file self (key_of text cache_key)) w = (Ok None, w) ->
  model self [VStr text] = None ->
  embed_with_cache self text cache_key w
  = (Raise IndexError,
     logged "Error generating embeddings" (submitted [VStr text] w)).
Proof.
  intros Hmiss Hm. unfold embed_with_cache. cbv zeta.
  fold (key_of text cache_key).
  rewrite (bind_ok _ _ _ _ _ Hmiss).
  rewrite (bind_ok _ _ _ _ _
             (generate_embeddings_failure [VStr text] w ltac:(discriminate) Hm)).
  reflexivity.
Qed.

(** A miss followed by a successful batch and a successful write. *)
Lemma embed_with_cache_miss (text : string)
    (cache_key : option string) (embedding : list R)
    (rest : list (list R)) (w : world) :
  check_cache self (cache_file self (key_of text cache_key)) w = (Ok None, w) ->
  model self [VStr text] = Some (embedding :: rest) ->
  read_only w = false ->
  embed_with_cache self text cache_key w
  = (Ok (vec_value embedding),
     stored (cache_file self (key_of text cache_key))
       (entry (model_name self) (key_of text cache_key) embedding)
       (submitted [VStr text] w)).
Proof.
  intros Hmiss Hm Hrw. unfold embed_with_cache. cbv zeta.
  fold (key_of text cache_key).
  rewrite (bind_ok _ _ _ _ _ Hmiss).
  rewrite (bind_ok _ _ _ _ _
             (generate_embeddings_success [VStr text] _ w
                ltac:(discriminate) Hm)).
  rewrite (bind_ok (lift (first (embedding :: rest))) _ _ _ embedding eq_refl).
  rewrite (bind_ok _ _ _ _ _
             (save_to_cache_writable _ _ embedding
                (submitted [VStr text] w) Hrw)).
  reflexivity.
Qed.

Lemma embed_with_cache_hit (text : string)
    (cache_key : option string) (cached : value) (w : world) :
  check_cache self (cache_file self (key_of text cache_key)) w
    = (Ok (Some cached), w) ->
  embed_with_cache self text cache_key w = (Ok cached, w).
Proof.
  intros Hhit. unfold embed_with_cache. cbv zeta.
  fold (key_of text cache_key).
  rewrite (bind_ok _ _ _ _ _ Hhit). reflexivity.
Qed.
End Embedder.
End Batch.

(** ** Tokens, memo tables and term frequencies *)

Module TokenFacts.
Import Str Tokens.
#[local] Arguments String.append !_ _ / : simpl nomatch.

Lemma lower_char_idem (c : ascii) : lower_char (lower_char c) = lower_char c.
Proof. destruct c as [[] [] [] [] [] [] [] []]; reflexivity. Qed.

Lemma lower_idem (s : string) : lower (lower s) = lower s.
Proof.
  induction s as [|c s IH]; simpl; [reflexivity |].
  now rewrite lower_char_idem, IH.
Qed.

Lemma lower_snoc (s : string) (c : ascii) :
  lower (s +:+ String c EmptyString)
  = lower s +:+ String (lower_char c) EmptyString.
Proof. induction s as [|a s IH]; simpl; [reflexivity | now rewrite IH]. Qed.

Lemma all_word_snoc (s : string) (c : ascii) :
  all_word (s +:+ String c EmptyString) = all_word s && is_word c.
Proof.
  induction s as [|a s IH]; simpl; [now rewrite andb_true_r |].
  now rewrite IH, andb_assoc.
Qed.

Lemma close_run_ok (run : string) :
  all_word run = true -> lower run = run ->
  Forall token_ok (Reference.close_run run).
Proof.
  intros Hw Hl. destruct run as [|c run]; [constructor |].
  repeat constructor; [discriminate | exact Hw | exact Hl].
Qed.

Lemma runs_from_ok (s run : string) :
  all_word run = true -> lower run = run -> lower s = s ->
  Forall token_ok (Reference.runs_from run s).
Proof.
  revert run. induction s as [|c s IH]; intros run Hw Hl Hs; simpl.
  - now apply close_run_ok.
  - simpl in Hs. injection Hs as Hc Hs.
    destruct (is_word c) eqn:Hwc.
    + apply IH; [| | exact Hs].
      * now rewrite all_word_snoc, Hw, Hwc.
      * now rewrite lower_snoc, Hl, Hc.
    + apply Forall_app. split; [now apply close_run_ok |].
      now apply IH.
Qed.

Lemma join_app (ts us : list string) : join (ts ++ us) = join ts +:+ join us.
Proof.
  induction ts as [|t ts IH]; simpl; [reflexivity |].
  unfold join in *. simpl. rewrite IH. apply StrFacts.app_assoc.
Qed.

Lemma join_close_run (run : string) : join (Reference.close_run run) = run.
Proof.
  destruct run as [|c run]; [reflexivity |].
  unfold join. simpl. now rewrite StrFacts.app_empty_r.
Qed.

Lemma runs_from_join (s run : string) :
  join (Reference.runs_from run s) = run +:+ word_chars s.
Proof.
  revert run. induction s as [|c s IH]; intros run; simpl.
  - now rewrite join_close_run, StrFacts.app_empty_r.
  - destruct (is_word c).
    + rewrite IH. symmetry. apply StrFacts.app_assoc_char.
    + now rewrite join_app, join_close_run, IH.
Qed.
End TokenFacts.

Module MemoFacts.
Import FastEmbedder Tally Memo Chunks NpFacts HashComponents WordVector.
Import CounterFacts Aggregate TextVector FastChunks Arrays.
Local Open Scope py_scope.

(** [get_word_embedding] returns on every table, files the array under
    the word and touches no other entry. *)
Lemma get_word_embedding_memo (word : string) (cache : word_cache) :
  exists embedding cache',
    get_word_embedding word cache = (Ok embedding, cache')
    /\ cache' !! word = Some embedding
    /\ cache ⊆ cache'
    /\ dom cache' = {[word]} ∪ dom cache
    /\ (forall w, w <> word -> cache' !! w = cache !! w).
Proof.
  unfold get_word_embedding.
  destruct (cache !! word) as [e|] eqn:He.
  - exists e, cache. repeat split; try done.
    apply set_eq. intros w. rewrite elem_of_union, elem_of_singleton.
    split; [tauto |]. intros [-> | H]; [| exact H].
    apply elem_of_dom. eauto.
  - rewrite raw_word_embedding_fit.
    eexists _, _. split; [reflexivity |].
    split; [apply lookup_insert_eq |].
    split; [now apply insert_subseteq |].
    split; [apply dom_insert_L |].
    intros w Hw. now apply lookup_insert_ne.
Qed.

(** The loop of [embed_text] memoises the words it meets and nothing
    else. *)
Lemma accumulate_cache (toks keys : list string) (acc : list R)
    (cache : word_cache) :
  exists acc' cache',
    for_each
      (fun text_embedding '(word, count) =>
         let* word_emb := get_word_embedding word in
         ret (Np.add text_embedding
                (Np.mul word_emb (INR count / INR (length toks))%R)))
      (tally (fun k => Reference.occurrences k toks) keys) acc cache
    = (Ok acc', cache')
    /\ cache ⊆ cache'
    /\ dom cache' = list_to_set keys ∪ dom cache.
Proof.
  revert acc cache. induction keys as [|k keys IH]; intros acc cache.
  - exists acc, cache. split; [reflexivity |]. split; [done |].
    cbn [list_to_set]. now rewrite union_empty_l_L.
  - destruct (get_word_embedding_memo k cache)
      as (e & c1 & Hk & _ & Hsub1 & Hdom1 & _).
    destruct (IH (Np.add acc (Np.mul e
                 (INR (Reference.occurrences k toks) / INR (length toks))%R)) c1)
      as (acc' & c2 & Hrest & Hsub2 & Hdom2).
    exists acc', c2. split; [| split].
    + cbn [tally map for_each].
      erewrite bind_ok; [exact Hrest |].
      erewrite bind_ok; [| exact Hk]. reflexivity.
    + now transitivity c1.
    + rewrite Hdom2, Hdom1. cbn [list_to_set].
      apply set_eq. intros x. rewrite !elem_of_union. tauto.
Qed.

Lemma embed_text_cache (text : string) (cache : word_cache) :
  exists v cache',
    embed_text text cache = (Ok v, cache')
    /\ cache ⊆ cache'
    /\ dom cache' = list_to_set (tokenize text) ∪ dom cache.
Proof.
  unfold embed_text.
  destruct (tokenize text) as [|t toks] eqn:Htoks.
  - exists (repeat 0%R vocab_size), cache. split; [reflexivity |].
    split; [done |]. cbn [list_to_set]. now rewrite union_empty_l_L.
  - destruct (Counter_counts (t :: toks)) as (keys & Hcs & Hperm).
    rewrite Hcs. cbv zeta.
    destruct (accumulate_cache (t :: toks) keys (Np.zeros vocab_size) cache)
      as (acc' & cache' & Hloop & Hsub & Hdom).
    exists (Np.normalize acc'), cache'. split; [| split; [exact Hsub |]].
    + erewrite bind_ok; [| exact Hloop]. reflexivity.
    + rewrite Hdom. f_equal.
      apply set_eq. intros k. rewrite !elem_of_list_to_set.
      now rewrite Hperm, elem_of_remove_dups.
Qed.

(** [get_word_embedding] keeps the shape of the table, and returns an
    array of that shape. *)
Lemma get_word_embedding_shape (word : string) (cache : word_cache) :
  shape_ok cache ->
  exists embedding cache',
    get_word_embedding word cache = (Ok embedding, cache')
    /\ length embedding = vocab_size
    /\ shape_ok cache'.
Proof.
  intros Hshape. unfold get_word_embedding.
  destruct (cache !! word) as [e|] eqn:He.
  - exists e, cache. split; [reflexivity|]. split; [|exact Hshape].
    exact (Hshape word e He).
  - rewrite raw_word_embedding_fit.
    assert (length (Np.normalize
                      (Reference.fit
                         (map Reference.rescale (Hashlib.md5 (Str.encode word)))))
            = vocab_size) as Hlen.
    { rewrite normalize_length. apply fit_length. }
    eexists _, _. split; [reflexivity|]. split; [exact Hlen|].
    intros w v Hw. destruct (decide (w = word)) as [-> | Hne].
    + rewrite lookup_insert_eq in Hw. injection Hw as <-. exact Hlen.
    + rewrite lookup_insert_ne in Hw by congruence. exact (Hshape w v Hw).
Qed.

(** The loop of [embed_text] keeps the shapes of the sum and of the
    table. *)
Lemma accumulate_shape (counts : list (string * nat)) (total : nat)
    (acc : list R) (cache : word_cache) :
  shape_ok cache -> length acc = vocab_size ->
  exists acc' cache',
    for_each
      (fun text_embedding '(word, count) =>
         let* word_emb := get_word_embedding word in
         ret (Np.add text_embedding
                (Np.mul word_emb (INR count / INR total)%R)))
      counts acc cache
    = (Ok acc', cache')
    /\ length acc' = vocab_size
    /\ shape_ok cache'.
Proof.
  revert acc cache. induction counts as [|[k n] counts IH];
    intros acc cache Hshape Hacc.
  - exists acc, cache. auto.
  - destruct (get_word_embedding_shape k cache Hshape)
      as (e & c1 & Hk & He & Hshape1).
    destruct (IH (Np.add acc (Np.mul e (INR n / INR total)%R)) c1 Hshape1)
      as (acc' & c2 & Hrest & Hacc' & Hshape2).
    { rewrite add_length, mul_length, Hacc, He. apply Nat.min_id. }
    exists acc', c2. split; [|split; assumption].
    cbn [for_each].
    erewrite bind_ok; [exact Hrest |].
    erewrite bind_ok; [| exact Hk]. reflexivity.
Qed.

Lemma embed_text_shape (text : string) (cache : word_cache) :
  shape_ok cache ->
  exists v cache',
    embed_text text cache = (Ok v, cache')
    /\ length v = vocab_size
    /\ shape_ok cache'.
Proof.
  intros Hshape. unfold embed_text.
  destruct (tokenize text) as [|t toks] eqn:Htoks.
  - exists (repeat 0%R vocab_size), cache. split; [reflexivity |].
    split; [apply repeat_length | exact Hshape].
  - cbv zeta.
    destruct (accumulate_shape (Counter (t :: toks)) (length (t :: toks))
                (Np.zeros vocab_size) cache Hshape)
      as (acc' & cache' & Hloop & Hacc & Hshape').
    { apply repeat_length. }
    exists (Np.normalize acc'), cache'. split; [| split].
    + erewrite bind_ok; [| exact Hloop]. reflexivity.
    + rewrite normalize_length. exact Hacc.
    + exact Hshape'.
Qed.
End MemoFacts.

Module FrequencyFacts.
Import FastEmbedder Tally Memo Chunks NpFacts WordVector.
Import CounterFacts Aggregate TextVector FastChunks.
Local Open Scope py_scope.

(** The text vector is a function of the set of tokens and their term
    frequencies. *)
Lemma text_vector_frequencies (text text' : string) :
  (forall k, k ∈ Reference.tokens text <-> k ∈ Reference.tokens text') ->
  (forall k, Reference.tf k (Reference.tokens text)
             = Reference.tf k (Reference.tokens text')) ->
  Reference.text_vector text = Reference.text_vector text'.
Proof.
  unfold Reference.text_vector. intros Hmem Htf.
  destruct (Reference.tokens text) as [|t toks] eqn:E,
           (Reference.tokens text') as [|t' toks'] eqn:E'.
  - reflexivity.
  - exfalso. apply (elem_of_nil t'), Hmem. now left.
  - exfalso. apply (elem_of_nil t), Hmem. now left.
  - f_equal. apply vsum_perm.
    rewrite (map_ext _ (fun k => Reference.scale (Reference.tf k (t' :: toks'))
                                   (Reference.word_vector k)))
      by (intros k; now rewrite Htf).
    apply Permutation_map.
    apply NoDup_Permutation; try apply NoDup_remove_dups.
    intros k. now rewrite !elem_of_remove_dups.
Qed.

Lemma occurrences_app (k : string) (l l' : list string) :
  Reference.occurrences k (l ++ l')
  = (Reference.occurrences k l + Reference.occurrences k l')%nat.
Proof. unfold Reference.occurrences. now rewrite filter_app, length_app. Qed.

Lemma occurrences_copies (k : string) (c : nat) (l : list string) :
  Reference.occurrences k (concat (replicate c l))
  = (c * Reference.occurrences k l)%nat.
Proof.
  induction c as [|c IH]; [reflexivity |].
  cbn [replicate concat]. rewrite occurrences_app, IH. lia.
Qed.

Lemma length_copies {A} (c : nat) (l : list A) :
  length (concat (replicate c l)) = (c * length l)%nat.
Proof.
  induction c as [|c IH]; [reflexivity |].
  cbn [replicate concat]. rewrite length_app, IH. lia.
Qed.

Lemma elem_of_copies (k : string) (c : nat) (l : list string) :
  (0 < c)%nat -> k ∈ concat (replicate c l) <-> k ∈ l.
Proof.
  intros Hc. induction c as [|c IH]; [lia |].
  cbn [replicate concat]. rewrite elem_of_app.
  destruct c as [|c]; [cbn; rewrite elem_of_nil; tauto |].
  rewrite IH by lia. tauto.
Qed.

Lemma tf_copies (k : string) (c : nat) (l l' : list string) :
  (0 < c)%nat -> l' ≡ₚ concat (replicate c l) ->
  Reference.tf k l' = Reference.tf k l.
Proof.
  intros Hc Hperm. unfold Reference.tf.
  rewrite (occurrences_perm k _ _ Hperm), (Permutation_length Hperm).
  rewrite occurrences_copies, length_copies, !mult_INR.
  destruct l as [|t l].
  - unfold Reference.occurrences. cbn. rewrite Rmult_0_r. unfold Rdiv.
    now rewrite !Rmult_0_l.
  - field. split; apply not_0_INR; [discriminate | lia].
Qed.

Lemma with_text_vector_content (c : chunk) :
  with_text_vector c !! "content" = c !! "content".
Proof. unfold with_text_vector. now rewrite lookup_insert_ne. Qed.

Lemma with_text_vector_idem (c : chunk) :
  with_text_vector (with_text_vector c) = with_text_vector c.
Proof.
  unfold with_text_vector at 1. unfold content_text.
  rewrite with_text_vector_content.
  unfold with_text_vector, content_text. apply insert_insert_eq.
Qed.

Lemma with_text_vector_ok (c : chunk) :
  content_ok c -> content_ok (with_text_vector c).
Proof. unfold content_ok. now rewrite with_text_vector_content. Qed.

Lemma embed_content_bad (c : chunk) (cache : word_cache) :
  ~ content_ok c ->
  embed_content (default (VStr "") (c !! "content")) cache
  = (Raise AttributeError, cache).
Proof.
  unfold content_ok. destruct (c !! "content") as [[]|]; simpl; tauto.
Qed.

Lemma content_ok_dec (c : chunk) : {content_ok c} + {~ content_ok c}.
Proof.
  unfold content_ok. destruct (c !! "content") as [[]|]; (now left) || (now right).
Qed.

(** The loop of [embed_chunks] stops at the first content that is not a
    string. *)
Lemma embed_chunks_loop_bad (chunks : list chunk) (acc : list chunk)
    (cache : word_cache) :
  cache_ok cache ->
  Exists (fun c => ~ content_ok c) chunks ->
  exists cache',
    for_each
      (fun result (chunk : chunk) =>
         let content := default (VStr "") (chunk !! "content") in
         let* embedding := embed_content content in
         let chunk_with_embedding :=
           <["embedding" := vec_value embedding]> chunk in
         ret (result ++ [chunk_with_embedding]))
      chunks acc cache
    = (Raise AttributeError, cache')
    /\ cache_ok cache'.
Proof.
  revert acc cache. induction chunks as [|c chunks IH]; intros acc cache Hc Hbad.
  - now apply Exists_nil in Hbad.
  - cbn [for_each]. destruct (content_ok_dec c) as [Hok | Hno].
    + apply Exists_cons in Hbad as [Hbad | Hbad]; [contradiction |].
      destruct (embed_content_spec c cache Hc Hok) as (c1 & H1 & Hc1).
      destruct (IH (acc ++ [with_text_vector c]) c1 Hc1 Hbad)
        as (c2 & H2 & Hc2).
      exists c2. split; [| exact Hc2].
      erewrite bind_ok; [exact H2 |].
      erewrite bind_ok; [| exact H1]. reflexivity.
    + exists cache. split; [| exact Hc].
      erewrite bind_raise; [reflexivity |].
      erewrite bind_raise; [reflexivity |].
      now apply embed_content_bad.
Qed.

(** Normalising a unit vector leaves it as it is. *)
Lemma normalize_unit (v : list R) :
  Np.norm v = 1%R -> Np.normalize v = v.
Proof.
  intros H. unfold Np.normalize. cbv zeta. rewrite H.
  destruct (Rlt_dec 0 1) as [_ | Hn]; [|exfalso; apply Hn; lra].
  unfold Np.div. rewrite <- (map_id v) at 2.
  apply map_ext. intros x. unfold Rdiv. rewrite Rinv_1. apply Rmult_1_r.
Qed.
End FrequencyFacts.

Module CounterOrder.
Import FastEmbedder Tally Memo Chunks NpFacts WordVector.
Import CounterFacts Aggregate TextVector FastChunks.

Lemma occurrences_cons (k x : string) (l : list string) :
  Reference.occurrences k (x :: l)
  = if decide (x = k) then S (Reference.occurrences k l)
    else Reference.occurrences k l.
Proof.
  unfold Reference.occurrences. rewrite filter_cons.
  destruct (decide (x = k)); reflexivity.
Qed.

Lemma occurrences_present (k : string) (l : list string) :
  (0 < Reference.occurrences k l)%nat -> k ∈ l.
Proof.
  intros H. destruct (decide (k ∈ l)) as [Hin | Hout]; [exact Hin|].
  rewrite (occurrences_absent k l Hout) in H. lia.
Qed.

(** A list of tokens is its counts, up to the order of the tokens. *)
Lemma occurrences_determine (l l' : list string) :
  (forall k, Reference.occurrences k l = Reference.occurrences k l') ->
  l ≡ₚ l'.
Proof.
  revert l'. induction l as [|x l IH]; intros l' H.
  - destruct l' as [|y l']; [reflexivity|].
    specialize (H y). rewrite occurrences_cons in H.
    destruct (decide (y = y)); [discriminate H | contradiction].
  - assert (x ∈ l') as Hin.
    { apply occurrences_present. rewrite <- H, occurrences_cons.
      destruct (decide (x = x)); [lia | contradiction]. }
    apply list_elem_of_split in Hin as (l1 & l2 & ->).
    rewrite <- Permutation_middle. constructor. apply IH.
    intros k. specialize (H k).
    rewrite (occurrences_perm k _ _ (Permutation_sym (Permutation_middle l1 l2 x)))
      in H.
    rewrite !occurrences_cons in H.
    destruct (decide (x = k)); [injection H as H|]; exact H.
Qed.

Lemma tally_inj (f g : string -> nat) (keys keys' : list string) :
  tally f keys = tally g keys' ->
  keys = keys' /\ forall k, k ∈ keys -> f k = g k.
Proof.
  revert keys'. induction keys as [|k keys IH]; intros [|k' keys'] H;
    try discriminate H.
  - split; [reflexivity|]. intros k Hk. inversion Hk.
  - injection H as -> Hf H. destruct (IH _ H) as [-> Hall].
    split; [reflexivity|]. intros k Hk.
    apply elem_of_cons in Hk as [-> | Hk]; [exact Hf | exact (Hall k Hk)].
Qed.

(** [Counter] keeps the tokens up to their order. *)
Lemma Counter_determines (l l' : list string) :
  Counter l = Counter l' -> l ≡ₚ l'.
Proof.
  intros H.
  destruct (Counter_counts l) as (keys & Hl & Hkeys).
  destruct (Counter_counts l') as (keys' & Hl' & Hkeys').
  rewrite Hl, Hl' in H. apply tally_inj in H as [<- Hall].
  apply occurrences_determine. intros k.
  destruct (decide (k ∈ keys)) as [Hin | Hout]; [exact (Hall k Hin)|].
  rewrite !occurrences_absent; [reflexivity | |].
  - intros Hk. apply Hout. rewrite Hkeys'. apply elem_of_remove_dups. exact Hk.
  - intros Hk. apply Hout. rewrite Hkeys. apply elem_of_remove_dups. exact Hk.
Qed.
End CounterOrder.

(** ** Binary64 *)

(** The rounded embedder on the texts of the examples below. *)
Module RoundedChecks.
Import Rounded.

Lemma reordered_differs :
  same (output "a b c") (output "c b a") = false.
Proof. vm_compute. reflexivity. Qed.

Lemma output_same_refl :
  same (output "c b a") (output "c b a") = true.
Proof. vm_compute. reflexivity. Qed.

Lemma repeated_agrees :
  same (output "a b, A B; a b") (output "a b") = true.
Proof. vm_compute. reflexivity. Qed.

Lemma one_word_agrees :
  match get_word_embedding "yes" ∅ with
  | (Ok word_emb, _) =>
      same (output "Yes! yes, YES.") (normalize word_emb) = true
  | (Raise _, _) => False
  end.
Proof. vm_compute. reflexivity. Qed.
End RoundedChecks.

(** ** The cache files *)

Module CacheFacts.
Import ContextRagEmbedder Effects Chunks Entries Batch.

Section Embedder.
Variable self : t.

Lemma check_cache_unusable (path : string) (f : file) (w : world) :
  files w !! path = Some f -> unusable self f ->
  check_cache self path w = (Ok None, w).
Proof.
  intros Hf Hbad. unfold check_cache. rewrite Hf.
  destruct f as [d | v |]; try reflexivity.
  destruct (model_is (d !! "model") (model_name self)) eqn:Hm; [|reflexivity].
  destruct Hbad as [He | Hn].
  - rewrite He. reflexivity.
  - exfalso. apply Hn. unfold model_is in Hm.
    destruct (d !! "model") as [[| | | |s| |]|]; try discriminate.
    apply String.eqb_eq in Hm. subst s. reflexivity.
Qed.

Lemma check_cache_usable (path : string) (d : gmap string value)
    (cached : value) (w : world) :
  files w !! path = Some (JsonObject d) ->
  d !! "model" = Some (VStr (model_name self)) ->
  d !! "embedding" = Some cached ->
  check_cache self path w = (Ok (Some cached), w).
Proof.
  intros Hf Hm He. unfold check_cache. rewrite Hf, Hm. simpl.
  rewrite String.eqb_refl, He. reflexivity.
Qed.

(** The lookup reads; it changes nothing and never raises. *)
Lemma check_cache_pure (path : string) (w : world) :
  exists cached, check_cache self path w = (Ok cached, w).
Proof.
  unfold check_cache.
  destruct (files w !! path) as [[d | v |]|]; eauto.
  destruct (model_is (d !! "model") (model_name self)); eauto.
Qed.

(** The lookup depends on the files alone. *)
Lemma check_cache_files (path : string) (cached : option value)
    (w w' : world) :
  files w' = files w ->
  check_cache self path w = (Ok cached, w) ->
  check_cache self path w' = (Ok cached, w').
Proof.
  unfold check_cache. intros ->.
  destruct (files w !! path) as [[d | v |]|]; try congruence.
  destruct (model_is (d !! "model") (model_name self)); congruence.
Qed.

(** A miss followed by a successful batch and a failed write. *)
Lemma embed_with_cache_unwritable (text : string)
    (cache_key : option string) (embedding : list R)
    (rest : list (list R)) (w : world) :
  check_cache self (cache_file self (key_of text cache_key)) w = (Ok None, w) ->
  model self [VStr text] = Some (embedding :: rest) ->
  read_only w = true ->
  embed_with_cache self text cache_key w
  = (Ok (vec_value embedding),
     logged "Warning: Failed to cache embedding" (submitted [VStr text] w)).
Proof.
  intros Hc Hm Hr. unfold embed_with_cache. cbv zeta.
  fold (key_of text cache_key).
  rewrite (bind_ok _ _ _ _ _ Hc).
  rewrite (bind_ok _ _ _ _ _
             (generate_embeddings_success self [VStr text] _ w
                ltac:(discriminate) Hm)).
  unfold bind, lift, first, save_to_cache, ret. simpl.
  rewrite Hr. reflexivity.
Qed.

Lemma embed_with_cache_framed (text : string) (cache_key : option string)
    (w : world) :
  framed (cache_file self (key_of text cache_key)) [VStr text] w
    (embed_with_cache self text cache_key w).2.
Proof.
  unfold embed_with_cache. cbv zeta. fold (key_of text cache_key).
  set (path := cache_file self (key_of text cache_key)).
  destruct (check_cache_pure path w) as [cached Hc].
  rewrite (bind_ok _ _ _ _ _ Hc).
  destruct cached as [v|].
  - unfold ret. simpl. repeat split; auto.
    exists []. rewrite app_nil_r. reflexivity.
  - unfold bind, generate_embeddings, print_stderr, lift, first,
      save_to_cache, ret.
    destruct (model self [VStr text]) as [[|e rest]|]; simpl.
    + repeat split; auto. exists []. rewrite app_nil_r. reflexivity.
    + destruct (read_only w) eqn:Hr; simpl; repeat split; auto;
        try (eexists; reflexivity);
        try (exists []; rewrite app_nil_r; reflexivity).
      intros p Hp. simpl. rewrite lookup_insert_ne by congruence. reflexivity.
    + repeat split; auto. eexists. reflexivity.
Qed.

(** The batch call reads and writes no file. *)
Lemma generate_embeddings_files (texts : list value) (w : world) :
  files (generate_embeddings self texts w).2 = files w
  /\ read_only (generate_embeddings self texts w).2 = read_only w.
Proof.
  unfold generate_embeddings.
  destruct texts as [|t texts]; [split; reflexivity|].
  destruct (model self (t :: texts)); split; reflexivity.
Qed.

(** The batch call of [embed_chunks] leaves the files alone and does not
    look at them. *)
Lemma embed_chunks_files (chunks : list chunk) (w : world)
    (fs : gmap string file) :
  files (embed_chunks self chunks w).2 = files w
  /\ read_only (embed_chunks self chunks w).2 = read_only w
  /\ embed_chunks self chunks (World fs (read_only w) (stderr w) (encoded w))
     = ((embed_chunks self chunks w).1,
        World fs (read_only w) (stderr (embed_chunks self chunks w).2)
          (encoded (embed_chunks self chunks w).2)).
Proof.
  unfold embed_chunks, bind, lift.
  destruct (comprehension content_of chunks) as [texts | e]; simpl.
  - unfold generate_embeddings.
    destruct texts as [|t texts]; simpl.
    + unfold ret. simpl. auto.
    + destruct (model self (t :: texts)); simpl; auto.
  - auto.
Qed.
End Embedder.
End CacheFacts.

(** ** The command lines *)

Module InputFacts.
Import Py Chunks.

Lemma dict_prefix_hashable (items : list value) :
  Forall hashable items ->
  Forall content_ok (dict_prefix items)
  /\ length (dict_prefix items) = length items.
Proof.
  induction 1 as [|v items Hv _ [IH1 IH2]]; simpl; [auto|].
  destruct v; simpl in Hv; try contradiction.
  simpl. split; [constructor; assumption | congruence].
Qed.

Lemma dict_prefix_unhashable (items : list value) :
  Exists (fun v => ~ hashable v) items ->
  Exists (fun c => ~ content_ok c) (dict_prefix items)
  \/ length (dict_prefix items) <> length items.
Proof.
  induction 1 as [v items Hv | v items _ IH].
  - destruct v; simpl; try (right; discriminate).
    left. constructor. exact Hv.
  - destruct v; simpl; try (right; discriminate).
    destruct IH as [IH | IH]; [left; constructor 2; exact IH | right; congruence].
Qed.

Lemma dict_prefix_has_content (items : list value) :
  Forall has_content items ->
  Forall (fun c : chunk => is_Some (c !! "content")) (dict_prefix items)
  /\ length (dict_prefix items) = length items.
Proof.
  induction 1 as [|v items Hv _ [IH1 IH2]]; simpl; [auto|].
  destruct v; simpl in Hv; try contradiction.
  simpl. split; [constructor; assumption | congruence].
Qed.

Lemma dict_prefix_no_content (items : list value) :
  Exists (fun v => ~ has_content v) items ->
  Exists (fun c : chunk => c !! "content" = None) (dict_prefix items)
  \/ length (dict_prefix items) <> length items.
Proof.
  induction 1 as [v items Hv | v items _ IH].
  - destruct v; simpl; try (right; discriminate).
    left. constructor. simpl in Hv.
    destruct (dict_of d !! "content") eqn:E; [|reflexivity].
    exfalso. apply Hv. eauto.
  - destruct v; simpl; try (right; discriminate).
    destruct IH as [IH | IH]; [left; constructor 2; exact IH | right; congruence].
Qed.

(** A list that holds the string ['chunks'] holds an item that is not a
    dict. *)
Lemma dict_prefix_str (s : string) (items : list value) :
  existsb (is_str s) items = true ->
  length (dict_prefix items) <> length items.
Proof.
  induction items as [|v items IH]; simpl; [discriminate|].
  destruct v; simpl; try discriminate.
  intros H. specialize (IH H). congruence.
Qed.

Lemma dict_prefix_chunk_values (chunks : list chunk) :
  dict_prefix (map chunk_value chunks) = chunks.
Proof.
  induction chunks as [|c chunks IH]; simpl; [reflexivity|].
  rewrite IH. unfold dict_of. rewrite list_to_map_to_list. reflexivity.
Qed.
End InputFacts.

Module FastMainFacts.
Import Py FastMain Chunks InputFacts FastChunks WordVector FrequencyFacts.

Lemma embed_chunks_hashable (items : list value) :
  Forall hashable items ->
  exists cache',
    embed_chunks (VList items) FastEmbedder.init
    = (Done (map with_text_vector (dict_prefix items)), cache').
Proof.
  intros H. apply dict_prefix_hashable in H as [Hok Hlen].
  destruct (embed_chunks_spec (dict_prefix items) FastEmbedder.init
              cache_ok_init Hok) as (cache' & He & _).
  exists cache'. unfold embed_chunks. simpl. rewrite He, Hlen.
  rewrite Nat.eqb_refl. reflexivity.
Qed.

Lemma embed_chunks_unhashable (items : list value) :
  Exists (fun v => ~ hashable v) items ->
  exists e cache', embed_chunks (VList items) FastEmbedder.init
                   = (Failed e, cache').
Proof.
  intros H. apply dict_prefix_unhashable in H as [H | H].
  - destruct (embed_chunks_loop_bad (dict_prefix items) []
                FastEmbedder.init cache_ok_init H) as (cache' & He & _).
    exists (Builtin AttributeError), cache'.
    unfold embed_chunks, iterate. cbv zeta.
    change (FastEmbedder.embed_chunks (dict_prefix items) FastEmbedder.init)
      with (for_each
              (fun result (chunk : chunk) =>
                 let content := default (VStr "") (chunk !! "content") in
                 let* embedding := FastEmbedder.embed_content content in
                 let chunk_with_embedding :=
                   <["embedding" := vec_value embedding]> chunk in
                 ret (result ++ [chunk_with_embedding]))%py
              (dict_prefix items) [] FastEmbedder.init).
    rewrite He. reflexivity.
  - unfold embed_chunks. simpl.
    destruct (FastEmbedder.embed_chunks (dict_prefix items) FastEmbedder.init)
      as [[r | e] cache'] eqn:E; [|eauto].
    apply Nat.eqb_neq in H. rewrite H. eauto.
Qed.

Lemma embed_chunks_str (s : string) (items : list value) :
  existsb (is_str s) items = true ->
  exists e cache', embed_chunks (VList items) FastEmbedder.init
                   = (Failed e, cache').
Proof.
  intros H. apply dict_prefix_str in H. unfold embed_chunks. simpl.
  destruct (FastEmbedder.embed_chunks (dict_prefix items) FastEmbedder.init)
    as [[r | e] cache'] eqn:E; [|eauto].
  apply Nat.eqb_neq in H. rewrite H. eauto.
Qed.

Lemma main_wrapped (d : list (string * value)) (chunks_data : value) :
  dict_of d !! "chunks" = Some chunks_data ->
  main None (Some (VDict d))
  = match embed_chunks chunks_data FastEmbedder.init with
    | (Done embedded_chunks, _) =>
        Run [BatchResult "fast-embedder" embedded_chunks
               (length embedded_chunks)] [] 0
    | (Failed _, _) => failure
    end.
Proof.
  intros H. unfold main, select_chunks. simpl.
  rewrite bool_decide_eq_true_2 by eauto.
  unfold get_chunks. rewrite H. reflexivity.
Qed.

Lemma main_list (items : list value) :
  main None (Some (VList items))
  = match embed_chunks (VList items) FastEmbedder.init with
    | (Done embedded_chunks, _) =>
        Run [BatchResult "fast-embedder" embedded_chunks
               (length embedded_chunks)] [] 0
    | (Failed _, _) => failure
    end.
Proof.
  unfold main, select_chunks. simpl.
  destruct (existsb (is_str "chunks") items) eqn:E; [|reflexivity].
  simpl. destruct (embed_chunks_str _ _ E) as (e & cache' & ->). reflexivity.
Qed.
End FastMainFacts.

Module ContextRagMainFacts.
Import Py ContextRagEmbedder ContextRagMain Effects Chunks InputFacts Batch.
Import CacheFacts.

Lemma init_loaded (load : loader) (name dir : string)
    (m : list value -> option (list (list R))) (w : world) :
  load name = Some m ->
  init load name dir w = (Some (Embedder name dir m), loaded name w).
Proof. intros H. unfold init. simpl. rewrite H. reflexivity. Qed.

Lemma init_failed (load : loader) (name dir : string) (w : world) :
  load name = None ->
  init load name dir w
  = (None, logged ("Error loading model " +:+ name)
             (logged ("Loading model: " +:+ name) w)).
Proof. intros H. unfold init. simpl. rewrite H. reflexivity. Qed.

Section Embedder.
Variable self : t.

Lemma embed_chunks_dicts (items : list value) (w : world) :
  length (dict_prefix items) = length items ->
  embed_chunks self (VList items) w
  = match ContextRagEmbedder.embed_chunks self (dict_prefix items) w with
    | (Ok result, w') => (Done result, w')
    | (Raise e, w') => (Failed (Builtin e), w')
    end.
Proof.
  intros H. unfold embed_chunks, iterate. cbv zeta.
  rewrite H, Nat.eqb_refl. reflexivity.
Qed.

Lemma embed_chunks_short (items : list value) (w : world) :
  length (dict_prefix items) <> length items ->
  exists e, embed_chunks self (VList items) w = (Failed e, w).
Proof.
  intros H. unfold embed_chunks, iterate. cbv zeta.
  apply Nat.eqb_neq in H. rewrite H.
  destruct (comprehension content_of (dict_prefix items)); eauto.
Qed.

(** An item without a ['content'] stops the call before the model is
    asked. *)
Lemma embed_chunks_no_content (items : list value) (w : world) :
  Exists (fun v => ~ has_content v) items ->
  exists e, embed_chunks self (VList items) w = (Failed e, w).
Proof.
  intros H.
  destruct (Nat.eq_dec (length (dict_prefix items)) (length items)) as [E | E].
  - apply dict_prefix_no_content in H as [H | H]; [|contradiction].
    rewrite (embed_chunks_dicts _ _ E).
    rewrite (embed_chunks_missing self _ w H). eauto.
  - apply embed_chunks_short. exact E.
Qed.

(** With every ['content'] there, the call returns. *)
Lemma embed_chunks_has_content (items : list value) (w : world) :
  Forall has_content items ->
  exists texts embeddings w',
    comprehension content_of (dict_prefix items) = Ok texts
    /\ generate_embeddings self texts w = (Ok embeddings, w')
    /\ (embeddings = [] \/ model self texts = Some embeddings)
    /\ embed_chunks self (VList items) w
       = (Done (zip_with with_embedding (dict_prefix items) embeddings), w').
Proof.
  intros H. apply dict_prefix_has_content in H as [Hc Hlen].
  destruct (contents_present _ Hc) as [texts Ht].
  destruct (generate_embeddings_total self texts w) as (es & w' & Hg & Hes).
  exists texts, es, w'. repeat split; try assumption.
  rewrite (embed_chunks_dicts _ _ Hlen).
  rewrite (embed_chunks_zip self _ _ _ _ _ Ht Hg). reflexivity.
Qed.
End Embedder.

Section Stdin.
Variables (load : loader) (a : args).
Variable m : list value -> option (list (list R)).
Hypothesis no_text : given (arg_text a) = None.
Hypothesis no_input : given (arg_input a) = None.
Hypothesis model_loads : load (arg_model a) = Some m.

Let self : t := Embedder (arg_model a) (arg_cache_dir a) m.

Lemma main_stdin (input_data : value) (w : world) :
  main load a (Some input_data) w
  = match select_chunks input_data with
    | Failed _ => failure "Error reading from stdin" (loaded (arg_model a) w)
    | Done chunks_data => stdin_batch a self chunks_data (loaded (arg_model a) w)
    end.
Proof.
  unfold main.
  rewrite (init_loaded load _ _ m w model_loads), no_text, no_input.
  destruct (select_chunks input_data); reflexivity.
Qed.

Lemma main_stdin_list (items : list value) (w : world) :
  main load a (Some (VList items)) w
  = stdin_batch a self (VList items) (loaded (arg_model a) w).
Proof.
  rewrite main_stdin. unfold select_chunks, has_chunks.
  destruct (existsb (is_str "chunks") items) eqn:E; [|reflexivity].
  cbn [get_chunks]. unfold stdin_batch.
  destruct (embed_chunks_short self items (loaded (arg_model a) w)
              (dict_prefix_str _ _ E)) as [e ->].
  reflexivity.
Qed.

Lemma main_stdin_wrapped (d : list (string * value)) (chunks_data : value)
    (w : world) :
  dict_of d !! "chunks" = Some chunks_data ->
  main load a (Some (VDict d)) w
  = stdin_batch a self chunks_data (loaded (arg_model a) w).
Proof.
  intros H. rewrite main_stdin. unfold select_chunks, has_chunks.
  rewrite bool_decide_eq_true_2 by eauto.
  unfold get_chunks. rewrite H. reflexivity.
Qed.
End Stdin.

Lemma main_not_loaded (load : loader) (a : args) (stdin : option value)
    (w : world) :
  load (arg_model a) = None ->
  main load a stdin w
  = (Run [] 1,
     logged ("Error loading model " +:+ arg_model a)
       (logged ("Loading model: " +:+ arg_model a) w)).
Proof.
  intros H. unfold main. rewrite (init_failed load _ _ w H). reflexivity.
Qed.

End ContextRagMainFacts.

(** * The properties of the specification *)

Import FastEmbedder Digest Memo Tally Effects Chunks Examples.
Import WordVector TextVector FastChunks Batch.

Lemma embedded_map (f : chunk -> list R) (chunks : list chunk) :
  embedded chunks (map (fun c => <["embedding" := vec_value (f c)]> c) chunks).
Proof.
  split; [apply length_map |].
  intros i c Hi. exists (<["embedding" := vec_value (f c)]> c), (f c).
  split; [| split].
  - change (map ?g chunks) with (g <$> chunks).
    now rewrite list_lookup_fmap, Hi.
  - apply lookup_insert_eq.
  - intros field Hf. now apply lookup_insert_ne.
Qed.

Lemma embedded_zip (chunks : list chunk) (embeddings : list (list R)) :
  length embeddings = length chunks ->
  embedded chunks (zip_with with_embedding chunks embeddings).
Proof.
  intros Hlen. split; [rewrite length_zip_with; lia |].
  intros i c Hi.
  destruct (lookup_lt_is_Some_2 embeddings i) as [e He].
  { rewrite Hlen. now apply lookup_lt_Some in Hi. }
  exists (with_embedding c e), e. split; [| split].
  - rewrite lookup_zip_with, Hi. simpl. now rewrite He.
  - apply with_embedding_lookup.
  - intros field Hf. now apply with_embedding_frame.
Qed.

(** C1. In [embed_with_cache], a failed batch inference is not degraded to
    a result: [generate_embeddings] returns the empty list and the [[0]]
    that follows raises IndexError to the caller. Here on the text "hello",
    an empty cache directory and a model that raises. *)
Theorem embed_with_cache_batch_failure :
  ContextRagEmbedder.embed_with_cache failing "hello" None empty_world
  = (Raise IndexError,
     logged "Error generating embeddings"
       (submitted [VStr "hello"] empty_world)).
Proof.
  apply embed_with_cache_failure.
  - apply check_cache_absent. reflexivity.
  - reflexivity.
Qed.

(** C2. Cache round trip with identity check: once [embed_with_cache] has
    filed the vector of a miss under key k and model name id, a later call
    for k by an embedder of the same name returns that vector from the file
    (whatever its model would do, and leaving the world as it is), and a
    call by an embedder of another name finds no entry, asks its own model
    and files the new vector under its own name. *)
Theorem cache_round_trip (self : ContextRagEmbedder.t) (text : string)
    (cache_key : option string) (embedding : list R) (rest : list (list R))
    (w : ContextRagEmbedder.world) :
  ContextRagEmbedder.check_cache self
    (ContextRagEmbedder.cache_file self (key_of text cache_key)) w
    = (Ok None, w) ->
  ContextRagEmbedder.model self [VStr text] = Some (embedding :: rest) ->
  ContextRagEmbedder.read_only w = false ->
  exists w',
    ContextRagEmbedder.embed_with_cache self text cache_key w
      = (Ok (vec_value embedding), w')
    /\ ContextRagEmbedder.files w'
         !! ContextRagEmbedder.cache_file self (key_of text cache_key)
       = Some (entry (ContextRagEmbedder.model_name self)
                 (key_of text cache_key) embedding)
    /\ (forall same : ContextRagEmbedder.t,
          ContextRagEmbedder.model_name same = ContextRagEmbedder.model_name self ->
          ContextRagEmbedder.cache_dir same = ContextRagEmbedder.cache_dir self ->
          ContextRagEmbedder.embed_with_cache same text cache_key w'
          = (Ok (vec_value embedding), w'))
    /\ (forall (other : ContextRagEmbedder.t) (fresh : list R)
               (rest' : list (list R)),
          ContextRagEmbedder.model_name other <> ContextRagEmbedder.model_name self ->
          ContextRagEmbedder.cache_dir other = ContextRagEmbedder.cache_dir self ->
          ContextRagEmbedder.model other [VStr text] = Some (fresh :: rest') ->
          ContextRagEmbedder.check_cache other
            (ContextRagEmbedder.cache_file other (key_of text cache_key)) w'
            = (Ok None, w')
          /\ ContextRagEmbedder.embed_with_cache other text cache_key w'
             = (Ok (vec_value fresh),
                stored (ContextRagEmbedder.cache_file other (key_of text cache_key))
                  (entry (ContextRagEmbedder.model_name other)
                     (key_of text cache_key) fresh)
                  (submitted [VStr text] w'))).
Proof.
  intros Hmiss Hmodel Hrw.
  set (key := key_of text cache_key) in *.
  set (path := ContextRagEmbedder.cache_file self key) in *.
  set (w' := stored path (entry (ContextRagEmbedder.model_name self) key embedding)
               (submitted [VStr text] w)).
  assert (ContextRagEmbedder.files w' !! path
          = Some (entry (ContextRagEmbedder.model_name self) key embedding)) as Hfile
    by apply lookup_insert_eq.
  exists w'. split; [| split; [exact Hfile | split]].
  - now apply (embed_with_cache_miss self text cache_key embedding rest).
  - intros same Hname Hdir.
    assert (ContextRagEmbedder.cache_file same key = path) as Hpath
      by (unfold path, ContextRagEmbedder.cache_file; now rewrite Hdir).
    apply embed_with_cache_hit. fold key. rewrite Hpath.
    rewrite (check_cache_entry same path key embedding _ w' Hfile).
    now rewrite Hname, String.eqb_refl.
  - intros other fresh rest' Hname Hdir Hother.
    assert (ContextRagEmbedder.cache_file other key = path) as Hpath
      by (unfold path, ContextRagEmbedder.cache_file; now rewrite Hdir).
    assert (ContextRagEmbedder.check_cache other path w' = (Ok None, w')) as Hnone.
    { rewrite (check_cache_entry other path key embedding _ w' Hfile).
      destruct (String.eqb_spec (ContextRagEmbedder.model_name self)
                  (ContextRagEmbedder.model_name other)) as [E | _];
        [congruence | reflexivity]. }
    fold key. rewrite Hpath. split; [exact Hnone |].
    rewrite <- Hpath.
    apply (embed_with_cache_miss other text cache_key fresh rest'); fold key.
    + now rewrite Hpath.
    + exact Hother.
    + exact Hrw.
Qed.

Lemma cache_round_trip_witness :
  exists w',
    ContextRagEmbedder.embed_with_cache minilm "hello" (Some "k") empty_world
      = (Ok (vec_value [1; 0]%R), w')
    /\ ContextRagEmbedder.embed_with_cache failing "hello" (Some "k") w'
       = (Ok (vec_value [1; 0]%R), w')
    /\ ContextRagEmbedder.check_cache mpnet
         (ContextRagEmbedder.cache_file mpnet "k") w' = (Ok None, w').
Proof.
  destruct (cache_round_trip minilm "hello" (Some "k") [1; 0]%R [] empty_world)
    as (w' & Hfirst & _ & Hsame & Hother); [reflexivity | reflexivity | reflexivity |].
  exists w'. split; [exact Hfirst | split].
  - apply (Hsame failing); reflexivity.
  - apply (Hother mpnet [0; 1]%R []); [discriminate | reflexivity | reflexivity].
Defined.

(** C3. [get_word_embedding] computes the reference word vector: the MD5
    digest of the token, its bytes (the pairs of hexadecimal digits of
    the hex digest) each mapped to b/255 - 0.5, zero-padded or truncated to
    384 values and renormalised, a vector of norm zero staying as it is.
    It does so on every memo table the embedder can hold ([cache_ok], an
    invariant of the embedder by [reachable_cache_ok]), and leaves such a
    table behind. *)
Theorem get_word_embedding_refines (word : string) (cache : word_cache) :
  cache_ok cache ->
  exists cache',
    get_word_embedding word cache = (Ok (Reference.word_vector word), cache')
    /\ cache_ok cache'.
Proof. apply get_word_embedding_spec. Qed.

Lemma get_word_embedding_refines_witness :
  cache_ok init
  /\ exists cache',
       get_word_embedding "hello" init
         = (Ok (Reference.word_vector "hello"), cache')
       /\ cache_ok cache'.
Proof.
  split; [exact cache_ok_init |].
  exact (get_word_embedding_refines "hello" init cache_ok_init).
Defined.

(** C4 (amended). [embed_text] computes the reference text vector: the
    lower-cased text cut into maximal runs of word characters; no token
    gives the zero vector of dimension 384, otherwise the sum over the
    distinct tokens of (occurrences / total tokens) times the token's word
    vector, renormalised. The sum is taken over [Counter(tokens)], that
    is in the order in which the tokens first occur: two texts with the
    same [Counter], the same tokens first met in the same order and as
    often, get the same vector. *)
Theorem embed_text_refines (text : string) (cache : word_cache) :
  cache_ok cache ->
  tokenize text = Reference.tokens text
  /\ (exists cache',
        embed_text text cache = (Ok (Reference.text_vector text), cache')
        /\ cache_ok cache')
  /\ (forall (text' : string) (cache2 : word_cache),
        cache_ok cache2 ->
        Counter (tokenize text') = Counter (tokenize text) ->
        (embed_text text' cache2).1 = (embed_text text cache).1).
Proof.
  intros Hc. split; [apply tokenize_tokens |].
  split; [now apply embed_text_spec |].
  intros text' cache2 Hc2 Hcounter.
  destruct (embed_text_spec text cache Hc) as (c1 & -> & _).
  destruct (embed_text_spec text' cache2 Hc2) as (c2 & -> & _).
  simpl. f_equal. apply text_vector_perm.
  rewrite <- !tokenize_tokens.
  apply CounterOrder.Counter_determines. exact Hcounter.
Qed.

Lemma embed_text_refines_witness :
  cache_ok init
  /\ tokenize "a b a" = ["a"; "b"; "a"]
  /\ tokenize "a a b" = ["a"; "a"; "b"]
  /\ (embed_text "a a b" init).1 = (embed_text "a b a" init).1.
Proof.
  split; [exact cache_ok_init |].
  split; [reflexivity |]. split; [reflexivity |].
  apply (embed_text_refines "a b a" init cache_ok_init);
    [exact cache_ok_init |].
  reflexivity.
Defined.

(** C4 as first stated has the vector depend on the multiset of the
    tokens, not on their order. In binary64 the order shows: the texts
    "a b c" and "c b a" have the same tokens, and the sums
    (a/3 + b/3) + c/3 and (c/3 + b/3) + a/3 of their word vectors round
    apart, so the two vectors differ in their last bits. *)
Lemma embed_text_order_shows :
  tokenize "a b c" ≡ₚ tokenize "c b a"
  /\ Rounded.output "a b c" <> Rounded.output "c b a".
Proof.
  split.
  - change (tokenize "a b c") with ["a"; "b"; "c"].
    change (tokenize "c b a") with ["c"; "b"; "a"].
    apply (Permutation_rev ["a"; "b"; "c"]).
  - intros H.
    pose proof RoundedChecks.reordered_differs as Hdiffers.
    rewrite H in Hdiffers.
    rewrite RoundedChecks.output_same_refl in Hdiffers.
    discriminate Hdiffers.
Qed.

(** C6. When the batch does not fail, [embed_chunks] returns one record per
    chunk, in the order of the input, each the source chunk with an
    ['embedding'] and every other field unchanged. For the model strategy
    the batch is the model's answer of one vector per text; for the hash
    strategy it is the loop over chunks whose content is a string (or
    missing). *)
Theorem embed_chunks_preserves :
  (forall (self : ContextRagEmbedder.t) (chunks : list chunk)
          (texts : list value) (embeddings : list (list R))
          (w w' : ContextRagEmbedder.world),
      comprehension ContextRagEmbedder.content_of chunks = Ok texts ->
      ContextRagEmbedder.generate_embeddings self texts w = (Ok embeddings, w') ->
      length embeddings = length texts ->
      exists out,
        ContextRagEmbedder.embed_chunks self chunks w = (Ok out, w')
        /\ embedded chunks out)
  /\ (forall (chunks : list chunk) (cache : word_cache),
        cache_ok cache ->
        Forall content_ok chunks ->
        exists out cache',
          FastEmbedder.embed_chunks chunks cache = (Ok out, cache')
          /\ embedded chunks out).
Proof.
  split.
  - intros self chunks texts embeddings w w' Htexts Hbatch Hlen.
    exists (zip_with with_embedding chunks embeddings).
    split; [now apply (embed_chunks_zip self chunks texts) |].
    apply embedded_zip.
    now rewrite Hlen, (comprehension_length _ _ _ Htexts).
  - intros chunks cache Hc Hok.
    destruct (embed_chunks_spec chunks cache Hc Hok) as (cache' & H & _).
    exists (map with_text_vector chunks), cache'. split; [exact H |].
    apply (embedded_map (fun c => Reference.text_vector (content_text c))).
Qed.

Lemma embed_chunks_preserves_witness :
  (exists out,
     ContextRagEmbedder.embed_chunks minilm [chunk_x; chunk_y] empty_world
       = (Ok out, submitted [VStr "x"; VStr "y"] empty_world)
     /\ embedded [chunk_x; chunk_y] out)
  /\ (exists out cache',
        FastEmbedder.embed_chunks [chunk_x; chunk_bare] init = (Ok out, cache')
        /\ embedded [chunk_x; chunk_bare] out).
Proof.
  split.
  - apply (proj1 embed_chunks_preserves minilm [chunk_x; chunk_y]
             [VStr "x"; VStr "y"] [[1; 0]%R; [1; 0]%R]); reflexivity.
  - apply (proj2 embed_chunks_preserves [chunk_x; chunk_bare] init).
    + exact cache_ok_init.
    + repeat constructor.
Defined.

(** C7. [generate_embeddings] returns the empty list on the empty list and
    leaves the world as it is (the model is not called); when the model
    raises on a batch, it prints the error to stderr and returns the empty
    list; it never raises, and what it returns is the model's whole answer
    or nothing. *)
Theorem generate_embeddings_degrades (self : ContextRagEmbedder.t)
    (texts : list value) (w : ContextRagEmbedder.world) :
  (texts = [] ->
   ContextRagEmbedder.generate_embeddings self texts w = (Ok [], w))
  /\ (texts <> [] -> ContextRagEmbedder.model self texts = None ->
      ContextRagEmbedder.generate_embeddings self texts w
      = (Ok [], logged "Error generating embeddings" (submitted texts w)))
  /\ (exists embeddings w',
        ContextRagEmbedder.generate_embeddings self texts w = (Ok embeddings, w')
        /\ (embeddings = [] \/ ContextRagEmbedder.model self texts = Some embeddings)).
Proof.
  split; [intros ->; apply generate_embeddings_empty |].
  split; [apply generate_embeddings_failure |].
  apply generate_embeddings_total.
Qed.

Lemma generate_embeddings_degrades_witness :
  ContextRagEmbedder.generate_embeddings failing [] empty_world
    = (Ok [], empty_world)
  /\ ContextRagEmbedder.generate_embeddings failing [VStr "a"; VStr "b"] empty_world
     = (Ok [],
        ContextRagEmbedder.World ∅ false ["Error generating embeddings"]
          [[VStr "a"; VStr "b"]]).
Proof.
  split.
  - apply (proj1 (generate_embeddings_degrades failing [] empty_world)).
    reflexivity.
  - apply (proj1 (proj2 (generate_embeddings_degrades failing
                           [VStr "a"; VStr "b"] empty_world)));
      [discriminate | reflexivity].
Defined.

(** C8. When the batch result is shorter than the chunk list (empty, when
    the batch failed), [embed_chunks] of the model strategy returns the
    chunks paired with the vectors there are, as many records as vectors:
    nothing is padded and nothing is raised. *)
Theorem embed_chunks_short_batch (self : ContextRagEmbedder.t)
    (chunks : list chunk) (texts : list value) (embeddings : list (list R))
    (w w' : ContextRagEmbedder.world) :
  comprehension ContextRagEmbedder.content_of chunks = Ok texts ->
  ContextRagEmbedder.generate_embeddings self texts w = (Ok embeddings, w') ->
  length embeddings <= length chunks ->
  exists out,
    ContextRagEmbedder.embed_chunks self chunks w = (Ok out, w')
    /\ length out = length embeddings
    /\ forall i e, embeddings !! i = Some e ->
         exists c, chunks !! i = Some c
           /\ out !! i = Some (<["embedding" := vec_value e]> c).
Proof.
  intros Htexts Hbatch Hlen.
  exists (zip_with with_embedding chunks embeddings).
  split; [now apply (embed_chunks_zip self chunks texts) |].
  split; [rewrite length_zip_with; lia |].
  intros i e He.
  destruct (lookup_lt_is_Some_2 chunks i) as [c Hc].
  { apply lookup_lt_Some in He. lia. }
  exists c. split; [exact Hc |].
  rewrite lookup_zip_with, Hc. simpl. now rewrite He.
Qed.

Lemma embed_chunks_short_batch_witness :
  (exists out,
     ContextRagEmbedder.embed_chunks short [chunk_x; chunk_y] empty_world
       = (Ok out, submitted [VStr "x"; VStr "y"] empty_world)
     /\ length out = 1)
  /\ (exists out w',
        ContextRagEmbedder.embed_chunks failing [chunk_x; chunk_y] empty_world
          = (Ok out, w')
        /\ length out = 0).
Proof.
  split.
  - destruct (embed_chunks_short_batch short [chunk_x; chunk_y]
                [VStr "x"; VStr "y"] [[1; 0]%R] empty_world
                (submitted [VStr "x"; VStr "y"] empty_world))
      as (out & H & Hlen & _); [reflexivity | reflexivity | simpl; lia |].
    exists out. now split.
  - destruct (embed_chunks_short_batch failing [chunk_x; chunk_y]
                [VStr "x"; VStr "y"] [] empty_world
                (logged "Error generating embeddings"
                   (submitted [VStr "x"; VStr "y"] empty_world)))
      as (out & H & Hlen & _); [reflexivity | reflexivity | simpl; lia |].
    exists out. eexists. split; [exact H | exact Hlen].
Defined.

(** C9. On a chunk without ['content'] the two strategies part:
    [FastEmbedder.embed_chunks] embeds the empty string in its place and
    attaches the zero vector of dimension 384, while
    [ContextRagEmbedder.embed_chunks] raises KeyError on the same list. *)
Theorem missing_content_strategies_differ (chunks : list chunk)
    (cache : word_cache) (self : ContextRagEmbedder.t)
    (w : ContextRagEmbedder.world) :
  cache_ok cache ->
  Forall content_ok chunks ->
  Exists (fun c : chunk => c !! "content" = None) chunks ->
  (exists out cache',
     FastEmbedder.embed_chunks chunks cache = (Ok out, cache')
     /\ length out = length chunks
     /\ forall i (c : chunk),
          chunks !! i = Some c -> c !! "content" = None ->
          out !! i = Some (<["embedding" := vec_value (repeat 0%R 384)]> c))
  /\ ContextRagEmbedder.embed_chunks self chunks w = (Raise KeyError, w).
Proof.
  intros Hc Hok Hmissing. split; [| now apply embed_chunks_missing].
  destruct (embed_chunks_spec chunks cache Hc Hok) as (cache' & H & _).
  exists (map with_text_vector chunks), cache'.
  split; [exact H |]. split; [apply length_map |].
  intros i c Hi Hnone.
  change (map with_text_vector chunks) with (with_text_vector <$> chunks).
  rewrite list_lookup_fmap, Hi. simpl. f_equal.
  unfold with_text_vector, content_text. rewrite Hnone.
  now rewrite text_vector_no_tokens.
Qed.

Lemma missing_content_strategies_differ_witness :
  (exists out cache',
     FastEmbedder.embed_chunks [chunk_bare] init = (Ok out, cache')
     /\ out !! 0%nat
        = Some (<["embedding" := vec_value (repeat 0%R 384)]> chunk_bare))
  /\ ContextRagEmbedder.embed_chunks minilm [chunk_bare] empty_world
     = (Raise KeyError, empty_world).
Proof.
  destruct (missing_content_strategies_differ [chunk_bare] init minilm
              empty_world cache_ok_init)
    as [(out & cache' & H & _ & Hout) Hraise].
  - repeat constructor.
  - apply Exists_cons_hd. reflexivity.
  - split; [| exact Hraise].
    exists out, cache'. split; [exact H |].
    apply (Hout 0%nat chunk_bare); reflexivity.
Defined.

(** C10. For every token the array built in [get_word_embedding] has
    positive norm before it is normalised: the comprehension yields the 16
    components b/255 - 0.5 of the digest's bytes b in [0,255], none of
    them zero. So the normalisation always divides, and every vector
    [get_word_embedding] returns has norm 1. *)
Theorem word_embedding_unit_norm (word : string) (cache : word_cache) :
  cache_ok cache ->
  exists components : list R,
    hash_components (word_hash word) = Ok components
    /\ length components = 16%nat
    /\ Forall (fun x => exists b : Z,
                 (0 <= b <= 255)%Z /\ x = (IZR b / 255 - 0.5)%R /\ x <> 0%R)
         components
    /\ raw_word_embedding word = Ok (resize components)
    /\ (0 < Np.norm (resize components))%R
    /\ Np.normalize (resize components)
       = Np.div (resize components) (Np.norm (resize components))
    /\ exists embedding cache',
         get_word_embedding word cache = (Ok embedding, cache')
         /\ Np.norm embedding = 1%R.
Proof.
  intros Hc.
  pose proof (HashlibFacts.md5_range (Str.encode word)) as Hrange.
  pose proof (HashlibFacts.md5_length (Str.encode word)) as Hlen.
  pose proof (HashComponents.raw_word_embedding_fit word) as Hraw.
  pose proof (raw_norm_pos word) as Hpos.
  unfold raw_word_embedding in Hraw |- *. unfold word_hash in *.
  rewrite HashComponents.hash_components_hexdigest in Hraw |- * by exact Hrange.
  rewrite firstn_all2 in Hraw |- * by (rewrite Hlen; unfold vocab_size; lia).
  injection Hraw as Hraw.
  eexists. split; [reflexivity |].
  split; [now rewrite length_map |].
  split.
  { apply Forall_map. eapply Forall_impl; [exact Hrange |].
    intros b Hb. unfold Digest.is_byte in Hb. exists b.
    split; [lia |]. split; [reflexivity | apply rescale_nonzero]. }
  split; [reflexivity |].
  rewrite Hraw.
  split; [exact Hpos |].
  split; [now apply NpFacts.normalize_pos |].
  destruct (get_word_embedding_spec word cache Hc) as (cache' & H & _).
  exists (Reference.word_vector word), cache'.
  split; [exact H | apply word_vector_norm].
Qed.

Lemma word_embedding_unit_norm_witness :
  cache_ok init
  /\ exists embedding cache',
       get_word_embedding "hello" init = (Ok embedding, cache')
       /\ Np.norm embedding = 1%R.
Proof.
  split; [exact cache_ok_init |].
  destruct (word_embedding_unit_norm "hello" init cache_ok_init)
    as (_ & _ & _ & _ & _ & _ & _ & H).
  exact H.
Defined.

(** * Further properties of the code *)

Import StrFacts TokenFacts MemoFacts FrequencyFacts CacheFacts.

(** ** The hash strategy *)

(** X1. Every token [tokenize] returns is a non-empty string of word
    characters, in lower case. *)
Theorem tokenize_shape (text : string) :
  Forall Tokens.token_ok (tokenize text).
Proof.
  unfold tokenize. rewrite findall_words_runs.
  apply runs_from_ok.
  - reflexivity.
  - reflexivity.
  - apply lower_idem.
Qed.

(** X2. [tokenize] drops the characters between the words and nothing
    else: its tokens, put end to end, are the word characters of the
    lower-cased text in their order. *)
Theorem tokenize_join (text : string) :
  Tokens.join (tokenize text) = Tokens.word_chars (Str.lower text).
Proof.
  unfold tokenize. rewrite findall_words_runs.
  rewrite runs_from_join. reflexivity.
Qed.

(** X3. [get_word_embedding] memoises: whatever the table holds, the call
    returns an array, files it under the word and alters no other entry,
    and the next call for the word returns the same array from the table,
    which it leaves as it is. *)
Theorem word_cache_round_trip (word : string) (cache : word_cache) :
  exists embedding cache',
    get_word_embedding word cache = (Ok embedding, cache')
    /\ get_word_embedding word cache' = (Ok embedding, cache')
    /\ dom cache' = {[word]} ∪ dom cache
    /\ forall w, w <> word -> cache' !! w = cache !! w.
Proof.
  destruct (get_word_embedding_memo word cache)
    as (embedding & cache' & Hcall & Hstored & _ & Hdom & Hframe).
  exists embedding, cache'. split; [exact Hcall|].
  split; [|split; assumption].
  unfold get_word_embedding. rewrite Hstored. reflexivity.
Qed.

(** X4. On a table whose arrays all have 384 components, the shape NumPy
    needs to add them, [embed_text] returns a vector of 384 components
    and leaves in the table the entries it found and one entry of that
    shape for each token of the text, no other. A second call for the
    text adds nothing. *)
Theorem embed_text_memoises (text : string) (cache : word_cache) :
  Arrays.shape_ok cache ->
  exists v cache',
    embed_text text cache = (Ok v, cache')
    /\ length v = vocab_size
    /\ Arrays.shape_ok cache'
    /\ cache ⊆ cache'
    /\ dom cache' = list_to_set (tokenize text) ∪ dom cache
    /\ (embed_text text cache').2 = cache'.
Proof.
  intros Hshape.
  destruct (embed_text_shape text cache Hshape)
    as (v & cache' & Hcall & Hlen & Hshape').
  destruct (embed_text_cache text cache) as (v0 & cache0 & Hcall0 & Hsub & Hdom).
  rewrite Hcall in Hcall0. injection Hcall0 as <- <-.
  exists v, cache'. repeat split; try assumption.
  destruct (embed_text_cache text cache') as (v' & cache'' & Hcall' & Hsub' & Hdom').
  rewrite Hcall'. simpl. symmetry.
  apply (subseteq_dom_eq cache' cache'' Hsub').
  rewrite Hdom', Hdom. intros x.
  rewrite !elem_of_union. tauto.
Qed.

Lemma embed_text_memoises_witness :
  let cache : word_cache := {[ "a" := repeat 1%R vocab_size ]} in
  exists v cache',
    embed_text "a b" cache = (Ok v, cache')
    /\ length v = vocab_size
    /\ Arrays.shape_ok cache'
    /\ cache ⊆ cache'
    /\ dom cache' = list_to_set (tokenize "a b") ∪ dom cache
    /\ (embed_text "a b" cache').2 = cache'.
Proof.
  apply (embed_text_memoises "a b" {[ "a" := repeat 1%R vocab_size ]}).
  intros word embedding H.
  apply lookup_singleton_Some in H as [_ <-].
  apply repeat_length.
Defined.

(** X5. The vector [embed_text] returns has 384 components, whatever the
    text. *)
Theorem embed_text_dimension (text : string) (cache : word_cache) :
  cache_ok cache ->
  exists v cache',
    embed_text text cache = (Ok v, cache') /\ length v = 384%nat.
Proof.
  intros Hok.
  destruct (embed_text_spec text cache Hok) as (cache' & Hcall & _).
  exists (Reference.text_vector text), cache'. split; [exact Hcall|].
  apply text_vector_length.
Qed.

Lemma embed_text_dimension_witness :
  cache_ok init
  /\ exists v cache',
       embed_text "Hello, world" init = (Ok v, cache') /\ length v = 384%nat.
Proof.
  split.
  - apply cache_ok_init.
  - apply (embed_text_dimension "Hello, world" init). apply cache_ok_init.
Defined.

(** X6. The vector [embed_text] returns has norm 1 or is the zero vector:
    the guard [norm > 0] leaves no other case. *)
Theorem embed_text_unit_or_zero (text : string) (cache : word_cache) :
  cache_ok cache ->
  exists v cache',
    embed_text text cache = (Ok v, cache')
    /\ (Np.norm v = 1%R \/ v = repeat 0%R vocab_size).
Proof.
  intros Hok.
  destruct (embed_text_spec text cache Hok) as (cache' & Hcall & _).
  exists (Reference.text_vector text), cache'. split; [exact Hcall|].
  apply text_vector_norm.
Qed.

Lemma embed_text_unit_or_zero_witness :
  cache_ok init
  /\ exists v cache',
       embed_text "Hello, world" init = (Ok v, cache')
       /\ (Np.norm v = 1%R \/ v = repeat 0%R vocab_size).
Proof.
  split.
  - apply cache_ok_init.
  - apply (embed_text_unit_or_zero "Hello, world" init). apply cache_ok_init.
Defined.

(** X7. [embed_text] weighs by term frequency, so the length of a text
    does not show: a text whose tokens are those of another text, said a
    number of times over, gets the same vector. The tokens first occur in
    the same order in both and the weights [count / total] are the same
    quotients, so this is so in binary64 too. *)
Theorem embed_text_repeated (text text' : string) (c : nat)
    (cache cache2 : word_cache) :
  cache_ok cache -> cache_ok cache2 ->
  (0 < c)%nat ->
  tokenize text' = concat (replicate c (tokenize text)) ->
  (embed_text text' cache2).1 = (embed_text text cache).1.
Proof.
  intros Hok Hok2 Hc Htokens.
  destruct (embed_text_spec text cache Hok) as (cache' & -> & _).
  destruct (embed_text_spec text' cache2 Hok2) as (cache2' & -> & _).
  simpl. f_equal.
  rewrite !tokenize_tokens in Htokens.
  apply text_vector_frequencies.
  - intros k. rewrite Htokens. apply elem_of_copies. exact Hc.
  - intros k. apply (tf_copies k c). exact Hc. rewrite Htokens. reflexivity.
Qed.

Lemma embed_text_repeated_witness :
  tokenize "a b, A B; a b" = concat (replicate 3 (tokenize "a b"))
  /\ (embed_text "a b, A B; a b" init).1 = (embed_text "a b" init).1.
Proof.
  split; [reflexivity|].
  apply (embed_text_repeated "a b" "a b, A B; a b" 3 init init).
  - apply cache_ok_init.
  - apply cache_ok_init.
  - lia.
  - reflexivity.
Defined.

(** X8. A text made of one word, however often it is repeated, gets the
    vector [get_word_embedding] gives the word, normalised once more: the
    weight is n / n = 1, so the sum is the word's vector. (The second
    normalisation changes nothing in exact arithmetic.) *)
Theorem embed_text_one_word (text word : string) (n : nat)
    (cache cache2 : word_cache) :
  cache_ok cache -> cache_ok cache2 ->
  tokenize text = replicate (S n) word ->
  exists word_emb,
    (get_word_embedding word cache2).1 = Ok word_emb
    /\ (embed_text text cache).1 = Ok (Np.normalize word_emb).
Proof.
  intros Hok Hok2 Htok.
  destruct (embed_text_spec text cache Hok) as (cache' & -> & _).
  destruct (get_word_embedding_spec word cache2 Hok2) as (cache2' & -> & _).
  exists (Reference.word_vector word). split; [reflexivity|].
  simpl. f_equal.
  rewrite (normalize_unit _ (word_vector_norm word)).
  apply text_vector_one_token.
  rewrite <- tokenize_tokens, Htok.
  clear. induction n as [|n IH].
  - reflexivity.
  - change (replicate (S (S n)) word) with (word :: replicate (S n) word).
    cbn [remove_dups].
    destruct (decide_rel elem_of word (replicate (S n) word)) as [_ | Hn].
    + exact IH.
    + exfalso. apply Hn. left.
Qed.

Lemma embed_text_one_word_witness :
  tokenize "Yes! yes, YES." = replicate 3 "yes"
  /\ exists word_emb,
       (get_word_embedding "yes" init).1 = Ok word_emb
       /\ (embed_text "Yes! yes, YES." init).1 = Ok (Np.normalize word_emb).
Proof.
  split; [reflexivity|].
  apply (embed_text_one_word "Yes! yes, YES." "yes" 2 init init).
  - apply cache_ok_init.
  - apply cache_ok_init.
  - reflexivity.
Defined.

(** X9. [embed_chunks] of fast_embedder.py on its own output returns that
    output: the ['embedding'] it finds is replaced by the vector of the
    same ['content']. *)
Theorem embed_chunks_idempotent (chunks : list chunk)
    (cache cache2 : word_cache) :
  cache_ok cache -> cache_ok cache2 ->
  Forall content_ok chunks ->
  exists out,
    (FastEmbedder.embed_chunks chunks cache).1 = Ok out
    /\ (FastEmbedder.embed_chunks out cache2).1 = Ok out.
Proof.
  intros Hok Hok2 Hchunks.
  destruct (embed_chunks_spec chunks cache Hok Hchunks) as (cache' & -> & _).
  exists (map with_text_vector chunks). split; [reflexivity|].
  assert (Hout : Forall content_ok (map with_text_vector chunks)).
  { apply Forall_map. eapply Forall_impl; [exact Hchunks|].
    intros c. apply with_text_vector_ok. }
  destruct (embed_chunks_spec _ cache2 Hok2 Hout) as (cache2' & -> & _).
  simpl. f_equal. rewrite map_map. apply map_ext.
  intros c. apply with_text_vector_idem.
Qed.

Lemma embed_chunks_idempotent_witness :
  exists out,
    (FastEmbedder.embed_chunks [chunk_x; chunk_bare] init).1 = Ok out
    /\ (FastEmbedder.embed_chunks out init).1 = Ok out.
Proof.
  apply (embed_chunks_idempotent [chunk_x; chunk_bare] init init).
  - apply cache_ok_init.
  - apply cache_ok_init.
  - repeat constructor.
Defined.

(** X10. [embed_chunks] of fast_embedder.py is all or nothing: one chunk
    whose ['content'] is not a string makes the whole call raise
    AttributeError, the records built before it are lost. *)
Theorem embed_chunks_attribute_error (chunks : list chunk)
    (cache : word_cache) :
  cache_ok cache ->
  Exists (fun c => ~ content_ok c) chunks ->
  (FastEmbedder.embed_chunks chunks cache).1 = Raise AttributeError.
Proof.
  intros Hok Hbad.
  destruct (embed_chunks_loop_bad chunks [] cache Hok Hbad)
    as (cache' & Hloop & _).
  exact (f_equal fst Hloop).
Qed.

Lemma embed_chunks_attribute_error_witness :
  (FastEmbedder.embed_chunks
     [chunk_x; <["content" := VInt 7]> chunk_bare] init).1
  = Raise AttributeError.
Proof.
  apply (embed_chunks_attribute_error
           [chunk_x; <["content" := VInt 7]> chunk_bare] init).
  - apply cache_ok_init.
  - apply Exists_cons_tl. apply Exists_cons_hd.
    unfold content_ok. vm_compute. exact (fun H => H).
Defined.

(** ** The cache of the model strategy *)

(** X11. A cache that cannot be written costs the vector nothing:
    [embed_with_cache] prints a warning and returns what the model gave.
    The files stay as they were, so the next call for the text asks the
    model again. *)
Theorem embed_with_cache_write_failure (self : ContextRagEmbedder.t)
    (text : string) (cache_key : option string) (embedding : list R)
    (rest : list (list R)) (w : ContextRagEmbedder.world) :
  ContextRagEmbedder.check_cache self
    (ContextRagEmbedder.cache_file self (key_of text cache_key)) w
    = (Ok None, w) ->
  ContextRagEmbedder.model self [VStr text] = Some (embedding :: rest) ->
  ContextRagEmbedder.read_only w = true ->
  let w1 := logged "Warning: Failed to cache embedding"
              (submitted [VStr text] w) in
  ContextRagEmbedder.embed_with_cache self text cache_key w
    = (Ok (vec_value embedding), w1)
  /\ ContextRagEmbedder.files w1 = ContextRagEmbedder.files w
  /\ ContextRagEmbedder.embed_with_cache self text cache_key w1
     = (Ok (vec_value embedding),
        logged "Warning: Failed to cache embedding"
          (submitted [VStr text] w1)).
Proof.
  intros Hmiss Hmodel Hro w1. split; [|split].
  - apply (embed_with_cache_unwritable self text cache_key embedding rest);
      assumption.
  - reflexivity.
  - apply (embed_with_cache_unwritable self text cache_key embedding rest).
    + apply (check_cache_files self _ _ w w1); [reflexivity | exact Hmiss].
    + exact Hmodel.
    + exact Hro.
Qed.

Lemma embed_with_cache_write_failure_witness :
  let w := ContextRagEmbedder.World ∅ true [] [] in
  let w1 := logged "Warning: Failed to cache embedding"
              (submitted [VStr "hello"] w) in
  ContextRagEmbedder.embed_with_cache minilm "hello" None w
    = (Ok (vec_value [1; 0]%R), w1)
  /\ ContextRagEmbedder.files w1 = ∅
  /\ ContextRagEmbedder.embed_with_cache minilm "hello" None w1
     = (Ok (vec_value [1; 0]%R),
        logged "Warning: Failed to cache embedding"
          (submitted [VStr "hello"] w1)).
Proof.
  apply (embed_with_cache_write_failure minilm "hello" None [1; 0]%R []
           (ContextRagEmbedder.World ∅ true [] [])).
  - reflexivity.
  - reflexivity.
  - reflexivity.
Defined.

(** X12. A cache file that cannot be used is no error: one that does not
    parse, is not a JSON object, was written for another model or has no
    ['embedding'] counts as a miss, and the entry of the fresh vector
    replaces it. *)
Theorem embed_with_cache_replaces (self : ContextRagEmbedder.t)
    (text : string) (cache_key : option string)
    (f : ContextRagEmbedder.file) (embedding : list R)
    (rest : list (list R)) (w : ContextRagEmbedder.world) :
  ContextRagEmbedder.files w
    !! ContextRagEmbedder.cache_file self (key_of text cache_key) = Some f ->
  Entries.unusable self f ->
  ContextRagEmbedder.model self [VStr text] = Some (embedding :: rest) ->
  ContextRagEmbedder.read_only w = false ->
  exists w',
    ContextRagEmbedder.embed_with_cache self text cache_key w
      = (Ok (vec_value embedding), w')
    /\ ContextRagEmbedder.encoded w'
       = ContextRagEmbedder.encoded w ++ [[VStr text]]
    /\ ContextRagEmbedder.files w'
         !! ContextRagEmbedder.cache_file self (key_of text cache_key)
       = Some (entry (ContextRagEmbedder.model_name self)
                 (key_of text cache_key) embedding).
Proof.
  intros Hfile Hbad Hmodel Hrw.
  eexists. split; [|split].
  - apply (embed_with_cache_miss self text cache_key embedding rest);
      try assumption.
    apply (check_cache_unusable self _ f); assumption.
  - reflexivity.
  - simpl. apply lookup_insert_eq.
Qed.

Lemma embed_with_cache_replaces_witness :
  let path := ContextRagEmbedder.cache_file minilm "k" in
  let w := ContextRagEmbedder.World
             (<[path := ContextRagEmbedder.Unparsable]> ∅) false [] [] in
  exists w',
    ContextRagEmbedder.embed_with_cache minilm "hello" (Some "k") w
      = (Ok (vec_value [1; 0]%R), w')
    /\ ContextRagEmbedder.encoded w' = [[VStr "hello"]]
    /\ ContextRagEmbedder.files w' !! path
       = Some (entry "all-MiniLM-L6-v2" "k" [1; 0]%R).
Proof.
  apply (embed_with_cache_replaces minilm "hello" (Some "k")
           ContextRagEmbedder.Unparsable [1; 0]%R []
           (ContextRagEmbedder.World
              (<[ContextRagEmbedder.cache_file minilm "k"
                 := ContextRagEmbedder.Unparsable]> ∅) false [] [])).
  - reflexivity.
  - exact I.
  - reflexivity.
  - reflexivity.
Defined.

(** X13. A hit is returned as it is found: when the file of the key holds
    an object of the embedder's model name, [embed_with_cache] returns its
    ['embedding'], whatever JSON value that is and whatever text was
    asked for, asks no model and writes nothing. *)
Theorem embed_with_cache_trusts_entry (self : ContextRagEmbedder.t)
    (text : string) (cache_key : option string) (d : gmap string value)
    (cached : value) (w : ContextRagEmbedder.world) :
  ContextRagEmbedder.files w
    !! ContextRagEmbedder.cache_file self (key_of text cache_key)
    = Some (ContextRagEmbedder.JsonObject d) ->
  d !! "model" = Some (VStr (ContextRagEmbedder.model_name self)) ->
  d !! "embedding" = Some cached ->
  ContextRagEmbedder.embed_with_cache self text cache_key w = (Ok cached, w).
Proof.
  intros Hfile Hmodel Hcached.
  apply embed_with_cache_hit.
  apply (check_cache_usable self _ d); assumption.
Qed.

Lemma embed_with_cache_trusts_entry_witness :
  let d : gmap string value :=
    <["embedding" := VStr "none"]> (<["model" := VStr "all-MiniLM-L6-v2"]> ∅) in
  let w := ContextRagEmbedder.World
             (<[ContextRagEmbedder.cache_file failing "k"
                := ContextRagEmbedder.JsonObject d]> ∅) false [] [] in
  ContextRagEmbedder.embed_with_cache failing "hello" (Some "k") w
  = (Ok (VStr "none"), w).
Proof.
  apply (embed_with_cache_trusts_entry failing "hello" (Some "k")
           (<["embedding" := VStr "none"]>
              (<["model" := VStr "all-MiniLM-L6-v2"]> ∅))).
  - reflexivity.
  - reflexivity.
  - reflexivity.
Defined.

(** X14. What [embed_with_cache] can touch: no file but the one of its
    key, at most one batch for the model, holding the text alone, and
    lines added to stderr; whether the files can be written is not for it
    to change. This holds for every outcome of the call. *)
Theorem embed_with_cache_frame (self : ContextRagEmbedder.t)
    (text : string) (cache_key : option string)
    (w : ContextRagEmbedder.world) :
  Entries.framed
    (ContextRagEmbedder.cache_file self (key_of text cache_key))
    [VStr text] w
    (ContextRagEmbedder.embed_with_cache self text cache_key w).2.
Proof.
  apply embed_with_cache_framed.
Qed.

(** X15. [embed_chunks] of embedder.py goes past the cache: it leaves
    every file as it is, and what it returns, prints and sends to the
    model is the same whatever the files hold. *)
Theorem embed_chunks_ignores_cache (self : ContextRagEmbedder.t)
    (chunks : list chunk) (w : ContextRagEmbedder.world)
    (fs : gmap string ContextRagEmbedder.file) :
  let out := ContextRagEmbedder.embed_chunks self chunks w in
  ContextRagEmbedder.files out.2 = ContextRagEmbedder.files w
  /\ ContextRagEmbedder.embed_chunks self chunks
       (ContextRagEmbedder.World fs (ContextRagEmbedder.read_only w)
          (ContextRagEmbedder.stderr w) (ContextRagEmbedder.encoded w))
     = (out.1,
        ContextRagEmbedder.World fs (ContextRagEmbedder.read_only w)
          (ContextRagEmbedder.stderr out.2) (ContextRagEmbedder.encoded out.2)).
Proof.
  intros out.
  destruct (embed_chunks_files self chunks w fs) as (Hfiles & _ & Hsame).
  split.
  - exact Hfiles.
  - exact Hsame.
Qed.

(** ** [main] of fast_embedder.py *)

Import InputFacts.

(** X16. A batch on standard input that is a list of chunks, each a dict
    whose ['content'] is a string or missing, makes [main] print one
    document, with the embedded chunks in order and their number, and end
    with status 0 and nothing on stderr. *)
Theorem fast_main_batch (items : list value) :
  Forall Py.hashable items ->
  FastMain.main None (Some (VList items))
  = FastMain.Run
      [Py.BatchResult "fast-embedder"
         (map with_text_vector (Py.dict_prefix items)) (length items)]
      [] 0.
Proof.
  intros Hitems. rewrite FastMainFacts.main_list.
  destruct (FastMainFacts.embed_chunks_hashable items Hitems) as [cache' ->].
  rewrite length_map.
  apply dict_prefix_hashable in Hitems as [_ ->]. reflexivity.
Qed.

Lemma fast_main_batch_witness :
  FastMain.main None
    (Some (VList [VDict [("content", VStr "x")]; VDict [("id", VInt 3)]]))
  = FastMain.Run
      [Py.BatchResult "fast-embedder"
         (map with_text_vector
            (Py.dict_prefix
               [VDict [("content", VStr "x")]; VDict [("id", VInt 3)]]))
         2]
      [] 0.
Proof.
  apply (fast_main_batch
           [VDict [("content", VStr "x")]; VDict [("id", VInt 3)]]).
  repeat constructor.
Defined.

(** X17. One bad item spoils the batch: when the list on standard input
    holds an item that is not a dict, or a dict whose ['content'] is not a
    string, [main] prints nothing on standard output, one line on stderr,
    and ends with status 1. *)
Theorem fast_main_rejects (items : list value) :
  Exists (fun v => ~ Py.hashable v) items ->
  FastMain.main None (Some (VList items)) = FastMain.Run [] ["Error"] 1.
Proof.
  intros Hbad. rewrite FastMainFacts.main_list.
  destruct (FastMainFacts.embed_chunks_unhashable items Hbad)
    as (e & cache' & ->).
  reflexivity.
Qed.

Lemma fast_main_rejects_witness :
  FastMain.main None
    (Some (VList [VDict [("content", VStr "x")]; VStr "y"]))
  = FastMain.Run [] ["Error"] 1.
Proof.
  apply (fast_main_rejects [VDict [("content", VStr "x")]; VStr "y"]).
  apply Exists_cons_tl. apply Exists_cons_hd. exact (fun H => H).
Defined.

(** X18. The two shapes of the input print the same: an object whose
    ['chunks'] is a list gives the standard output and the exit status
    the list alone gives, whatever the list holds and whatever else the
    object holds. (The text of the error on stderr can differ, when the
    list holds the string 'chunks'.) *)
Theorem fast_main_wrapped (d : list (string * value)) (items : list value) :
  Py.dict_of d !! "chunks" = Some (VList items) ->
  FastMain.stdout (FastMain.main None (Some (VDict d)))
  = FastMain.stdout (FastMain.main None (Some (VList items)))
  /\ FastMain.status (FastMain.main None (Some (VDict d)))
     = FastMain.status (FastMain.main None (Some (VList items))).
Proof.
  intros Hd.
  rewrite (FastMainFacts.main_wrapped d (VList items) Hd).
  rewrite FastMainFacts.main_list.
  split.
  - reflexivity.
  - reflexivity.
Qed.

Lemma fast_main_wrapped_witness :
  FastMain.stdout
    (FastMain.main None
       (Some (VDict [("source", VStr "docs");
                     ("chunks", VList [VDict [("content", VStr "x")]])])))
  = FastMain.stdout
      (FastMain.main None (Some (VList [VDict [("content", VStr "x")]])))
  /\ FastMain.status
       (FastMain.main None
          (Some (VDict [("source", VStr "docs");
                        ("chunks", VList [VDict [("content", VStr "x")]])])))
     = FastMain.status
         (FastMain.main None (Some (VList [VDict [("content", VStr "x")]]))).
Proof.
  apply (fast_main_wrapped
           [("source", VStr "docs");
            ("chunks", VList [VDict [("content", VStr "x")]])]
           [VDict [("content", VStr "x")]]).
  reflexivity.
Defined.

(** X19. With a text on the command line [main] prints the text with its
    vector and does not look at standard input; an empty [--text] counts
    as none, and the batch is read. *)
Theorem fast_main_text (c : ascii) (s : string) (stdin : option value) :
  FastMain.main (Some (String c s)) stdin
  = FastMain.Run
      [Py.TextResult (String c s)
         (vec_value (Reference.text_vector (String c s))) "fast-embedder"]
      [] 0
  /\ FastMain.main (Some EmptyString) stdin = FastMain.main None stdin.
Proof.
  split; [|reflexivity].
  unfold FastMain.main. cbn [Py.given].
  destruct (embed_text_spec (String c s) init cache_ok_init)
    as (cache' & -> & _).
  reflexivity.
Qed.

(** ** [__init__] and [main] of embedder.py *)

Import ContextRagMainFacts.

(** X20. A model that does not load ends the run in [__init__] with
    status 1 and nothing on standard output, whatever the arguments and
    the input: no file is read or written and no text is embedded. When
    the cache directory could be made, stderr gets the two lines of the
    [try]; when it could not, the [mkdir] before the [try] raises and
    stderr gets a traceback. *)
Theorem main_model_not_loaded (made : bool) (load : ContextRagMain.loader)
    (a : ContextRagMain.args) (stdin : option value)
    (w : ContextRagEmbedder.world) :
  load (ContextRagMain.arg_model a) = None ->
  exists w',
    ContextRagMain.main_from_mkdir made load a stdin w
    = (ContextRagMain.Run [] 1, w')
    /\ ContextRagEmbedder.files w' = ContextRagEmbedder.files w
    /\ ContextRagEmbedder.encoded w' = ContextRagEmbedder.encoded w
    /\ ContextRagEmbedder.stderr w'
       = ContextRagEmbedder.stderr w
         ++ (if made
             then ["Loading model: " +:+ ContextRagMain.arg_model a;
                   "Error loading model " +:+ ContextRagMain.arg_model a]
             else [Py.traceback]).
Proof.
  intros Hload. unfold ContextRagMain.main_from_mkdir.
  destruct made.
  - eexists. split.
    + apply main_not_loaded. exact Hload.
    + simpl. rewrite <- List.app_assoc. auto.
  - eexists. split.
    + reflexivity.
    + simpl. auto.
Qed.

Lemma main_model_not_loaded_witness :
  (exists w',
     ContextRagMain.main_from_mkdir true (fun _ => None)
       (ContextRagMain.Args "no-such-model" cache_directory None None
          (Some "hello"))
       None empty_world
     = (ContextRagMain.Run [] 1, w')
     /\ ContextRagEmbedder.files w' = ∅
     /\ ContextRagEmbedder.encoded w' = []
     /\ ContextRagEmbedder.stderr w'
        = ["Loading model: no-such-model";
           "Error loading model no-such-model"])
  /\ (exists w',
        ContextRagMain.main_from_mkdir false (fun _ => None)
          (ContextRagMain.Args "no-such-model" "README.md" None None
             (Some "hello"))
          None empty_world
        = (ContextRagMain.Run [] 1, w')
        /\ ContextRagEmbedder.files w' = ∅
        /\ ContextRagEmbedder.encoded w' = []
        /\ ContextRagEmbedder.stderr w' = [Py.traceback]).
Proof.
  split.
  - apply (main_model_not_loaded true (fun _ => None)
             (ContextRagMain.Args "no-such-model" cache_directory None None
                (Some "hello"))
             None empty_world).
    reflexivity.
  - apply (main_model_not_loaded false (fun _ => None)
             (ContextRagMain.Args "no-such-model" "README.md" None None
                (Some "hello"))
             None empty_world).
    reflexivity.
Defined.

(** X21. On standard input the two shapes of the batch print the same: an
    object whose ['chunks'] is a list gives the standard output and the
    exit status the list alone gives, leaves the same files and has sent
    the same batches to the model. (The text of the error on stderr can
    differ, when the list holds the string 'chunks'.) *)
Theorem main_wrapped_batch (load : ContextRagMain.loader)
    (a : ContextRagMain.args) (d : list (string * value))
    (items : list value) (w : ContextRagEmbedder.world) :
  Py.given (ContextRagMain.arg_text a) = None ->
  Py.given (ContextRagMain.arg_input a) = None ->
  Py.dict_of d !! "chunks" = Some (VList items) ->
  let wrapped := ContextRagMain.main load a (Some (VDict d)) w in
  let bare := ContextRagMain.main load a (Some (VList items)) w in
  wrapped.1 = bare.1
  /\ ContextRagEmbedder.files wrapped.2 = ContextRagEmbedder.files bare.2
  /\ ContextRagEmbedder.encoded wrapped.2 = ContextRagEmbedder.encoded bare.2.
Proof.
  intros Htext Hinput Hd wrapped bare. subst wrapped bare.
  destruct (load (ContextRagMain.arg_model a)) as [m|] eqn:Hload.
  - rewrite (main_stdin_wrapped load a m Htext Hinput Hload d _ w Hd).
    rewrite (main_stdin_list load a m Htext Hinput Hload items w).
    auto.
  - rewrite !(main_not_loaded load a _ w Hload). auto.
Qed.

Lemma main_wrapped_batch_witness :
  let a := ContextRagMain.Args "all-MiniLM-L6-v2" cache_directory None None
             None in
  let load : ContextRagMain.loader :=
    fun _ => Some (ContextRagEmbedder.model minilm) in
  let wrapped :=
    ContextRagMain.main load a
      (Some (VDict [("chunks", VList [VDict [("content", VStr "x")]])]))
      empty_world in
  let bare :=
    ContextRagMain.main load a
      (Some (VList [VDict [("content", VStr "x")]])) empty_world in
  wrapped.1 = bare.1
  /\ ContextRagEmbedder.files wrapped.2 = ContextRagEmbedder.files bare.2
  /\ ContextRagEmbedder.encoded wrapped.2 = ContextRagEmbedder.encoded bare.2.
Proof.
  apply (main_wrapped_batch
           (fun _ => Some (ContextRagEmbedder.model minilm))
           (ContextRagMain.Args "all-MiniLM-L6-v2" cache_directory None None
              None)
           [("chunks", VList [VDict [("content", VStr "x")]])]
           [VDict [("content", VStr "x")]] empty_world).
  - reflexivity.
  - reflexivity.
  - reflexivity.
Defined.

(** X22. A batch whose inference fails is reported as a success: with
    every chunk well formed and a model that raises on the batch, [main]
    prints a document of no chunks, [total_chunks] 0, and ends with
    status 0; the failure shows on stderr alone. *)
Theorem main_batch_failure_status (load : ContextRagMain.loader)
    (a : ContextRagMain.args) (m : list value -> option (list (list R)))
    (items : list value) (w : ContextRagEmbedder.world) :
  Py.given (ContextRagMain.arg_text a) = None ->
  Py.given (ContextRagMain.arg_input a) = None ->
  load (ContextRagMain.arg_model a) = Some m ->
  (forall texts, m texts = None) ->
  Forall Py.has_content items ->
  exists w',
    ContextRagMain.main load a (Some (VList items)) w
    = (ContextRagMain.Run
         [Py.BatchResult (ContextRagMain.arg_model a) [] 0] 0, w')
    /\ (items <> [] ->
        exists lines,
          ContextRagEmbedder.stderr w'
          = lines ++ ["Error generating embeddings"]).
Proof.
  intros Htext Hinput Hload Hfails Hitems.
  rewrite (main_stdin_list load a m Htext Hinput Hload items w).
  unfold ContextRagMain.stdin_batch.
  set (self := ContextRagEmbedder.Embedder _ _ m).
  set (w0 := ContextRagMain.loaded _ w).
  destruct (embed_chunks_has_content self items w0 Hitems)
    as (texts & es & w' & Htexts & Hgen & Hes & ->).
  assert (es = []) as ->.
  { destruct Hes as [-> | Hes]; [reflexivity|].
    simpl in Hes. rewrite Hfails in Hes. discriminate. }
  rewrite zip_with_nil_r. exists w'. split; [reflexivity|].
  intros Hne. assert (texts <> []) as Hne'.
  { intros ->. apply Hne.
    apply dict_prefix_has_content in Hitems as [_ Hlen].
    apply comprehension_length in Htexts.
    rewrite Hlen in Htexts. symmetry in Htexts.
    apply length_zero_iff_nil in Htexts. exact Htexts. }
  rewrite (generate_embeddings_failure self texts w0 Hne' (Hfails texts))
    in Hgen.
  injection Hgen as <-. simpl. eexists. reflexivity.
Qed.

Lemma main_batch_failure_status_witness :
  exists w',
    ContextRagMain.main (fun _ => Some (fun _ => None))
      (ContextRagMain.Args "all-MiniLM-L6-v2" cache_directory None None None)
      (Some (VList [VDict [("content", VStr "x")]])) empty_world
    = (ContextRagMain.Run [Py.BatchResult "all-MiniLM-L6-v2" [] 0] 0, w')
    /\ ([VDict [("content", VStr "x")]] <> [] ->
        exists lines,
          ContextRagEmbedder.stderr w'
          = lines ++ ["Error generating embeddings"]).
Proof.
  apply (main_batch_failure_status (fun _ => Some (fun _ => None))
           (ContextRagMain.Args "all-MiniLM-L6-v2" cache_directory None None
              None)
           (fun _ => None) [VDict [("content", VStr "x")]] empty_world).
  - reflexivity.
  - reflexivity.
  - reflexivity.
  - reflexivity.
  - repeat constructor. simpl. vm_compute. eauto.
Defined.

(** X23. A chunk without ['content'], or an item that is not a dict, is
    caught before any inference: [main] prints nothing on standard
    output, names the failure on stderr and ends with status 1, and the
    model has not been asked. *)
Theorem main_batch_rejected (load : ContextRagMain.loader)
    (a : ContextRagMain.args) (m : list value -> option (list (list R)))
    (items : list value) (w : ContextRagEmbedder.world) :
  Py.given (ContextRagMain.arg_text a) = None ->
  Py.given (ContextRagMain.arg_input a) = None ->
  load (ContextRagMain.arg_model a) = Some m ->
  Exists (fun v => ~ Py.has_content v) items ->
  ContextRagMain.main load a (Some (VList items)) w
  = (ContextRagMain.Run [] 1,
     logged "Error reading from stdin"
       (ContextRagMain.loaded (ContextRagMain.arg_model a) w)).
Proof.
  intros Htext Hinput Hload Hbad.
  rewrite (main_stdin_list load a m Htext Hinput Hload items w).
  unfold ContextRagMain.stdin_batch.
  destruct (embed_chunks_no_content
              (ContextRagEmbedder.Embedder (ContextRagMain.arg_model a)
                 (ContextRagMain.arg_cache_dir a) m)
              items (ContextRagMain.loaded (ContextRagMain.arg_model a) w)
              Hbad) as [e ->].
  reflexivity.
Qed.

Lemma main_batch_rejected_witness :
  ContextRagMain.main (fun _ => Some (ContextRagEmbedder.model minilm))
    (ContextRagMain.Args "all-MiniLM-L6-v2" cache_directory None None None)
    (Some (VList [VDict [("content", VStr "x")]; VDict [("id", VInt 3)]]))
    empty_world
  = (ContextRagMain.Run [] 1,
     logged "Error reading from stdin"
       (ContextRagMain.loaded "all-MiniLM-L6-v2" empty_world)).
Proof.
  apply (main_batch_rejected
           (fun _ => Some (ContextRagEmbedder.model minilm))
           (ContextRagMain.Args "all-MiniLM-L6-v2" cache_directory None None
              None)
           (ContextRagEmbedder.model minilm)
           [VDict [("content", VStr "x")]; VDict [("id", VInt 3)]]
           empty_world).
  - reflexivity.
  - reflexivity.
  - reflexivity.
  - apply Exists_cons_tl. apply Exists_cons_hd.
    simpl. vm_compute. intros [x Hx]. discriminate Hx.
Defined.

(** X24. [--text] has no handler: when the text is not in the cache and
    the model raises on it, the IndexError of [embed_with_cache] leaves
    [main], which prints no document and ends with a traceback and
    status 1. *)
Theorem main_text_failure (load : ContextRagMain.loader)
    (a : ContextRagMain.args) (m : list value -> option (list (list R)))
    (text : string) (stdin : option value) (w : ContextRagEmbedder.world) :
  Py.given (ContextRagMain.arg_text a) = Some text ->
  load (ContextRagMain.arg_model a) = Some m ->
  m [VStr text] = None ->
  ContextRagEmbedder.files w
    !! ContextRagEmbedder.cache_file
         (ContextRagEmbedder.Embedder (ContextRagMain.arg_model a)
            (ContextRagMain.arg_cache_dir a) m)
         (key_of text None)
    = None ->
  ContextRagMain.main load a stdin w
  = (ContextRagMain.Run [] 1,
     logged Py.traceback
       (logged "Error generating embeddings"
          (submitted [VStr text]
             (ContextRagMain.loaded (ContextRagMain.arg_model a) w)))).
Proof.
  intros Htext Hload Hfails Hmiss.
  unfold ContextRagMain.main.
  rewrite (init_loaded load _ _ m w Hload), Htext.
  rewrite (embed_with_cache_failure _ text None
             (ContextRagMain.loaded (ContextRagMain.arg_model a) w)).
  - reflexivity.
  - apply check_cache_absent. exact Hmiss.
  - exact Hfails.
Qed.

Lemma main_text_failure_witness :
  ContextRagMain.main (fun _ => Some (fun _ => None))
    (ContextRagMain.Args "all-MiniLM-L6-v2" cache_directory None None
       (Some "hello"))
    None empty_world
  = (ContextRagMain.Run [] 1,
     logged Py.traceback
       (logged "Error generating embeddings"
          (submitted [VStr "hello"]
             (ContextRagMain.loaded "all-MiniLM-L6-v2" empty_world)))).
Proof.
  apply (main_text_failure (fun _ => Some (fun _ => None))
           (ContextRagMain.Args "all-MiniLM-L6-v2" cache_directory None None
              (Some "hello"))
           (fun _ => None) "hello" None empty_world).
  - reflexivity.
  - reflexivity.
  - reflexivity.
  - reflexivity.
Defined.

(** X25. The cache outlives the run: after [--text] has embedded a text
    and filed the vector, a later run for the same text, model name and
    cache directory prints the same document without asking its model,
    even one that would raise. *)
Theorem main_text_cached (load load' : ContextRagMain.loader)
    (a : ContextRagMain.args) (m m' : list value -> option (list (list R)))
    (text : string) (embedding : list R) (rest : list (list R))
    (stdin stdin' : option value) (w : ContextRagEmbedder.world) :
  Py.given (ContextRagMain.arg_text a) = Some text ->
  load (ContextRagMain.arg_model a) = Some m ->
  load' (ContextRagMain.arg_model a) = Some m' ->
  m [VStr text] = Some (embedding :: rest) ->
  ContextRagEmbedder.read_only w = false ->
  ContextRagEmbedder.files w
    !! ContextRagEmbedder.cache_file
         (ContextRagEmbedder.Embedder (ContextRagMain.arg_model a)
            (ContextRagMain.arg_cache_dir a) m)
         (key_of text None)
    = None ->
  let printed :=
    ContextRagMain.Run
      [Py.TextResult text (vec_value embedding) (ContextRagMain.arg_model a)]
      0 in
  exists w1 w2,
    ContextRagMain.main load a stdin w = (printed, w1)
    /\ ContextRagMain.main load' a stdin' w1 = (printed, w2)
    /\ ContextRagEmbedder.encoded w2 = ContextRagEmbedder.encoded w ++ [[VStr text]]
    /\ ContextRagEmbedder.files w2 = ContextRagEmbedder.files w1.
Proof.
  intros Htext Hload Hload' Hmodel Hrw Hmiss printed.
  set (name := ContextRagMain.arg_model a) in *.
  set (dir := ContextRagMain.arg_cache_dir a) in *.
  set (self := ContextRagEmbedder.Embedder name dir m) in *.
  set (self' := ContextRagEmbedder.Embedder name dir m').
  set (path := ContextRagEmbedder.cache_file self (key_of text None)) in *.
  set (w1 := stored path (entry name (key_of text None) embedding)
               (submitted [VStr text] (ContextRagMain.loaded name w))).
  exists w1, (ContextRagMain.loaded name w1).
  split; [|split; [|split; reflexivity]].
  - unfold ContextRagMain.main. fold name dir.
    rewrite (init_loaded load _ _ m w Hload), Htext. fold self.
    rewrite (embed_with_cache_miss self text None embedding rest
               (ContextRagMain.loaded name w)).
    + reflexivity.
    + apply check_cache_absent. exact Hmiss.
    + exact Hmodel.
    + exact Hrw.
  - unfold ContextRagMain.main. fold name dir.
    rewrite (init_loaded load' _ _ m' w1 Hload'), Htext. fold self'.
    rewrite (embed_with_cache_hit self' text None (vec_value embedding)
               (ContextRagMain.loaded name w1)).
    + reflexivity.
    + change (ContextRagEmbedder.cache_file self' (key_of text None))
        with path.
      rewrite (check_cache_entry self' path (key_of text None) embedding name
                 (ContextRagMain.loaded name w1)).
      * simpl. rewrite String.eqb_refl. reflexivity.
      * simpl. apply lookup_insert_eq.
Qed.

Lemma main_text_cached_witness :
  let a := ContextRagMain.Args "all-MiniLM-L6-v2" cache_directory None None
             (Some "hello") in
  let printed :=
    ContextRagMain.Run
      [Py.TextResult "hello" (vec_value [1; 0]%R) "all-MiniLM-L6-v2"] 0 in
  exists w1 w2,
    ContextRagMain.main (fun _ => Some (ContextRagEmbedder.model minilm)) a
      None empty_world = (printed, w1)
    /\ ContextRagMain.main (fun _ => Some (fun _ => None)) a None w1
       = (printed, w2)
    /\ ContextRagEmbedder.encoded w2 = [[VStr "hello"]]
    /\ ContextRagEmbedder.files w2 = ContextRagEmbedder.files w1.
Proof.
  apply (main_text_cached
           (fun _ => Some (ContextRagEmbedder.model minilm))
           (fun _ => Some (fun _ => None))
           (ContextRagMain.Args "all-MiniLM-L6-v2" cache_directory None None
              (Some "hello"))
           (ContextRagEmbedder.model minilm) (fun _ => None)
           "hello" [1; 0]%R [] None None empty_world).
  - reflexivity.
  - reflexivity.
  - reflexivity.
  - reflexivity.
  - reflexivity.
  - reflexivity.
Defined.

(** X26. [--input] with [--output] writes the document to the file and
    prints none: with well-formed chunks and files that can be written,
    [main] ends with status 0 and an empty standard output, every file
    but the output stays as it was, and the output is a file [--input]
    accepts, its ['chunks'] being the embedded records. *)
Theorem main_output_file (load : ContextRagMain.loader)
    (a : ContextRagMain.args) (m : list value -> option (list (list R)))
    (path out : string) (input_data : value) (items : list value)
    (stdin : option value) (w : ContextRagEmbedder.world) :
  Py.given (ContextRagMain.arg_text a) = None ->
  Py.given (ContextRagMain.arg_input a) = Some path ->
  Py.given (ContextRagMain.arg_output a) = Some out ->
  load (ContextRagMain.arg_model a) = Some m ->
  ContextRagMain.load_json path w = Py.Done input_data ->
  Py.select_chunks_of_dict input_data = VList items ->
  Forall Py.has_content items ->
  ContextRagEmbedder.read_only w = false ->
  exists embedded_chunks w' written,
    ContextRagMain.main load a stdin w = (ContextRagMain.Run [] 0, w')
    /\ (exists embeddings,
          embedded_chunks
          = zip_with with_embedding (Py.dict_prefix items) embeddings
          /\ (embeddings = [] \/ exists texts, m texts = Some embeddings))
    /\ ContextRagEmbedder.files w'
       = <[out := ContextRagMain.result_file (ContextRagMain.arg_model a)
                    embedded_chunks]> (ContextRagEmbedder.files w)
    /\ ContextRagMain.load_json out w' = Py.Done written
    /\ Py.select_chunks_of_dict written
       = VList (map Py.chunk_value embedded_chunks)
    /\ Py.dict_prefix (map Py.chunk_value embedded_chunks) = embedded_chunks.
Proof.
  intros Htext Hinput Houtput Hload Hread Hsel Hitems Hrw.
  set (name := ContextRagMain.arg_model a) in *.
  set (self := ContextRagEmbedder.Embedder name
                 (ContextRagMain.arg_cache_dir a) m).
  set (w0 := logged ("Processing " +:+ Py.str (length items) +:+ " chunks...")
               (ContextRagMain.loaded name w)).
  destruct (embed_chunks_has_content self items w0 Hitems)
    as (texts & es & w1 & _ & Hgen & Hes & Hembed).
  destruct (generate_embeddings_files self texts w0) as [Hfiles Hro].
  rewrite Hgen in Hfiles, Hro. simpl in Hfiles, Hro.
  set (embedded_chunks := zip_with with_embedding (Py.dict_prefix items) es) in *.
  exists embedded_chunks.
  eexists. eexists. split; [|split; [|split; [|split; [|split]]]].
  - unfold ContextRagMain.main. fold name.
    rewrite (init_loaded load _ _ m w Hload), Htext, Hinput. fold self.
    change (ContextRagMain.load_json path (ContextRagMain.loaded name w))
      with (ContextRagMain.load_json path w).
    rewrite Hread. cbv zeta. rewrite Hsel. cbn [Py.len].
    change (ContextRagEmbedder.print_stderr
              ("Processing " +:+ Py.str (length items) +:+ " chunks...")
              (ContextRagMain.loaded name w))
      with (Ok tt, w0).
    cbv iota beta. rewrite Hembed, Houtput, Hro, Hrw. reflexivity.
  - exists es. split; [reflexivity|].
    destruct Hes as [Hes | Hes]; [left; exact Hes | right; eauto].
  - simpl. rewrite Hfiles. reflexivity.
  - unfold ContextRagMain.load_json. simpl. rewrite lookup_insert_eq.
    reflexivity.
  - unfold Py.select_chunks_of_dict, Py.dict_of.
    rewrite list_to_map_to_list.
    rewrite (lookup_insert_ne _ "total_chunks" "chunks") by discriminate.
    rewrite lookup_insert_eq. reflexivity.
  - apply dict_prefix_chunk_values.
Qed.

Lemma main_output_file_witness :
  let a := ContextRagMain.Args "all-MiniLM-L6-v2" cache_directory
             (Some "in.json") (Some "out.json") None in
  let w := ContextRagEmbedder.World
             (<["in.json" := ContextRagEmbedder.JsonOther
                               (VList [VDict [("content", VStr "x")]])]> ∅)
             false [] [] in
  exists embedded_chunks w' written,
    ContextRagMain.main (fun _ => Some (ContextRagEmbedder.model minilm)) a
      None w = (ContextRagMain.Run [] 0, w')
    /\ (exists embeddings,
          embedded_chunks
          = zip_with with_embedding
              (Py.dict_prefix [VDict [("content", VStr "x")]]) embeddings
          /\ (embeddings = []
              \/ exists texts,
                   ContextRagEmbedder.model minilm texts = Some embeddings))
    /\ ContextRagEmbedder.files w'
       = <["out.json" := ContextRagMain.result_file "all-MiniLM-L6-v2"
                           embedded_chunks]> (ContextRagEmbedder.files w)
    /\ ContextRagMain.load_json "out.json" w' = Py.Done written
    /\ Py.select_chunks_of_dict written
       = VList (map Py.chunk_value embedded_chunks)
    /\ Py.dict_prefix (map Py.chunk_value embedded_chunks) = embedded_chunks.
Proof.
  apply (main_output_file
           (fun _ => Some (ContextRagEmbedder.model minilm))
           (ContextRagMain.Args "all-MiniLM-L6-v2" cache_directory
              (Some "in.json") (Some "out.json") None)
           (ContextRagEmbedder.model minilm) "in.json" "out.json"
           (VList [VDict [("content", VStr "x")]])
           [VDict [("content", VStr "x")]] None
           (ContextRagEmbedder.World
              (<["in.json" := ContextRagEmbedder.JsonOther
                                (VList [VDict [("content", VStr "x")]])]> ∅)
              false [] [])).
  - reflexivity.
  - reflexivity.
  - reflexivity.
  - reflexivity.
  - reflexivity.
  - reflexivity.
  - repeat constructor. simpl. vm_compute. eauto.
  - reflexivity.
Defined.
